(** * Seamstress Production Planner: the pages of [app.py]

    A shallow embedding of the "Task Table" branch of [app.py]
    (lines 27-114): the load of the worksheet into a data frame, the
    required-column check, the add form, the status/category filters, and
    the update/delete actions on the selected grid row; and of the
    "Dashboard" branch (lines 116-144) with the dispatch on the menu.

    The page is a Streamlit script: one run of the script is one
    interaction.  A run reads the widgets (here a record of inputs),
    talks to the remote worksheet through [gspread] (here an explicit
    store threaded through a small monad), and ends either by reaching
    the end of the script, by [st.stop()], by [st.experimental_rerun()]
    or by an uncaught exception.

    What is modelled of the libraries the script calls:
    - the worksheet is a header row (row 1) followed by data rows; the
      cells hold the Python values they were written with, and
      [get_all_records] returns them as stored (the conversion of texts
      that look like numbers is left out);
    - a request to the worksheet is served or failed by the service; the
      store carries, for the requests to come, which ones are failed;
      [append_row] and [delete_row] are one request each, [insert_row] is
      two (the blank row, then its cells);
    - the body of a request is encoded as JSON before it is sent: a
      position or a cell that is a NumPy scalar cannot be encoded and the
      call raises [TypeError].  Whether the position of line 101 is a
      Python [int] or a [numpy.int64] depends on the version of pandas,
      and which rows taken from the grid can be encoded depends on the
      types of their columns: both are inputs of a run;
    - the labels of a frame built from no record are a [RangeIndex], which
      has no [.str] (pandas 2 and 3): lines 30 and 120 raise
      [AttributeError] on a sheet without records;
    - a data frame is its column labels and its rows, each row carrying
      its index label; it is built from records that all have the keys of
      the header, and its labels are looked up by their first place, so
      the properties of loaded frames are stated for sheets that are
      rectangular and whose labels stay distinct once normalized
      ([table_ok]);
    - text is ASCII: [str.strip] and [str.title] are embedded on bytes;
    - [pd.to_datetime] is a parameter of the development. *)

From Stdlib Require Import QArith Ascii String.
From stdpp Require Import base list strings.

(** ** Python values held by cells *)

Inductive value :=
| VStr (s : string)
| VInt (n : Z)
| VFloat (x : Q)
| VNaN
| VTimestamp (ns : Z)
| VNaT.

(** Python's [==] on the values above.  Numbers compare by value across
    [int] and [float]; [NaN] and [NaT] are equal to nothing. *)
Definition py_eq (a b : value) : bool :=
  match a, b with
  | VStr s, VStr t => String.eqb s t
  | VInt m, VInt n => Z.eqb m n
  | VInt m, VFloat y => Qeq_bool (inject_Z m) y
  | VFloat x, VInt n => Qeq_bool x (inject_Z n)
  | VFloat x, VFloat y => Qeq_bool x y
  | VTimestamp m, VTimestamp n => Z.eqb m n
  | _, _ => false
  end.

(** [Series.isin(values)] *)
Definition isin (values : list value) (v : value) : bool :=
  existsb (py_eq v) values.

(** ** Text: [str.strip] and [str.title] *)

Module Text.

Definition code (c : ascii) : nat := nat_of_ascii c.

(** Python's ASCII whitespace: TAB, LF, VT, FF, CR, FS, GS, RS, US, SP. *)
Definition isspace (c : ascii) : bool :=
  let n := code c in
  ((9 <=? n) && (n <=? 13)) || ((28 <=? n) && (n <=? 32)).

Definition isupper (c : ascii) : bool :=
  let n := code c in (65 <=? n) && (n <=? 90).

Definition islower (c : ascii) : bool :=
  let n := code c in (97 <=? n) && (n <=? 122).

Definition upper (c : ascii) : ascii :=
  if islower c then ascii_of_nat (code c - 32) else c.

Definition lower (c : ascii) : ascii :=
  if isupper c then ascii_of_nat (code c + 32) else c.

Fixpoint lstrip (s : string) : string :=
  match s with
  | String c s' => if isspace c then lstrip s' else s
  | EmptyString => EmptyString
  end.

(** [rstrip] keeps a character when it is not a space or when something
    is left after it. *)
Fixpoint rstrip (s : string) : string :=
  match s with
  | String c s' =>
      match rstrip s' with
      | EmptyString => if isspace c then EmptyString else String c EmptyString
      | r => String c r
      end
  | EmptyString => EmptyString
  end.

Definition strip (s : string) : string := rstrip (lstrip s).

(** [str.title]: a cased character is upper-cased when the character
    before it is not cased, and lower-cased when it is. *)
Fixpoint title_from (previous_is_cased : bool) (s : string) : string :=
  match s with
  | String c s' =>
      if islower c || isupper c
      then String (if previous_is_cased then lower c else upper c)
                  (title_from true s')
      else String c (title_from false s')
  | EmptyString => EmptyString
  end.

Definition title (s : string) : string := title_from false s.

(** [', '.join(parts)] *)
Fixpoint join (sep : string) (parts : list string) : string :=
  match parts with
  | [] => EmptyString
  | [p] => p
  | p :: rest => p +:+ sep +:+ join sep rest
  end.

End Text.

(** ** Dates: [str(date)] and [strftime("%Y-%m-%d")] *)

Record date := Date { year : nat; month : nat; day : nat }.

Module Fmt.

Definition digit (n : nat) : ascii := ascii_of_nat (48 + n mod 10).

Definition two (n : nat) : string :=
  String (digit (n / 10)) (String (digit n) EmptyString).

Definition four (n : nat) : string :=
  String (digit (n / 1000)) (String (digit (n / 100)) (two n)).

(** [YYYY-MM-DD], each field padded with zeros.  This is [date.isoformat]
    (what [str(due)] returns), and [strftime("%Y-%m-%d")] for the years
    from 1000 on. *)
Definition ymd (d : date) : string :=
  four (year d) +:+ "-" +:+ two (month d) +:+ "-" +:+ two (day d).

Definition isdigit (c : ascii) : bool :=
  let n := nat_of_ascii c in (48 <=? n) && (n <=? 57).

Definition isdash (c : ascii) : bool := Ascii.eqb c "-"%char.

(** The shape [dddd-dd-dd]. *)
Definition is_ymd (s : string) : bool :=
  match list_ascii_of_string s with
  | [y1; y2; y3; y4; s1; m1; m2; s2; d1; d2] =>
      forallb isdigit [y1; y2; y3; y4; m1; m2; d1; d2]
      && isdash s1 && isdash s2
  | _ => false
  end.

Definition digit_value (c : ascii) : nat := nat_of_ascii c - 48.

(** The date a text of the shape [dddd-dd-dd] spells. *)
Definition read_ymd (s : string) : option date :=
  match list_ascii_of_string s with
  | [y1; y2; y3; y4; _; m1; m2; _; d1; d2] =>
      if is_ymd s
      then Some {| year := 1000 * digit_value y1 + 100 * digit_value y2
                           + 10 * digit_value y3 + digit_value y4;
                   month := 10 * digit_value m1 + digit_value m2;
                   day := 10 * digit_value d1 + digit_value d2 |}
      else None
  | _ => None
  end.

End Fmt.

Arguments Fmt.digit : simpl never.
Arguments Fmt.ymd : simpl never.

(** ** The worksheet and the calls on it *)

(** Row 1 is the header; data row [i] (from 0) is physical row [i + 2]. *)
Record worksheet := Worksheet {
  header : list string;
  body : list (list value)
}.

Inductive call :=
| GetAllRecords
| AppendRow (values : list value)
| DeleteRow (index : nat)
| InsertRow (values : list value) (index : nat).

(** [append_row]: a new last row. *)
Definition append_row_on (values : list value) (ws : worksheet) : worksheet :=
  {| header := header ws; body := body ws ++ [values] |}.

(** [delete_row(index)], [index] a 1-based physical row.  A row past the
    last record is a blank row of the grid: deleting it changes no
    record. *)
Definition delete_row_on (index : nat) (ws : worksheet) : worksheet :=
  {| header := header ws; body := delete (index - 2) (body ws) |}.

(** [insert_row(values, index)]: the new row becomes physical row
    [index], the rows from there on move down by one. *)
Definition insert_row_on (values : list value) (index : nat) (ws : worksheet)
  : worksheet :=
  {| header := header ws;
     body := take (index - 2) (body ws) ++ values :: drop (index - 2) (body ws) |}.

(** The two requests [insert_row] is made of: a blank row (a row without
    any cell) is inserted at [index], then the values are written into
    it. *)
Definition insert_blank_on (index : nat) (ws : worksheet) : worksheet :=
  insert_row_on [] index ws.

Definition write_row_on (values : list value) (index : nat) (ws : worksheet)
  : worksheet :=
  {| header := header ws; body := <[index - 2 := values]> (body ws) |}.

(** The page only ever addresses data rows (see [row_number_ge_2]); a
    request on the header row or on row 0 is not given a meaning here and
    is rejected. *)
Definition addresses_data (index : nat) : bool := 2 <=? index.

(** ** Data frames *)

Record DataFrame := {
  columns : list string;
  data : list (nat * list value)     (* index label, cells *)
}.

(** One record per data row, keyed by the header: [dict(zip(keys, row))].
    The cells are returned as the sheet holds them: that [get_all_records]
    turns a text that reads as a number into that number is not
    modelled. *)
Definition records_of (ws : worksheet) : list (list (string * value)) :=
  map (zip (header ws)) (body ws).

(** [pd.DataFrame(records)]: the labels are the keys of the records, the
    index is [0 .. n-1].  No record, no column. *)
Definition DataFrame_of (records : list (list (string * value))) : DataFrame :=
  {| columns := match records with [] => [] | r :: _ => r.*1 end;
     data := imap (fun i r => (i, r.*2)) records |}.

Definition index (df : DataFrame) : list nat := (data df).*1.
Definition rows (df : DataFrame) : list (list value) := (data df).*2.

(** Position of a label among the columns. *)
Fixpoint get_loc (col : string) (cols : list string) : option nat :=
  match cols with
  | [] => None
  | c :: cols' => if String.eqb c col then Some 0 else S <$> get_loc col cols'
  end.

(** [col in df.columns] *)
Definition has_column (cols : list string) (col : string) : bool :=
  existsb (String.eqb col) cols.

(** Boolean indexing: the entries at which the mask is true. *)
Fixpoint compress {A} (mask : list bool) (l : list A) : list A :=
  match mask, l with
  | b :: mask', x :: l' =>
      if b then x :: compress mask' l' else compress mask' l'
  | _, _ => []
  end.

(** [df[mask]]: the rows at which the mask is true, labels kept. *)
Definition boolean_index (df : DataFrame) (mask : list bool) : DataFrame :=
  {| columns := columns df; data := compress mask (data df) |}.

(** [Series.unique()]: first occurrences, in order. *)
Fixpoint unique (l : list value) : list value :=
  match l with
  | [] => []
  | v :: l' => v :: List.filter (fun w => negb (py_eq w v)) (unique l')
  end.

(** ** What a run shows and does *)

Inductive event :=
| Remote (c : call)                  (* a call on the worksheet *)
| Subheader (text : string)
| Error (text : string)
| Success (text : string)
| Warning (text : string)
| Markdown (text : string)
| Form (key : string)
| Multiselect (label : string) (options : list value)
| Grid (df : DataFrame).

Inductive exn := IndexError | KeyError | APIError | TypeError | AttributeError.

(** How a run of the script goes on after a statement. *)
Inductive outcome (A : Type) :=
| Return (a : A)
| Stop                     (* st.stop() *)
| Rerun                    (* st.experimental_rerun() *)
| Raise (e : exn).         (* an exception nobody catches *)
Arguments Return {A} a.
Arguments Stop {A}.
Arguments Rerun {A}.
Arguments Raise {A} e.

(** The remote side: the worksheet, and for each request still to come
    whether the service fails it ([true]); past the end of the list every
    request is served. *)
Record store := Store {
  sheet : worksheet;
  faults : list bool
}.

Definition M (A : Type) : Type := store -> outcome A * store * list event.

Definition ret {A} (a : A) : M A := fun s => (Return a, s, []).

Definition bind {A B} (m : M A) (k : A -> M B) : M B :=
  fun s =>
    match m s with
    | (Return a, s1, es1) =>
        let '(o, s2, es2) := k a s1 in (o, s2, es1 ++ es2)
    | (Stop, s1, es1) => (Stop, s1, es1)
    | (Rerun, s1, es1) => (Rerun, s1, es1)
    | (Raise e, s1, es1) => (Raise e, s1, es1)
    end.

Notation "'let*' x ':=' m 'in' k" := (bind m (fun x => k))
  (at level 10, x pattern, m at level 100, k at level 200).
Notation "m ';;' k" := (bind m (fun _ => k))
  (at level 100, k at level 200, right associativity).

Definition emit (e : event) : M unit := fun s => (Return tt, s, [e]).
Definition raise {A} (e : exn) : M A := fun s => (Raise e, s, []).
Definition st_stop {A} : M A := fun s => (Stop, s, []).
Definition st_experimental_rerun {A} : M A := fun s => (Rerun, s, []).
Definition when (b : bool) (m : M unit) : M unit := if b then m else ret tt.

(** [o] or the exception [e] when there is nothing. *)
Definition or_raise {A} (e : exn) (o : option A) : M A :=
  match o with Some a => ret a | None => raise e end.

(** A request to the worksheet: it is sent, the service serves or fails
    it, and a failure surfaces as [APIError] with the sheet as it was. *)
Definition request {A} (c : call) (serve : worksheet -> A * worksheet) : M A :=
  fun s =>
    let rest := tail (faults s) in
    match faults s with
    | true :: _ => (Raise APIError, {| sheet := sheet s; faults := rest |}, [Remote c])
    | _ =>
        let '(a, ws) := serve (sheet s) in
        (Return a, {| sheet := ws; faults := rest |}, [Remote c])
    end.

Definition get_all_records : M (list (list (string * value))) :=
  request GetAllRecords (fun ws => (records_of ws, ws)).

Definition append_row (values : list value) : M unit :=
  request (AppendRow values) (fun ws => (tt, append_row_on values ws)).

(** One more request of a call that is already under way. *)
Definition http {A} (serve : worksheet -> A * worksheet) : M A :=
  fun s =>
    let rest := tail (faults s) in
    match faults s with
    | true :: _ => (Raise APIError, {| sheet := sheet s; faults := rest |}, [])
    | _ =>
        let '(a, ws) := serve (sheet s) in
        (Return a, {| sheet := ws; faults := rest |}, [])
    end.

(** [json.dumps] on a part of the body of a request. *)
Definition encode (encodable : bool) : M unit :=
  if encodable then ret tt else raise TypeError.

(** [delete_row(index)]: the position is part of the body of the request,
    so a position that is not an [int] ends the call before anything is
    sent. *)
Definition delete_row (int_position : bool) (index : nat) : M unit :=
  emit (Remote (DeleteRow index)) ;;
  encode int_position ;;
  if addresses_data index
  then http (fun ws => (tt, delete_row_on index ws))
  else raise APIError.

(** [insert_row(values, index)]: first the request that inserts a blank
    row at the position, then the request that writes the values into
    it.  The values are encoded for the second request only. *)
Definition insert_row (int_position : bool) (json_ok : list value -> bool)
    (values : list value) (index : nat) : M unit :=
  emit (Remote (InsertRow values index)) ;;
  encode int_position ;;
  if addresses_data index
  then
    http (fun ws => (tt, insert_blank_on index ws)) ;;
    encode (json_ok values) ;;
    http (fun ws => (tt, write_row_on values index ws))
  else raise APIError.

(** ** The widgets of the page *)

Inductive category := Stitching | CustomAlteration | Labelling.
Inductive status := Working | Done | Stuck.
Inductive priority := Low | Medium | High.

Definition category_text (c : category) : string :=
  match c with
  | Stitching => "Stitching"
  | CustomAlteration => "Custom/Alteration"
  | Labelling => "Labelling"
  end.

Definition status_text (s : status) : string :=
  match s with Working => "Working" | Done => "Done" | Stuck => "Stuck" end.

Definition priority_text (p : priority) : string :=
  match p with Low => "Low" | Medium => "Medium" | High => "High" end.

(** The add form as the user filled it. *)
Record add_task_form := {
  task : string;
  task_category : category;
  qty : Z;                      (* number_input, min_value=1 *)
  seamstress : string;
  task_status : status;
  task_priority : priority;
  cost : Q;                     (* number_input, min_value=0.0 *)
  exp_file : string;
  del_file : string;
  due : date
}.

(** A row the grid reports as selected. *)
Record selected := {
  nodeRowIndex : nat;           (* ['_selectedRowNodeInfo']['nodeRowIndex'] *)
  fields : list (string * value)
}.

(** Everything one run reads from the user and from the clock, and what
    the libraries under it do with the scalars of a frame. *)
Record inputs := {
  add_form : add_task_form;
  add_clicked : bool;           (* form_submit_button("Add Task") *)
  filter1 : list value;         (* multiselect "Filter by Status" *)
  filter2 : list value;         (* multiselect "Filter by Category" *)
  updated_df : DataFrame;       (* grid_response["data"] *)
  selected_row : list selected; (* grid_response["selected_rows"] *)
  update_clicked : bool;        (* button("Update Selected Task") *)
  delete_clicked : bool;        (* button("Delete Selected Task") *)
  today : date;                 (* datetime.today() *)
  int_position : bool;          (* df.index[...][0] + 2 is an int (pandas 3),
                                   not a numpy.int64 (pandas before 3) *)
  json_ok : list value -> bool  (* json can encode updated_df.iloc[i].tolist()
                                   once its last cell is the stamp *)
}.

(** [d[key]] on a dict *)
Fixpoint dict_get (key : string) (d : list (string * value)) : option value :=
  match d with
  | [] => None
  | (k, v) :: d' => if String.eqb k key then Some v else dict_get key d'
  end.

(** ** The page *)

Definition required_columns : list string :=
  ["Task Name"; "Category"; "Quantity"; "Seamstress"; "Status"; "Priority";
   "Cost"; "Expected File Upload"; "Delivered File Upload"; "Timeline";
   "Last Updated"].

(** [df.columns.str.strip().str.title()], label by label *)
Definition normalize (label : string) : string := Text.title (Text.strip label).

(** What [get_all_records] hands over for any sheet it reads: labels that
    stay distinct once normalized, and as many cells in a row as there are
    labels. *)
Definition table_ok (ws : worksheet) : bool :=
  bool_decide (NoDup (map normalize (header ws)))
  && forallb (fun r => length r =? length (header ws)) (body ws).

(** [[col for col in required_columns if col not in df.columns]] *)
Definition missing_cols (cols : list string) : list string :=
  List.filter (fun col => negb (has_column cols col)) required_columns.

Definition missing_message (missing : list string) : string :=
  "❌ Missing columns in Google Sheet: " +:+ Text.join ", " missing.

(** The row the add form writes (lines 61-64). *)
Definition new_task_row (f : add_task_form) (now : date) : list value :=
  [VStr (task f); VStr (category_text (task_category f)); VInt (qty f);
   VStr (seamstress f); VStr (status_text (task_status f));
   VStr (priority_text (task_priority f)); VFloat (cost f);
   VStr (exp_file f); VStr (del_file f); VStr (Fmt.ymd (due f));
   VStr (Fmt.ymd now)].

(** [row[-1] = v]; an empty list has no last element. *)
Definition set_last (row : list value) (v : value) : option (list value) :=
  match row with
  | [] => None
  | _ => Some (<[length row - 1 := v]> row)
  end.

(** [df[col]]: the cells of a column, top to bottom; a row too short to
    have the cell shows [NaN]. *)
Definition getitem (df : DataFrame) (col : string) : M (list value) :=
  let* j := or_raise KeyError (get_loc col (columns df)) in
  ret (map (fun r => default VNaN (r !! j)) (rows df)).

(** [df[col] = series]: the cell of each row replaced by the entry of the
    series at the row's place. *)
Definition setitem (df : DataFrame) (col : string) (series : list value)
  : M DataFrame :=
  let* j := or_raise KeyError (get_loc col (columns df)) in
  ret {| columns := columns df;
         data := imap (fun i r => (r.1, <[j := default VNaT (series !! i)]> r.2))
                      (data df) |}.

(** [df[df[col].isin(values)]] *)
Definition isin_rows (df : DataFrame) (col : string) (values : list value)
  : M DataFrame :=
  let* series := getitem df col in
  ret (boolean_index df (map (isin values) series)).

(** Lines 72-76; an empty selection is falsy and leaves the frame as it is. *)
Definition filtered_df (df : DataFrame) (filter1 filter2 : list value)
  : M DataFrame :=
  let filtered_df := df in
  let* filtered_df :=
    match filter1 with
    | _ :: _ => isin_rows filtered_df "Status" filter1
    | [] => ret filtered_df
    end in
  match filter2 with
  | _ :: _ => isin_rows filtered_df "Category" filter2
  | [] => ret filtered_df
  end.

(** Line 101: [df.index[df["Task Name"] == name][0] + 2].  The number
    is a Python [int] or a [numpy.int64], depending on the version of
    pandas: that is the input [int_position] of a run. *)
Definition row_number (df : DataFrame) (name : value) : M nat :=
  let* names := getitem df "Task Name" in
  let mask := map (fun v => py_eq v name) names in
  let* i := or_raise IndexError (head (compress mask (index df))) in
  ret (i + 2).

Section Page.

(** [pd.to_datetime(series, errors='coerce')] *)
Variable to_datetime : list value -> list value.

(** Lines 28-40: the frame the rest of the page works on. *)
Definition load : M DataFrame :=
  emit (Subheader "📌 Manage Production Tasks") ;;
  let* records := get_all_records in
  let df := DataFrame_of records in
  (match records with [] => raise AttributeError | _ => ret tt end) ;;
  let df := {| columns := map normalize (columns df); data := data df |} in
  let missing := missing_cols (columns df) in
  match missing with
  | _ :: _ => emit (Error (missing_message missing)) ;; st_stop
  | [] =>
      let* last_updated := getitem df "Last Updated" in
      setitem df "Last Updated" (to_datetime last_updated)
  end.

(** Lines 43-66. *)
Definition add_task (inp : inputs) : M unit :=
  emit (Form "add_task_form") ;;
  when (add_clicked inp) (
    append_row (new_task_row (add_form inp) (today inp)) ;;
    emit (Success "✅ Task added.") ;;
    st_experimental_rerun).

(** Lines 99-114. *)
Definition selected_row_actions (df : DataFrame) (inp : inputs) : M unit :=
  match selected_row inp with
  | [] => ret tt
  | first :: _ =>
      let row_index := nodeRowIndex first in
      let* name := or_raise KeyError (dict_get "Task Name" (fields first)) in
      let* row_number := row_number df name in
      emit (Markdown "### ✏️ Selected Row Actions") ;;
      when (update_clicked inp) (
        let* new_row := or_raise IndexError (rows (updated_df inp) !! row_index) in
        let* new_row := or_raise IndexError
                          (set_last new_row (VStr (Fmt.ymd (today inp)))) in
        delete_row (int_position inp) row_number ;;
        insert_row (int_position inp) (json_ok inp) new_row row_number ;;
        emit (Success "✅ Task updated.") ;;
        st_experimental_rerun) ;;
      when (delete_clicked inp) (
        delete_row (int_position inp) row_number ;;
        emit (Warning "🗑️ Task deleted.") ;;
        st_experimental_rerun)
  end.

(** Lines 27-114: one run of the task table page. *)
Definition task_table (inp : inputs) : M unit :=
  let* df := load in
  add_task inp ;;
  let* statuses := getitem df "Status" in
  emit (Multiselect "Filter by Status" (unique statuses)) ;;
  let* categories := getitem df "Category" in
  emit (Multiselect "Filter by Category" (unique categories)) ;;
  let* filtered_df := filtered_df df (filter1 inp) (filter2 inp) in
  emit (Markdown "### 📋 Editable Task Table") ;;
  emit (Grid filtered_df) ;;
  selected_row_actions df inp.

End Page.

(** ** Names for what a run goes through *)

(** The frame of line 30, before the check of the columns. *)
Definition raw_frame (ws : worksheet) : DataFrame :=
  {| columns := map normalize (columns (DataFrame_of (records_of ws)));
     data := data (DataFrame_of (records_of ws)) |}.
Arguments raw_frame : simpl never.

(** The frame of line 40: column [j] replaced by what [to_datetime] makes
    of it. *)
Definition converted (to_datetime : list value -> list value) (df : DataFrame)
    (j : nat) : DataFrame :=
  {| columns := columns df;
     data := imap (fun i r =>
               (r.1, <[j := default VNaT
                          (to_datetime (map (fun r => default VNaN (r !! j)) (rows df))
                             !! i)]> r.2))
               (data df) |}.

(** The store once a request has been answered. *)
Definition served (s : store) : store :=
  {| sheet := sheet s; faults := tail (faults s) |}.

Definition load_events : list event :=
  [Subheader "📌 Manage Production Tasks"; Remote GetAllRecords].


(** The cell of a row under a label, [NaN] when there is none. *)
Definition at_col (df : DataFrame) (col : string) (row : list value) : value :=
  match get_loc col (columns df) with
  | Some j => default VNaN (row !! j)
  | None => VNaN
  end.

(** The cells of a column, top to bottom. *)
Definition series (df : DataFrame) (col : string) : list value :=
  map (at_col df col) (rows df).

(** A selection admits a value when it is empty or holds the value. *)
Definition admits (selection : list value) (v : value) : bool :=
  match selection with
  | [] => true
  | _ => isin selection v
  end.

(** The filtered view as the specification words it: the records that
    match the current status and category selections. *)
Definition filtered_view (df : DataFrame) (filter1 filter2 : list value)
  : DataFrame :=
  {| columns := columns df;
     data := List.filter
               (fun r => admits filter1 (at_col df "Status" r.2)
                         && admits filter2 (at_col df "Category" r.2))
               (data df) |}.

(** What the page shows between the load and the actions on the selected
    row, when the add form is not submitted. *)
Definition view_events (df : DataFrame) (filter1 filter2 : list value)
  : list event :=
  [Form "add_task_form";
   Multiselect "Filter by Status" (unique (series df "Status"));
   Multiselect "Filter by Category" (unique (series df "Category"));
   Markdown "### 📋 Editable Task Table";
   Grid (filtered_view df filter1 filter2)].

(** The same interaction with other filter selections. *)
Definition with_filters (inp : inputs) (f1 f2 : list value) : inputs :=
  {| add_form := add_form inp; add_clicked := add_clicked inp;
     filter1 := f1; filter2 := f2;
     updated_df := updated_df inp; selected_row := selected_row inp;
     update_clicked := update_clicked inp; delete_clicked := delete_clicked inp;
     today := today inp;
     int_position := int_position inp; json_ok := json_ok inp |}.

(** The same interaction on other libraries. *)
Definition with_libraries (inp : inputs) (int_position : bool)
    (json_ok : list value -> bool) : inputs :=
  {| add_form := add_form inp; add_clicked := add_clicked inp;
     filter1 := filter1 inp; filter2 := filter2 inp;
     updated_df := updated_df inp; selected_row := selected_row inp;
     update_clicked := update_clicked inp; delete_clicked := delete_clicked inp;
     today := today inp;
     int_position := int_position; json_ok := json_ok |}.

(** The calls on the worksheet among the events of a run, in order; a
    call that raised before it sent anything is among them. *)
Definition requests (es : list event) : list call :=
  omap (fun e => match e with Remote c => Some c | _ => None end) es.

(** The first place at which a name stands in a column of names. *)
Fixpoint first_match (name : value) (names : list value) : option nat :=
  match names with
  | [] => None
  | v :: names' =>
      if py_eq v name then Some 0 else S <$> first_match name names'
  end.

(** The cells the sheet holds under a label, one per data row. *)
Definition sheet_column (ws : worksheet) (col : string) : list value :=
  map (fun r => default VNaN (j ← get_loc col (map normalize (header ws)); r !! j))
      (body ws).

(** The store once a request has been served and left the sheet [ws]. *)
Definition answered (ws : worksheet) (s : store) : store :=
  {| sheet := ws; faults := tail (faults s) |}.

(** Is the next request served? *)
Definition next_served (s : store) : bool :=
  match faults s with
  | true :: _ => false
  | _ => true
  end.

(** What the page shows once it has resolved the selected row. *)
Definition actions_header : event := Markdown "### ✏️ Selected Row Actions".

(** Row [i] of a column of names is the first one that has the name. *)
Definition first_row_named (name : value) (names : list value) (i : nat) : Prop :=
  (exists v, names !! i = Some v /\ py_eq v name = true) /\
  (forall j v, j < i -> names !! j = Some v -> py_eq v name = false).

(** Does the service fail the [k]-th request from now (from 0)? *)
Definition fails (s : store) (k : nat) : bool := default false (faults s !! k).

(** Everything a run has shown when it comes to the buttons of the
    selected row. *)
Definition shown_on_selection (df : DataFrame) (inp : inputs) : list event :=
  load_events ++ view_events df (filter1 inp) (filter2 inp) ++ [actions_header].

(** The label-to-value dict the grid reports for a row of a frame. *)
Definition as_fields (cols : list string) (row : list value)
  : list (string * value) := zip cols row.

(** ** Sample sheets and interactions *)

Module Sample.

(** A conversion under which no text parses as a date. *)
Definition nothing_parses (col : list value) : list value :=
  map (fun _ => VNaT) col.

Definition record (name who state : string) : list value :=
  [VStr name; VStr "Stitching"; VInt 2; VStr who; VStr state; VStr "Medium";
   VFloat (25 # 2); VStr ""; VStr ""; VStr "2024-03-01"; VStr "2024-02-20"].

Definition alice := record "Alice" "Ana" "Working".
Definition bob := record "Bob" "Bea" "Done".
Definition carol := record "Carol" "Ana" "Stuck".

(** Three tasks: Alice/Working, Bob/Done, Carol/Stuck. *)
Definition three : worksheet :=
  {| header := required_columns; body := [alice; bob; carol] |}.

(** What the grid reads once the user has retyped the name of the
    second task. *)
Definition three_retyped : worksheet :=
  {| header := required_columns;
     body := [alice; record "Bobby" "Bea" "Done"; carol] |}.



(** Two tasks that share their name. *)
Definition hem_ana := record "Hem" "Ana" "Working".
Definition hem_bea := record "Hem" "Bea" "Stuck".
Definition twins : worksheet :=
  {| header := required_columns; body := [hem_ana; hem_bea] |}.

(** The frame a load makes of a sheet of the schema. *)
Definition frame (ws : worksheet) : DataFrame :=
  converted nothing_parses (raw_frame ws) 10.


Definition form : add_task_form :=
  {| task := "Bob"; task_category := Labelling; qty := 40;
     seamstress := "Bea"; task_status := Working; task_priority := High;
     cost := 18 # 1; exp_file := ""; del_file := "";
     due := Date 2024 4 15 |}.

Definition now : date := Date 2024 3 7.

(** The rows of a frame that json encodes when the whole numbers of the
    frame are [numpy.int64]: those of texts and floats only. *)
Definition encodes (row : list value) : bool :=
  forallb (fun v => match v with VStr _ | VFloat _ => true | _ => false end) row.


(** The add form submitted. *)
Definition add : inputs :=
  {| add_form := form; add_clicked := true; filter1 := []; filter2 := [];
     updated_df := {| columns := required_columns; data := [] |};
     selected_row := [];
     update_clicked := false; delete_clicked := false; today := now;
     int_position := false; json_ok := encodes |}.

(** The grid shows the frame [shown] under the filters [f1] and [f2];
    the user edits nothing, selects the row displayed at [at_row], and
    clicks as told. *)
Definition select (f1 f2 : list value) (shown : DataFrame) (at_row : nat)
    (update delete : bool) : inputs :=
  {| add_form := form; add_clicked := false; filter1 := f1; filter2 := f2;
     updated_df := shown;
     selected_row :=
       match rows shown !! at_row with
       | Some row => [ {| nodeRowIndex := at_row;
                          fields := as_fields (columns shown) row |} ]
       | None => []
       end;
     update_clicked := update; delete_clicked := delete; today := now;
     int_position := false; json_ok := encodes |}.

(** The same interaction under pandas 3. *)
Definition pandas3 (inp : inputs) : inputs := with_libraries inp true encodes.

End Sample.

(** ** What a run may do to the sheet *)

(** A position that addresses a record of the sheet. *)
Definition data_row (ws : worksheet) (p : nat) : Prop :=
  2 <= p /\ p < 2 + length (body ws).

(** The ways a run of the task table page can end, with the calls it
    made after the read and the sheet it leaves: nothing called; a row
    appended, or its request failed; a row deleted, or [delete_row]
    ended by an exception ([APIError] from the service, [TypeError] from
    the encoding of the position); a row deleted and one inserted in its
    place; the delete served and [insert_row] ended by an exception,
    before its blank row was inserted or after. *)
Inductive run_effect : outcome unit -> worksheet -> list call -> worksheet -> Prop :=
| effect_none o ws :
    o <> Rerun -> run_effect o ws [] ws
| effect_added ws row :
    run_effect Rerun ws [AppendRow row] (append_row_on row ws)
| effect_add_failed ws row :
    run_effect (Raise APIError) ws [AppendRow row] ws
| effect_deleted ws p :
    data_row ws p ->
    run_effect Rerun ws [DeleteRow p] (delete_row_on p ws)
| effect_delete_failed ws p e :
    data_row ws p ->
    e = APIError \/ e = TypeError ->
    run_effect (Raise e) ws [DeleteRow p] ws
| effect_replaced ws p row :
    data_row ws p ->
    run_effect Rerun ws [DeleteRow p; InsertRow row p]
               (insert_row_on row p (delete_row_on p ws))
| effect_insert_failed ws p row :
    data_row ws p ->
    run_effect (Raise APIError) ws [DeleteRow p; InsertRow row p]
               (delete_row_on p ws)
| effect_insert_blank ws p row e :
    data_row ws p ->
    e = APIError \/ e = TypeError ->
    run_effect (Raise e) ws [DeleteRow p; InsertRow row p]
               (insert_blank_on p (delete_row_on p ws)).

(** ** The dashboard page and the dispatch on the menu *)

Inductive chart :=
| Pie (df : DataFrame) (names title : string)
| Histogram (df : DataFrame) (x color title : string).

(** What the application shows: what the task table page shows, and the
    widgets that only the dashboard and the frame of the application
    use. *)
Inductive widget :=
| Shown (e : event)
| Title (text : string)
| InfoBox (text : string)
| Written (text : string)
| Metric (label : string) (n : nat)
| PlotlyChart (c : chart)
| Dataframe (df : DataFrame).

(** The dashboard can end as the task table page can, or by the
    [ValueError] of a chart. *)
Inductive ending (A : Type) :=
| Went (o : outcome A)
| ValueError.
Arguments Went {A} o.
Arguments ValueError {A}.

Definition D (A : Type) : Type := store -> ending A * store * list widget.

Definition dret {A} (a : A) : D A := fun s => (Went (Return a), s, []).

Definition dbind {A B} (m : D A) (k : A -> D B) : D B :=
  fun s =>
    match m s with
    | (Went (Return a), s1, ws1) =>
        let '(o, s2, ws2) := k a s1 in (o, s2, ws1 ++ ws2)
    | (Went Stop, s1, ws1) => (Went Stop, s1, ws1)
    | (Went Rerun, s1, ws1) => (Went Rerun, s1, ws1)
    | (Went (Raise e), s1, ws1) => (Went (Raise e), s1, ws1)
    | (ValueError, s1, ws1) => (ValueError, s1, ws1)
    end.

Notation "'let+' x ':=' m 'in' k" := (dbind m (fun x => k))
  (at level 10, x pattern, m at level 100, k at level 200).
Notation "m ';;+' k" := (dbind m (fun _ => k))
  (at level 100, k at level 200, right associativity).

(** A computation of the task table page, run inside the application. *)
Definition lift {A} (m : M A) : D A :=
  fun s => let '(o, s1, es) := m s in (Went o, s1, map Shown es).

Definition display (w : widget) : D unit := fun s => (Went (Return tt), s, [w]).

Definition raise_ValueError {A} : D A := fun s => (ValueError, s, []).

(** [df.empty]: no row or no column. *)
Definition empty (df : DataFrame) : bool :=
  (length (data df) =? 0) || (length (columns df) =? 0).

(** [(series == v).sum()] *)
Definition count_eq (series : list value) (v : value) : nat :=
  length (List.filter (fun x => py_eq x v) series).

(** [df[col] = series] where the label may be new: the column is
    replaced, or added after the others. *)
Definition assign (df : DataFrame) (col : string) (series : list value)
  : DataFrame :=
  match get_loc col (columns df) with
  | Some j =>
      {| columns := columns df;
         data := imap (fun i r => (r.1, <[j := default VNaN (series !! i)]> r.2))
                      (data df) |}
  | None =>
      {| columns := columns df ++ [col];
         data := imap (fun i r => (r.1, r.2 ++ [default VNaN (series !! i)]))
                      (data df) |}
  end.

(** [df[[c1, c2, ...]]]: the named columns, in the order asked; a label
    the frame does not have is a [KeyError]. *)
Definition select_columns (df : DataFrame) (cols : list string) : M DataFrame :=
  let* js := or_raise KeyError (mapM (fun c => get_loc c (columns df)) cols) in
  ret {| columns := cols;
         data := map (fun r => (r.1, map (fun j => default VNaN (r.2 !! j)) js))
                     (data df) |}.

(** The columns a chart names. *)
Definition chart_columns (c : chart) : list string :=
  match c with
  | Pie _ names _ => [names]
  | Histogram _ x color _ => [x; color]
  end.

Definition chart_frame (c : chart) : DataFrame :=
  match c with
  | Pie df _ _ => df
  | Histogram df _ _ _ => df
  end.

(** [px.pie(df, ...)], [px.histogram(df, ...)]: a column name that the
    frame does not have is a [ValueError]. *)
Definition px (c : chart) : D chart :=
  if forallb (has_column (columns (chart_frame c))) (chart_columns c)
  then dret c
  else raise_ValueError.

(** [series < now] on a column of timestamps: [NaT] is before nothing. *)
Definition before (now : Z) (v : value) : bool :=
  match v with
  | VTimestamp t => Z.ltb t now
  | _ => false
  end.

Inductive page := TaskTable | Dashboard.

Section Application.

Variable to_datetime : list value -> list value.

(** [Series.dt.date] *)
Variable dt_date : list value -> list value.

(** Lines 137-139. *)
Definition charts (df : DataFrame) : D unit :=
  let+ fig := px (Pie df "Status" "Tasks by Status") in
  display (PlotlyChart fig) ;;+
  let+ fig := px (Histogram df "Due Date" "Status" "Tasks by Due Date") in
  display (PlotlyChart fig) ;;+
  let+ fig := px (Histogram df "Seamstress" "Status" "Tasks by Seamstress") in
  display (PlotlyChart fig).

(** Lines 141-144; [now] is [pd.Timestamp.today()]. *)
Definition overdue_tasks (df : DataFrame) (now : Z) : D unit :=
  let+ timeline := lift (getitem df "Timeline") in
  let overdue := boolean_index df (map (before now) timeline) in
  if negb (empty overdue)
  then
    display (Written "### ⏰ Overdue Tasks") ;;+
    let+ listed := lift (select_columns overdue
                           ["Task Name"; "Seamstress"; "Timeline"; "Status"]) in
    display (Dataframe listed)
  else dret tt.

(** Lines 134-144: the due dates, the charts, the overdue tasks. *)
Definition schedule (df : DataFrame) (now : Z) : D unit :=
  let+ timeline := lift (getitem df "Timeline") in
  let+ df := lift (setitem df "Timeline" (to_datetime timeline)) in
  let+ timeline := lift (getitem df "Timeline") in
  let df := assign df "Due Date" (dt_date timeline) in
  charts df ;;+
  overdue_tasks df now.

(** Lines 127-132. *)
Definition metrics (df : DataFrame) : D unit :=
  display (Written "### Summary") ;;+
  display (Metric "Total Tasks" (length (data df))) ;;+
  let+ status := lift (getitem df "Status") in
  display (Metric "✅ Done" (count_eq status (VStr "Done"))) ;;+
  let+ status := lift (getitem df "Status") in
  display (Metric "🟡 Working" (count_eq status (VStr "Working"))) ;;+
  let+ status := lift (getitem df "Status") in
  display (Metric "🔴 Stuck" (count_eq status (VStr "Stuck"))).

(** Lines 122-144: what the dashboard makes of the frame of line 120. *)
Definition summary (df : DataFrame) (now : Z) : D unit :=
  if empty df then display (InfoBox "No tasks found.")
  else if negb (has_column (columns df) "Status")
  then lift (emit (Error "❌ 'Status' column missing in the data."))
  else metrics df ;;+ schedule df now.

(** Lines 117-144. *)
Definition dashboard (now : Z) : D unit :=
  lift (emit (Subheader "📊 Task Summary Dashboard")) ;;+
  let+ records := lift get_all_records in
  let df := DataFrame_of records in
  lift (match records with [] => raise AttributeError | _ => ret tt end) ;;+
  let df := {| columns := map normalize (columns df); data := data df |} in
  summary df now.

(** Lines 20-27 and 116-117: the title, then the page chosen in the
    sidebar. *)
Definition app (menu : page) (inp : inputs) (now : Z) : D unit :=
  display (Title "🧵 Seamstress Production Planner") ;;+
  match menu with
  | TaskTable => lift (task_table to_datetime inp)
  | Dashboard => dashboard now
  end.

End Application.

(** The requests among the widgets of a run, in order. *)
Definition requests_shown (ws : list widget) : list call :=
  omap (fun w => match w with Shown (Remote c) => Some c | _ => None end) ws.

(** ** Labels up to blanks and letter case *)

(** Only whitespace. *)
Fixpoint blank (s : string) : bool :=
  match s with
  | EmptyString => true
  | String c s' => Text.isspace c && blank s'
  end.

(** The same characters, letter case apart. *)
Fixpoint same_letters (a b : string) : bool :=
  match a, b with
  | EmptyString, EmptyString => true
  | String c a', String d b' =>
      Ascii.eqb (Text.lower c) (Text.lower d) && same_letters a' b'
  | _, _ => false
  end.

(** A computation inside the application that sends no request and
    leaves the store as it is, however it ends. *)
Definition quiet {A} (m : D A) : Prop :=
  forall s, exists o ws, m s = (o, s, ws) /\ requests_shown ws = [].

(** The same for a computation of the task table page. *)
Definition silent {A} (m : M A) : Prop :=
  forall s, exists o es, m s = (o, s, es) /\ requests es = [].

(** What the dashboard has shown once it has read the sheet. *)
Definition dashboard_events : list widget :=
  [Shown (Subheader "📊 Task Summary Dashboard"); Shown (Remote GetAllRecords)].

(** The column of the sheet under [col] once converted (line 134). *)
Definition converted_column (to_datetime : list value -> list value)
    (ws : worksheet) (col : string) : list value :=
  imap (fun i _ => default VNaT (to_datetime (sheet_column ws col) !! i)) (body ws).

(** The summary of lines 127-132 for a frame. *)
Definition summary_widgets (df : DataFrame) : list widget :=
  [Written "### Summary";
   Metric "Total Tasks" (length (data df));
   Metric "✅ Done" (count_eq (series df "Status") (VStr "Done"));
   Metric "🟡 Working" (count_eq (series df "Status") (VStr "Working"));
   Metric "🔴 Stuck" (count_eq (series df "Status") (VStr "Stuck"))].

(** The frame the charts are drawn from (lines 134-135). *)
Definition dated_frame (to_datetime dt_date : list value -> list value)
    (df : DataFrame) (j : nat) : DataFrame :=
  assign (converted to_datetime df j) "Due Date"
         (dt_date (series (converted to_datetime df j) "Timeline")).

(** The three charts of lines 137-139 for a frame. *)
Definition chart_widgets (df : DataFrame) : list widget :=
  [PlotlyChart (Pie df "Status" "Tasks by Status");
   PlotlyChart (Histogram df "Due Date" "Status" "Tasks by Due Date");
   PlotlyChart (Histogram df "Seamstress" "Status" "Tasks by Seamstress")].

(** A status the summary counts. *)
Definition counted (v : value) : Prop :=
  v = VStr "Done" \/ v = VStr "Working" \/ v = VStr "Stuck".

(** Every row has a cell under every label. *)
Definition rectangular (df : DataFrame) : Prop :=
  forall r, In r (rows df) -> length r = length (columns df).

(** The four columns of line 144 for the rows of a frame that a mask
    keeps. *)
Definition overdue_listing (df : DataFrame) (mask : list bool) : DataFrame :=
  {| columns := ["Task Name"; "Seamstress"; "Timeline"; "Status"];
     data := map (fun r => (r.1, [at_col df "Task Name" r.2;
                                  at_col df "Seamstress" r.2;
                                  at_col df "Timeline" r.2;
                                  at_col df "Status" r.2]))
                 (compress mask (data df)) |}.

(** ** A sample schedule *)

Module Schedule.

(** A day number that orders dates as the calendar does. *)
Definition day_number (d : date) : Z :=
  Z.of_nat (year d * 372 + month d * 31 + day d).

(** A conversion that reads the texts of the shape [YYYY-MM-DD] and
    makes [NaT] of everything else. *)
Definition reads_dates (col : list value) : list value :=
  map (fun v => match v with
                | VStr t => match Fmt.read_ymd t with
                            | Some d => VTimestamp (day_number d)
                            | None => VNaT
                            end
                | _ => VNaT
                end) col.

(** A [dt.date] that keeps the day. *)
Definition same_day (col : list value) : list value := col.

Definition task (name who state due : string) : list value :=
  [VStr name; VStr "Stitching"; VInt 2; VStr who; VStr state; VStr "Medium";
   VFloat (25 # 2); VStr ""; VStr ""; VStr due; VStr "2024-02-20"].

(** One task past its due date, one whose due date does not parse, one
    still ahead. *)
Definition tasks : worksheet :=
  {| header := required_columns;
     body := [task "Alice" "Ana" "Working" "2024-02-10";
              task "Bob" "Bea" "Done" "soon";
              task "Carol" "Ana" "Paused" "2024-04-01"] |}.

(** The same tasks on a sheet that has no "Timeline" column. *)
Definition undated : worksheet :=
  {| header := ["Task Name"; "Seamstress"; "Status"];
     body := [[VStr "Alice"; VStr "Ana"; VStr "Working"];
              [VStr "Bob"; VStr "Bea"; VStr "Done"]] |}.

Definition now : Z := day_number (Date 2024 3 7).

End Schedule.

(** * Properties *)

(** ** Text *)

Example strip_title_example :
  normalize "  task NAME " = "Task Name" /\
  normalize "expected file upload" = "Expected File Upload".
Proof. split; reflexivity. Qed.

(** The required labels are in normal form: a sheet that carries them
    as written passes the check. *)
Lemma required_columns_normalized :
  map normalize required_columns = required_columns.
Proof. reflexivity. Qed.

Example ymd_example : Fmt.ymd (Date 2024 3 7) = "2024-03-07".
Proof. reflexivity. Qed.

(** ** Lists and labels *)

Lemma compress_sublist {A} (mask : list bool) (l : list A) :
  sublist (compress mask l) l.
Proof.
  revert l; induction mask as [|b mask IH]; intros [|x l]; simpl;
    try apply sublist_nil_l.
  destruct b; [apply sublist_skip | apply sublist_cons]; apply IH.
Qed.

Lemma get_loc_Some col cols j :
  get_loc col cols = Some j -> cols !! j = Some col.
Proof.
  revert j; induction cols as [|c cols IH]; intros j; simpl; [done|].
  destruct (String.eqb_spec c col) as [->|Hne].
  - by intros [= <-].
  - destruct (get_loc col cols) as [k|]; simpl; [|done].
    intros [= <-]. by apply IH.
Qed.

Lemma has_column_get_loc col cols :
  has_column cols col = true -> exists j, get_loc col cols = Some j.
Proof.
  unfold has_column. induction cols as [|c cols IH]; simpl; [done|].
  rewrite (String.eqb_sym col c).
  destruct (String.eqb c col); [by eexists|]. simpl.
  intros H. destruct (IH H) as [j ->]. by eexists.
Qed.

Lemma missing_cols_nil cols col :
  missing_cols cols = [] -> In col required_columns ->
  exists j, get_loc col cols = Some j.
Proof.
  intros Hmiss Hin. apply has_column_get_loc.
  destruct (has_column cols col) eqn:Hc; [done|].
  assert (In col (missing_cols cols)) as Habs.
  { apply filter_In. by rewrite Hc. }
  rewrite Hmiss in Habs. destruct Habs.
Qed.

Lemma get_loc_distinct a b cols i j :
  a <> b -> get_loc a cols = Some i -> get_loc b cols = Some j -> i <> j.
Proof.
  intros Hne Ha Hb ->. apply get_loc_Some in Ha, Hb. congruence.
Qed.

(** ** Running the monad *)

Lemma bind_Return {A B} (m : M A) (k : A -> M B) s a s1 es1 :
  m s = (Return a, s1, es1) ->
  bind m k s = (let '(o, s2, es2) := k a s1 in (o, s2, es1 ++ es2)).
Proof. unfold bind. by intros ->. Qed.

Lemma getitem_Return df col j s :
  get_loc col (columns df) = Some j ->
  getitem df col s = (Return (map (fun r => default VNaN (r !! j)) (rows df)), s, []).
Proof. unfold getitem, bind, or_raise. by intros ->. Qed.

Lemma getitem_KeyError df col s :
  get_loc col (columns df) = None -> getitem df col s = (Raise KeyError, s, []).
Proof. unfold getitem, bind, or_raise. by intros ->. Qed.

(** ** Load *)

Lemma get_all_records_run s :
  get_all_records s =
    match faults s with
    | true :: _ => (Raise APIError, served s, [Remote GetAllRecords])
    | _ => (Return (records_of (sheet s)), served s, [Remote GetAllRecords])
    end.
Proof.
  unfold get_all_records, request, served. by destruct (faults s) as [|[] ?].
Qed.

(** Every way a load can go. *)
Lemma load_run to_datetime s :
  load to_datetime s =
    match faults s with
    | true :: _ => (Raise APIError, served s, load_events)
    | _ =>
        match body (sheet s) with
        | [] => (Raise AttributeError, served s, load_events)
        | _ :: _ =>
            match missing_cols (columns (raw_frame (sheet s))) with
            | (_ :: _) as missing =>
                (Stop, served s, load_events ++ [Error (missing_message missing)])
            | [] =>
                match get_loc "Last Updated" (columns (raw_frame (sheet s))) with
                | Some j =>
                    (Return (converted to_datetime (raw_frame (sheet s)) j),
                     served s, load_events)
                | None => (Raise KeyError, served s, load_events)
                end
            end
        end
    end.
Proof.
  unfold load, bind, emit. rewrite get_all_records_run.
  destruct (faults s) as [|[] fs]; cbv beta iota zeta; try reflexivity.
  all: unfold records_of at 1.
  all: destruct (body (sheet s)) as [|r0 rs] eqn:Hbody;
    [reflexivity|]; cbn [map]; unfold ret at 1; cbv beta iota zeta.
  all: change {| columns := map normalize (columns (DataFrame_of (records_of (sheet s))));
                 data := data (DataFrame_of (records_of (sheet s))) |}
         with (raw_frame (sheet s)).
  all: destruct (missing_cols (columns (raw_frame (sheet s)))) eqn:Hm;
    try reflexivity.
  all: destruct (get_loc "Last Updated" (columns (raw_frame (sheet s)))) as [j|] eqn:Hj.
  all: try (rewrite (getitem_Return _ _ j _ Hj); unfold setitem, bind, or_raise;
            rewrite Hj; reflexivity).
  all: by rewrite (getitem_KeyError _ _ _ Hj).
Qed.

(** What a load that goes through has done and returns. *)
Lemma load_Return to_datetime s df s1 es :
  load to_datetime s = (Return df, s1, es) ->
  head (faults s) <> Some true /\ s1 = served s /\ es = load_events /\
  missing_cols (columns (raw_frame (sheet s))) = [] /\
  exists j,
    get_loc "Last Updated" (columns (raw_frame (sheet s))) = Some j /\
    df = converted to_datetime (raw_frame (sheet s)) j.
Proof.
  rewrite load_run.
  destruct (faults s) as [|[] fs]; try done.
  all: destruct (body (sheet s)); try done.
  all: destruct (missing_cols _); try done.
  all: destruct (get_loc _ _) as [j|]; try done.
  all: intros [= <- <- <-]; repeat split; try done; eauto.
Qed.

(** However a load ends, it has sent the read and nothing else, it
    leaves the sheet as it was, and it does not end by a rerun. *)
Lemma load_ends to_datetime s o s1 es :
  load to_datetime s = (o, s1, es) ->
  s1 = served s /\ requests es = [GetAllRecords] /\ o <> Rerun.
Proof.
  rewrite load_run.
  destruct (faults s) as [|[] fs].
  all: try (by intros [= <- <- <-]).
  all: destruct (body (sheet s)); [by intros [= <- <- <-]|].
  all: destruct (missing_cols _); [|by intros [= <- <- <-]].
  all: destruct (get_loc _ _); by intros [= <- <- <-].
Qed.

(** Line 30 goes through only on a sheet that holds a record. *)
Lemma load_Return_records to_datetime s df s1 es :
  load to_datetime s = (Return df, s1, es) -> body (sheet s) <> [].
Proof.
  rewrite load_run.
  destruct (faults s) as [|[] fs]; try done.
  all: by destruct (body (sheet s)).
Qed.

Lemma has_column_In cols col : has_column cols col = true <-> In col cols.
Proof.
  unfold has_column. rewrite existsb_exists. split.
  - intros (c & Hin & Heq). apply String.eqb_eq in Heq. by subst.
  - intros Hin. exists col. split; [done|]. apply String.eqb_refl.
Qed.

Lemma In_missing_cols cols col :
  In col (missing_cols cols) <-> In col required_columns /\ ~ In col cols.
Proof.
  unfold missing_cols. rewrite filter_In.
  split; intros [H1 H2]; split; try done.
  - intros Hin. apply has_column_In in Hin. by rewrite Hin in H2.
  - destruct (has_column cols col) eqn:E; [|done].
    by apply has_column_In in E.
Qed.

(** A run of the page ends where its load ends. *)
Lemma task_table_Stop to_datetime inp s s1 es :
  load to_datetime s = (Stop, s1, es) ->
  task_table to_datetime inp s = (Stop, s1, es).
Proof. unfold task_table, bind. by intros ->. Qed.

Lemma task_table_Raise to_datetime inp s e s1 es :
  load to_datetime s = (Raise e, s1, es) ->
  task_table to_datetime inp s = (Raise e, s1, es).
Proof. unfold task_table, bind. by intros ->. Qed.


(** ** Columns and filters *)

Lemma getitem_series df col j s :
  get_loc col (columns df) = Some j ->
  getitem df col s = (Return (series df col), s, []).
Proof.
  intros Hj. rewrite (getitem_Return _ _ j _ Hj).
  unfold series, at_col. by rewrite Hj.
Qed.

Lemma compress_map {A} (p : A -> bool) (l : list A) :
  compress (map p l) l = List.filter p l.
Proof. induction l as [|x l IH]; simpl; [done|]. by rewrite IH. Qed.

Lemma filter_filter_andb {A} (p q : A -> bool) (l : list A) :
  List.filter q (List.filter p l) = List.filter (fun x => p x && q x) l.
Proof.
  induction l as [|x l IH]; simpl; [done|].
  destruct (p x); simpl; [destruct (q x)|]; by rewrite IH.
Qed.

Lemma filter_sublist {A} (p : A -> bool) (l : list A) :
  sublist (List.filter p l) l.
Proof. rewrite <- compress_map. apply compress_sublist. Qed.

Lemma isin_rows_run df col values j s :
  get_loc col (columns df) = Some j ->
  isin_rows df col values s =
    (Return {| columns := columns df;
               data := List.filter (fun r => isin values (at_col df col r.2))
                                   (data df) |}, s, []).
Proof.
  intros Hj. unfold isin_rows.
  rewrite (bind_Return _ _ _ _ _ _ (getitem_series _ _ _ _ Hj)).
  unfold ret, boolean_index, series, rows. simpl.
  rewrite map_map.
  by rewrite <- (compress_map (fun r => isin values (at_col df col r.2))), map_map.
Qed.

(** The code of lines 72-76 computes the view of the specification. *)
Lemma filtered_df_run df f1 f2 jS jC s :
  get_loc "Status" (columns df) = Some jS ->
  get_loc "Category" (columns df) = Some jC ->
  filtered_df df f1 f2 s = (Return (filtered_view df f1 f2), s, []).
Proof.
  intros HS HC. unfold filtered_df, filtered_view.
  destruct f1 as [|v1 f1], f2 as [|v2 f2].
  - unfold bind, ret. simpl. destruct df as [cols dat]. simpl.
    rewrite forallb_filter_id; [done | by apply forallb_forall].
  - unfold bind at 1, ret at 1.
    rewrite (isin_rows_run _ _ _ _ _ HC). by simpl.
  - rewrite (bind_Return _ _ _ _ _ _ (isin_rows_run _ _ _ _ _ HS)).
    unfold ret. simpl. do 4 f_equal. apply filter_ext. intros r.
    by rewrite andb_true_r.
  - rewrite (bind_Return _ _ _ _ _ _ (isin_rows_run _ _ _ _ _ HS)).
    set (df1 := {| columns := columns df; data := _ |}).
    assert (get_loc "Category" (columns df1) = Some jC) as HC1 by done.
    rewrite (isin_rows_run _ _ _ _ _ HC1). simpl.
    by rewrite filter_filter_andb.
Qed.

(** ** The loaded frame and the sheet *)

Lemma first_match_Some name names i :
  first_match name names = Some i <->
  (exists v, names !! i = Some v /\ py_eq v name = true) /\
  (forall j v, j < i -> names !! j = Some v -> py_eq v name = false).
Proof.
  revert i; induction names as [|v names IH]; intros i; simpl.
  - split; [done|]. by intros [(w & Hw & _) _].
  - destruct (py_eq v name) eqn:Hv.
    + split.
      * intros [= <-]. split; [by exists v|]. intros j w Hj. lia.
      * intros [(w & Hw & Hm) Hfirst]. destruct i as [|i]; [done|].
        specialize (Hfirst 0 v). simpl in Hfirst.
        rewrite Hfirst in Hv; [done | lia | done].
    + split.
      * intros H. destruct i as [|i].
        { destruct (first_match name names); simpl in H; done. }
        assert (first_match name names = Some i) as Hi.
        { destruct (first_match name names); simpl in H; congruence. }
        apply IH in Hi as [Hat Hfirst]. split; [done|].
        intros [|j] w Hj; simpl; [by intros [= <-]|].
        apply Hfirst. lia.
      * intros [(w & Hw & Hm) Hfirst]. destruct i as [|i].
        { simpl in Hw. congruence. }
        assert (first_match name names = Some i) as ->; [|done].
        apply IH. split; [by exists w|].
        intros j u Hj Hu. apply (Hfirst (S j)); [lia | done].
Qed.

Lemma first_match_None name names :
  first_match name names = None <->
  (forall v, In v names -> py_eq v name = false).
Proof.
  induction names as [|v names IH]; simpl; [by split|].
  destruct (py_eq v name) eqn:Hv.
  - split; [done|]. intros H. rewrite H in Hv; [done | by left].
  - split.
    + intros H w [<-|Hw]; [done|]. apply IH; [|done].
      by destruct (first_match name names).
    + intros H. assert (first_match name names = None) as ->; [|done].
      apply IH. intros w Hw. apply H. by right.
Qed.

Lemma head_compress_seq name names k :
  head (compress (map (fun v => py_eq v name) names) (seq k (length names)))
  = (fun i => k + i) <$> first_match name names.
Proof.
  revert k; induction names as [|v names IH]; intros k; simpl; [done|].
  destruct (py_eq v name); simpl; [f_equal; lia|].
  rewrite IH. destruct (first_match name names); simpl; [f_equal; lia | done].
Qed.

Lemma table_ok_inv ws :
  table_ok ws = true ->
  NoDup (map normalize (header ws)) /\
  (forall r, In r (body ws) -> length r = length (header ws)).
Proof.
  unfold table_ok. intros [Hnd Hrect]%andb_prop. split.
  - by apply bool_decide_eq_true in Hnd.
  - intros r Hr. rewrite forallb_forall in Hrect.
    by apply Nat.eqb_eq, Hrect.
Qed.

Lemma records_of_rows ws :
  table_ok ws = true ->
  imap (fun i r => (i, r.*2)) (records_of ws) = imap (fun i r => (i, r)) (body ws).
Proof.
  intros [_ Hrect]%table_ok_inv. unfold records_of.
  change (map (zip (header ws)) (body ws)) with (zip (header ws) <$> body ws).
  rewrite imap_fmap. apply imap_ext. intros i r Hr. simpl.
  rewrite snd_zip; [done|]. rewrite (Hrect r); [done|].
  apply list_elem_of_In, list_elem_of_lookup. eauto.
Qed.

Lemma raw_frame_columns ws :
  table_ok ws = true -> body ws <> [] ->
  columns (raw_frame ws) = map normalize (header ws).
Proof.
  intros [_ Hrect]%table_ok_inv Hne. unfold raw_frame, records_of. simpl.
  destruct (body ws) as [|r0 rest]; [done|]. simpl.
  rewrite fst_zip; [done|]. rewrite (Hrect r0); [done | by left].
Qed.

Lemma raw_frame_no_record ws :
  body ws = [] -> columns (raw_frame ws) = [].
Proof. unfold raw_frame, records_of. by intros ->. Qed.

(** A frame that was loaded has the labels, the length and the order of
    the sheet, and its index counts the data rows from 0. *)
Lemma loaded_frame to_datetime s df s1 es :
  table_ok (sheet s) = true ->
  load to_datetime s = (Return df, s1, es) ->
  columns df = map normalize (header (sheet s)) /\
  index df = seq 0 (length (body (sheet s))) /\
  length (rows df) = length (body (sheet s)) /\
  (forall col, In col required_columns ->
               exists j, get_loc col (columns df) = Some j) /\
  (forall col, col <> "Last Updated" ->
               series df col = sheet_column (sheet s) col).
Proof.
  intros Hok (_ & _ & _ & Hmiss & j & Hj & ->)%load_Return.
  assert (body (sheet s) <> []) as Hne.
  { intros Hnil. rewrite (raw_frame_no_record _ Hnil) in Hmiss. done. }
  pose proof (raw_frame_columns _ Hok Hne) as Hcols.
  assert (data (raw_frame (sheet s)) = imap (fun i r => (i, r)) (body (sheet s)))
    as Hdata by (by apply records_of_rows).
  assert (forall col, In col required_columns ->
            exists k, get_loc col (columns (raw_frame (sheet s))) = Some k) as Hreq.
  { intros col Hin. by apply missing_cols_nil. }
  clear Hmiss Hok Hne.
  destruct (raw_frame (sheet s)) as [cols dat]. simpl in Hj, Hcols, Hdata, Hreq.
  subst dat. unfold index, series, rows, converted, at_col, sheet_column. simpl.
  split; [done|]. split; [|split; [|split; [done|]]].
  - apply list_eq. intros i.
    rewrite list_lookup_fmap, !list_lookup_imap.
    destruct (body (sheet s) !! i) as [r|] eqn:Hr; simpl.
    + symmetry. apply lookup_seq. split; [done|]. by apply lookup_lt_Some in Hr.
    + symmetry. apply lookup_seq_ge. by apply lookup_ge_None.
  - by rewrite length_fmap, !length_imap.
  - intros col Hcol. rewrite <- Hcols. apply list_eq. intros i.
    change map with (@fmap list _). rewrite !list_lookup_fmap, !list_lookup_imap.
    destruct (body (sheet s) !! i) as [r|] eqn:Hr; simpl; [|done].
    destruct (get_loc col cols) as [k|] eqn:Hk; simpl; [|done].
    rewrite list_lookup_insert_ne; [done|].
    eapply get_loc_distinct; [| exact Hj | exact Hk]. done.
Qed.

(** ** Requests *)

Lemma request_run {A} (c : call) (serve : worksheet -> A * worksheet) s :
  request c serve s =
    if next_served s
    then (Return (serve (sheet s)).1, answered (serve (sheet s)).2 s, [Remote c])
    else (Raise APIError, served s, [Remote c]).
Proof.
  unfold request, next_served, answered, served.
  destruct (faults s) as [|[] fs]; simpl; try done.
  all: by destruct (serve (sheet s)).
Qed.

Lemma append_row_run values s :
  append_row values s =
    if next_served s
    then (Return tt, answered (append_row_on values (sheet s)) s,
          [Remote (AppendRow values)])
    else (Raise APIError, served s, [Remote (AppendRow values)]).
Proof. unfold append_row. by rewrite request_run. Qed.

Lemma http_run {A} (serve : worksheet -> A * worksheet) s :
  http serve s =
    if next_served s
    then (Return (serve (sheet s)).1, answered (serve (sheet s)).2 s, [])
    else (Raise APIError, served s, []).
Proof.
  unfold http, next_served, answered, served.
  destruct (faults s) as [|[] fs]; simpl; try done.
  all: by destruct (serve (sheet s)).
Qed.

(** [delete_row] with a position that cannot be encoded sends nothing. *)
Lemma delete_row_run int_position index s :
  2 <= index ->
  delete_row int_position index s =
    if int_position
    then
      if next_served s
      then (Return tt, answered (delete_row_on index (sheet s)) s,
            [Remote (DeleteRow index)])
      else (Raise APIError, served s, [Remote (DeleteRow index)])
    else (Raise TypeError, s, [Remote (DeleteRow index)]).
Proof.
  intros Hi. unfold delete_row, addresses_data.
  destruct (Nat.leb_spec 2 index); [|lia].
  unfold bind, emit, encode. destruct int_position; [|done].
  unfold ret. rewrite http_run. by destruct (next_served s).
Qed.

(** [insert_row] with a position that can be encoded: the blank row, the
    encoding of the values, the values. *)
Lemma insert_row_run json_ok values index s :
  2 <= index ->
  insert_row true json_ok values index s =
    if next_served s
    then
      let s1 := answered (insert_blank_on index (sheet s)) s in
      if json_ok values
      then
        if next_served s1
        then (Return tt, answered (write_row_on values index (sheet s1)) s1,
              [Remote (InsertRow values index)])
        else (Raise APIError, served s1, [Remote (InsertRow values index)])
      else (Raise TypeError, s1, [Remote (InsertRow values index)])
    else (Raise APIError, served s, [Remote (InsertRow values index)]).
Proof.
  intros Hi. unfold insert_row, addresses_data.
  destruct (Nat.leb_spec 2 index); [|lia].
  unfold bind at 1. unfold emit at 1. unfold bind at 1. unfold encode at 1, ret at 1.
  unfold bind at 1. rewrite http_run.
  destruct (next_served s); [|done]. cbv zeta. cbn [fst snd].
  unfold bind at 1. unfold encode.
  destruct (json_ok values); [|done].
  unfold ret at 1. rewrite http_run. cbn [fst snd].
  by destruct (next_served _).
Qed.

(** The values written into the blank row make the inserted row. *)
Lemma write_into_blank values index ws :
  index - 2 <= length (body ws) ->
  write_row_on values index (insert_blank_on index ws)
  = insert_row_on values index ws.
Proof.
  intros Hk. unfold write_row_on, insert_blank_on, insert_row_on. simpl. f_equal.
  rewrite insert_app_r_alt; rewrite length_take; [|lia].
  replace (index - 2 - (index - 2) `min` length (body ws)) with 0 by lia.
  done.
Qed.

(** ** Position resolution *)

Lemma row_number_run df name j s :
  get_loc "Task Name" (columns df) = Some j ->
  index df = seq 0 (length (rows df)) ->
  row_number df name s =
    match first_match name (series df "Task Name") with
    | Some i => (Return (i + 2), s, [])
    | None => (Raise IndexError, s, [])
    end.
Proof.
  intros Hj Hidx. unfold row_number.
  rewrite (bind_Return _ _ _ _ _ _ (getitem_series _ _ _ _ Hj)).
  rewrite Hidx.
  replace (length (rows df)) with (length (series df "Task Name"))
    by (unfold series; apply length_map).
  unfold bind. rewrite head_compress_seq.
  by destruct (first_match name (series df "Task Name")).
Qed.

(** The page never addresses the header row. *)
Lemma row_number_ge_2 df name s n s1 es :
  row_number df name s = (Return n, s1, es) -> 2 <= n.
Proof.
  unfold row_number, bind.
  destruct (getitem df "Task Name" s) as [[[names| | |e] s2] es2]; try done.
  destruct (or_raise IndexError _ s2) as [[[i| | |e] s3] es3]; try done.
  unfold ret. intros [= <- _ _]. lia.
Qed.

(** ** The page after the load *)

Lemma loaded_columns to_datetime s df s1 es col :
  load to_datetime s = (Return df, s1, es) ->
  In col required_columns -> exists j, get_loc col (columns df) = Some j.
Proof.
  intros (_ & _ & _ & Hmiss & j & _ & ->)%load_Return Hin.
  by apply missing_cols_nil.
Qed.

(** Without a submitted add form the page shows the view and goes on to
    the selected row. *)
Lemma task_table_view to_datetime inp s df s1 es :
  load to_datetime s = (Return df, s1, es) ->
  add_clicked inp = false ->
  task_table to_datetime inp s =
    let '(o, s2, es2) := selected_row_actions df inp s1 in
    (o, s2, es ++ view_events df (filter1 inp) (filter2 inp) ++ es2).
Proof.
  intros Hload Hadd.
  destruct (loaded_columns _ _ _ _ _ "Status" Hload) as [jS HS];
    [repeat ((by left) || right)|].
  destruct (loaded_columns _ _ _ _ _ "Category" Hload) as [jC HC];
    [repeat ((by left) || right)|].
  unfold task_table. rewrite (bind_Return _ _ _ _ _ _ Hload).
  unfold add_task. rewrite Hadd. unfold when.
  unfold bind at 1. unfold bind at 1. unfold emit at 1, ret at 1.
  unfold bind at 1. rewrite (getitem_series _ _ _ _ HS).
  unfold bind at 1. unfold emit at 1.
  unfold bind at 1. rewrite (getitem_series _ _ _ _ HC).
  unfold bind at 1. unfold emit at 1.
  unfold bind at 1. rewrite (filtered_df_run _ _ _ _ _ _ HS HC).
  unfold bind at 1. unfold emit at 1.
  unfold bind at 1. unfold emit at 1.
  by destruct (selected_row_actions df inp s1) as [[o s2] es2].
Qed.

(** A submitted add form sends the new row and ends the run. *)
Lemma task_table_add to_datetime inp s df s1 es :
  load to_datetime s = (Return df, s1, es) ->
  add_clicked inp = true ->
  let row := new_task_row (add_form inp) (today inp) in
  task_table to_datetime inp s =
    if next_served s1
    then (Rerun, answered (append_row_on row (sheet s1)) s1,
          es ++ [Form "add_task_form"; Remote (AppendRow row);
                 Success "✅ Task added."])
    else (Raise APIError, served s1,
          es ++ [Form "add_task_form"; Remote (AppendRow row)]).
Proof.
  intros Hload Hadd row.
  unfold task_table. rewrite (bind_Return _ _ _ _ _ _ Hload).
  unfold add_task. rewrite Hadd. unfold when.
  unfold bind at 1. unfold bind at 1. unfold emit at 1.
  unfold bind at 1. rewrite append_row_run.
  by destruct (next_served s1).
Qed.

(** ** The actions on the selected row *)

Section Selected.

Variables (df : DataFrame) (inp : inputs).
Variables (first : selected) (rest : list selected) (name : value).
Hypothesis Hsel : selected_row inp = first :: rest.
Hypothesis Hname : dict_get "Task Name" (fields first) = Some name.
Hypothesis Hcol : exists j, get_loc "Task Name" (columns df) = Some j.
Hypothesis Hidx : index df = seq 0 (length (rows df)).

(** No row of the frame has the name: the lookup of line 101 raises and
    the run ends there, whatever the buttons say. *)
Lemma selected_no_match s :
  first_match name (series df "Task Name") = None ->
  selected_row_actions df inp s = (Raise IndexError, s, []).
Proof using Hsel Hname Hcol Hidx.
  intros Hnone. destruct Hcol as [j Hj].
  unfold selected_row_actions. rewrite Hsel, Hname.
  unfold bind at 1. unfold or_raise at 1, ret at 1.
  unfold bind at 1. by rewrite (row_number_run _ _ _ _ Hj Hidx), Hnone.
Qed.

Variable i : nat.
Hypothesis Hfirst : first_match name (series df "Task Name") = Some i.

Lemma selected_idle s :
  update_clicked inp = false -> delete_clicked inp = false ->
  selected_row_actions df inp s = (Return tt, s, [actions_header]).
Proof using Hsel Hname Hcol Hidx Hfirst.
  intros Hu Hd. destruct Hcol as [j Hj].
  unfold selected_row_actions. rewrite Hsel, Hname, Hu, Hd.
  unfold bind at 1. unfold or_raise at 1, ret at 1.
  unfold bind at 1. by rewrite (row_number_run _ _ _ _ Hj Hidx), Hfirst.
Qed.

Lemma selected_delete s :
  update_clicked inp = false -> delete_clicked inp = true ->
  selected_row_actions df inp s =
    if int_position inp
    then
      if next_served s
      then (Rerun, answered (delete_row_on (i + 2) (sheet s)) s,
            [actions_header; Remote (DeleteRow (i + 2));
             Warning "🗑️ Task deleted."])
      else (Raise APIError, served s,
            [actions_header; Remote (DeleteRow (i + 2))])
    else (Raise TypeError, s, [actions_header; Remote (DeleteRow (i + 2))]).
Proof using Hsel Hname Hcol Hidx Hfirst.
  intros Hu Hd. destruct Hcol as [j Hj].
  unfold selected_row_actions. rewrite Hsel, Hname, Hu, Hd.
  unfold bind at 1. unfold or_raise at 1, ret at 1.
  unfold bind at 1. rewrite (row_number_run _ _ _ _ Hj Hidx), Hfirst.
  unfold when. unfold bind at 1. unfold emit at 1.
  unfold bind at 1. unfold ret at 1.
  unfold bind at 1. rewrite delete_row_run by lia.
  destruct (int_position inp); [|done].
  by destruct (next_served s).
Qed.

(** Lines 104-110: the row of the grid is stamped, the old row is
    deleted, the new one inserted at the same place; each call can end
    by an exception and nothing is done about what went through. *)
Lemma selected_update s edited new_row :
  update_clicked inp = true ->
  rows (updated_df inp) !! nodeRowIndex first = Some edited ->
  set_last edited (VStr (Fmt.ymd (today inp))) = Some new_row ->
  let calls := [actions_header; Remote (DeleteRow (i + 2));
                Remote (InsertRow new_row (i + 2))] in
  selected_row_actions df inp s =
    if int_position inp
    then
      if next_served s
      then
        let s1 := answered (delete_row_on (i + 2) (sheet s)) s in
        if next_served s1
        then
          let s2 := answered (insert_blank_on (i + 2) (sheet s1)) s1 in
          if json_ok inp new_row
          then
            if next_served s2
            then (Rerun, answered (write_row_on new_row (i + 2) (sheet s2)) s2,
                  calls ++ [Success "✅ Task updated."])
            else (Raise APIError, served s2, calls)
          else (Raise TypeError, s2, calls)
        else (Raise APIError, served s1, calls)
      else (Raise APIError, served s,
            [actions_header; Remote (DeleteRow (i + 2))])
    else (Raise TypeError, s, [actions_header; Remote (DeleteRow (i + 2))]).
Proof using Hsel Hname Hcol Hidx Hfirst.
  intros Hu Hrow Hlast calls. subst calls. destruct Hcol as [j Hj].
  unfold selected_row_actions. rewrite Hsel, Hname, Hu, Hrow.
  unfold bind at 1. unfold or_raise at 1, ret at 1.
  unfold bind at 1. rewrite (row_number_run _ _ _ _ Hj Hidx), Hfirst.
  unfold when. unfold bind at 1. unfold emit at 1.
  unfold bind at 1. unfold bind at 1. unfold or_raise at 1, ret at 1.
  rewrite Hlast.
  unfold bind at 1. unfold or_raise at 1, ret at 1.
  unfold bind at 1. rewrite delete_row_run by lia.
  destruct (int_position inp); [|done].
  destruct (next_served s); [|done].
  unfold bind at 1. rewrite insert_row_run by lia.
  destruct (next_served _); [|done]. cbv zeta.
  destruct (json_ok inp new_row); [|done].
  by destruct (next_served _).
Qed.

End Selected.

(** ** Faults *)

Lemma next_served_fails s : next_served s = negb (fails s 0).
Proof. unfold next_served, fails. by destruct (faults s) as [|[] ?]. Qed.

Lemma fails_answered ws s k : fails (answered ws s) k = fails s (S k).
Proof. unfold fails, answered. simpl. by destruct (faults s). Qed.

Lemma fails_served s k : fails (served s) k = fails s (S k).
Proof. apply (fails_answered (sheet s)). Qed.

Lemma first_row_named_match name names i :
  first_row_named name names i <-> first_match name names = Some i.
Proof. symmetry. apply first_match_Some. Qed.

(** The lookup of line 101 on a loaded frame, in terms of the sheet. *)
Lemma row_number_loaded to_datetime s df s1 es name s2 :
  table_ok (sheet s) = true ->
  load to_datetime s = (Return df, s1, es) ->
  row_number df name s2 =
    match first_match name (sheet_column (sheet s) "Task Name") with
    | Some i => (Return (i + 2), s2, [])
    | None => (Raise IndexError, s2, [])
    end.
Proof.
  intros Hok Hload.
  destruct (loaded_frame _ _ _ _ _ Hok Hload) as (_ & Hidx & Hlen & Hreq & Hser).
  destruct (Hreq "Task Name") as [j Hj]; [by left|].
  rewrite <- Hser by done.
  apply (row_number_run _ _ j); [done|]. by rewrite Hlen.
Qed.

Lemma first_match_lt name names i :
  first_match name names = Some i -> i < length names.
Proof.
  intros [(v & Hv & _) _]%first_match_Some. by apply lookup_lt_Some in Hv.
Qed.

(** ** The two mutations of a loaded sheet, as whole runs *)

Section Mutations.

Variable to_datetime : list value -> list value.
Variables (inp : inputs) (s : store) (df : DataFrame) (s1 : store)
          (es : list event).
Variables (first : selected) (rest : list selected) (name : value) (i : nat).
Hypothesis Hok : table_ok (sheet s) = true.
Hypothesis Hload : load to_datetime s = (Return df, s1, es).
Hypothesis Hadd : add_clicked inp = false.
Hypothesis Hsel : selected_row inp = first :: rest.
Hypothesis Hname : dict_get "Task Name" (fields first) = Some name.
Hypothesis Hfirst : first_row_named name (sheet_column (sheet s) "Task Name") i.

Lemma resolved_in_range : i < length (body (sheet s)).
Proof using Hfirst.
  apply first_row_named_match, first_match_lt in Hfirst.
  unfold sheet_column in Hfirst. by rewrite length_map in Hfirst.
Qed.

Lemma task_table_delete :
  update_clicked inp = false -> delete_clicked inp = true ->
  task_table to_datetime inp s =
    if negb (int_position inp)
    then (Raise TypeError, served s,
          shown_on_selection df inp ++ [Remote (DeleteRow (i + 2))])
    else if fails s 1
    then (Raise APIError, served (served s),
          shown_on_selection df inp ++ [Remote (DeleteRow (i + 2))])
    else (Rerun, answered (delete_row_on (i + 2) (sheet s)) (served s),
          shown_on_selection df inp
          ++ [Remote (DeleteRow (i + 2)); Warning "🗑️ Task deleted."]).
Proof using Hok Hload Hadd Hsel Hname Hfirst.
  intros Hu Hd. apply first_row_named_match in Hfirst.
  destruct (loaded_frame _ _ _ _ _ Hok Hload) as (_ & Hidx & Hlen & Hreq & Hser).
  destruct (load_Return _ _ _ _ _ Hload) as (_ & -> & -> & _).
  rewrite (task_table_view _ _ _ _ _ _ Hload Hadd).
  rewrite (selected_delete df inp first rest name Hsel Hname) with (i := i);
    try done.
  - rewrite next_served_fails, fails_served.
    destruct (int_position inp); [|done]. by destruct (fails s 1).
  - apply Hreq. by left.
  - by rewrite Hidx, Hlen.
  - by rewrite Hser.
Qed.

(** The update as a whole run.  After the read, the requests are the
    delete (1), the blank row (2) and the values (3). *)
Lemma task_table_update edited new_row :
  update_clicked inp = true ->
  rows (updated_df inp) !! nodeRowIndex first = Some edited ->
  set_last edited (VStr (Fmt.ymd (today inp))) = Some new_row ->
  let deleted := delete_row_on (i + 2) (sheet s) in
  let blank := insert_blank_on (i + 2) deleted in
  let s_deleted := answered deleted (served s) in
  let s_blank := answered blank s_deleted in
  let called := shown_on_selection df inp
                ++ [Remote (DeleteRow (i + 2)); Remote (InsertRow new_row (i + 2))] in
  task_table to_datetime inp s =
    if negb (int_position inp)
    then (Raise TypeError, served s,
          shown_on_selection df inp ++ [Remote (DeleteRow (i + 2))])
    else if fails s 1
    then (Raise APIError, served (served s),
          shown_on_selection df inp ++ [Remote (DeleteRow (i + 2))])
    else if fails s 2
    then (Raise APIError, served s_deleted, called)
    else if negb (json_ok inp new_row)
    then (Raise TypeError, s_blank, called)
    else if fails s 3
    then (Raise APIError, served s_blank, called)
    else (Rerun, answered (insert_row_on new_row (i + 2) deleted) s_blank,
          called ++ [Success "✅ Task updated."]).
Proof using Hok Hload Hadd Hsel Hname Hfirst.
  intros Hu Hrow Hlast deleted blank s_deleted s_blank called.
  pose proof resolved_in_range as Hlt. apply first_row_named_match in Hfirst.
  destruct (loaded_frame _ _ _ _ _ Hok Hload) as (_ & Hidx & Hlen & Hreq & Hser).
  destruct (load_Return _ _ _ _ _ Hload) as (_ & -> & -> & _).
  rewrite (task_table_view _ _ _ _ _ _ Hload Hadd).
  rewrite (selected_update df inp first rest name Hsel Hname)
    with (i := i) (edited := edited) (new_row := new_row); try done.
  - cbv zeta.
    rewrite !next_served_fails, !fails_answered, !fails_served.
    destruct (int_position inp); [|done]. cbn [negb].
    destruct (fails s 1); [done|]. cbn [negb].
    destruct (fails s 2); [done|]. cbn [negb].
    destruct (json_ok inp new_row); [|done]. cbn [negb].
    destruct (fails s 3); [done|]. cbn [negb].
    cbn [sheet answered]. rewrite write_into_blank; [done|].
    cbn [body delete_row_on sheet served].
    replace (i + 2 - 2) with i by lia.
    destruct (lookup_lt_is_Some_2 (body (sheet s)) i Hlt) as [r Hr].
    pose proof (length_delete (body (sheet s)) i (ex_intro _ r Hr)). lia.
  - apply Hreq. by left.
  - by rewrite Hidx, Hlen.
  - by rewrite Hser.
Qed.

End Mutations.

(** * The claims *)

(** C1.  On a loaded frame the row to update or delete is resolved by
    name: when row [i] (from 0) of the sheet is the first one whose
    "Task Name" cell equals the name of the selected record, the position
    is [i + 2].  Two records can share a name, and then selecting the
    second one resolves to the first: in the sheet [Sample.twins] the
    user selects the record of physical row 3, the page resolves row 2
    and calls [delete_row(2)], whichever of the two buttons is clicked.
    Under pandas 3, where the position is an [int], "Delete" removes the
    record of row 2 and keeps the selected one, and "Update" removes the
    record of row 2 and then ends in the [TypeError] of [insert_row] (the
    quantity of the row is a [numpy.int64]) with a blank row where that
    record was.  Under pandas 2, where the position is a [numpy.int64],
    the call aimed at row 2 raises [TypeError] before anything is sent. *)
Theorem row_number_is_first_name_match to_datetime :
  (forall s df s1 es name i s2,
      table_ok (sheet s) = true ->
      load to_datetime s = (Return df, s1, es) ->
      first_row_named name (sheet_column (sheet s) "Task Name") i ->
      row_number df name s2 = (Return (i + 2), s2, [])) /\
  (let ws := Sample.twins in
   let intended := Sample.hem_bea in
   let other := Sample.hem_ana in
   body ws = [other; intended] /\ other <> intended /\
   sheet_column ws "Task Name" = [VStr "Hem"; VStr "Hem"] /\
   exists df,
     load to_datetime (Store ws []) = (Return df, Store ws [], load_events) /\
     series df "Seamstress" = [VStr "Ana"; VStr "Bea"] /\
     row_number df (VStr "Hem") (Store ws []) = (Return 2, Store ws [], []) /\
     (exists es,
         task_table to_datetime
           (Sample.pandas3 (Sample.select [] [] df 1 false true)) (Store ws [])
         = (Rerun, Store {| header := header ws; body := [intended] |} [], es) /\
         requests es = [GetAllRecords; DeleteRow 2]) /\
     (exists es stamped,
         task_table to_datetime
           (Sample.pandas3 (Sample.select [] [] df 1 true false)) (Store ws [])
         = (Raise TypeError,
            Store {| header := header ws; body := [[]; intended] |} [], es) /\
         set_last intended (VStr "2024-03-07") = Some stamped /\
         requests es = [GetAllRecords; DeleteRow 2; InsertRow stamped 2]) /\
     (forall update delete,
         update || delete = true ->
         exists es,
           task_table to_datetime (Sample.select [] [] df 1 update delete)
             (Store ws [])
           = (Raise TypeError, Store ws [], es) /\
           requests es = [GetAllRecords; DeleteRow 2])).
Proof.
  split.
  - intros s df s1 es name i s2 Hok Hload Hfirst.
    rewrite (row_number_loaded _ _ _ _ _ _ _ Hok Hload).
    apply first_row_named_match in Hfirst. by rewrite Hfirst.
  - cbv zeta. split; [done|]. split; [done|]. split; [done|].
    eexists. split; [vm_compute; reflexivity|].
    split; [vm_compute; reflexivity|]. split; [vm_compute; reflexivity|].
    split; [|split].
    + eexists. split; vm_compute; reflexivity.
    + do 2 eexists. split; [vm_compute; reflexivity|].
      split; vm_compute; reflexivity.
    + intros [] []; try done; intros _; eexists; split; vm_compute; reflexivity.
Qed.

(** C9.  The lookup of line 101 has no guard.  When a row is selected
    whose name equals the "Task Name" cell of no row of the sheet just
    loaded, the run ends with an uncaught [IndexError] at the lookup,
    whatever the update and delete buttons say: the page reports no error
    of its own, sends no request after the read, and leaves the sheet as
    it was. *)
Theorem unmatched_selection_raises_IndexError
    to_datetime inp s df s1 es first rest name :
  table_ok (sheet s) = true ->
  load to_datetime s = (Return df, s1, es) ->
  add_clicked inp = false ->
  selected_row inp = first :: rest ->
  dict_get "Task Name" (fields first) = Some name ->
  (forall v, In v (sheet_column (sheet s) "Task Name") -> py_eq v name = false) ->
  let events := load_events ++ view_events df (filter1 inp) (filter2 inp) in
  task_table to_datetime inp s = (Raise IndexError, served s, events) /\
  sheet (served s) = sheet s /\
  requests events = [GetAllRecords] /\
  (forall text, ~ In (Error text) events).
Proof.
  intros Hok Hload Hadd Hsel Hname Hnone events.
  destruct (loaded_frame _ _ _ _ _ Hok Hload) as (_ & Hidx & Hlen & Hreq & Hser).
  destruct (load_Return _ _ _ _ _ Hload) as (_ & -> & -> & _).
  split; [|split; [done|split; [done|]]].
  - rewrite (task_table_view _ _ _ _ _ _ Hload Hadd).
    rewrite (selected_no_match df inp first rest name Hsel Hname).
    + subst events. by rewrite app_nil_r.
    + apply Hreq. by left.
    + by rewrite Hidx, Hlen.
    + rewrite Hser by done. by apply first_match_None.
  - intros text. subst events. unfold load_events, view_events. simpl.
    intros H. repeat (destruct H as [H|H]; [discriminate H|]). done.
Qed.

(** ** Deleting a row *)

Lemma delete_row_on_body index ws :
  body (delete_row_on index ws) = delete (index - 2) (body ws).
Proof. done. Qed.

Lemma records_of_delete index ws :
  records_of (delete_row_on index ws) = delete (index - 2) (records_of ws).
Proof. unfold records_of. simpl. apply (list_fmap_delete (zip (header ws))). Qed.

(** C5.  "Delete Selected Task" calls [delete_row] with the position
    [p = i + 2] resolved for the selected row, a position of a record.
    When that position is a Python [int] (pandas 3) and the request is
    served, the run ends with a rerun and the sheet holds the former
    records without record [i]: the records before it are where they
    were, the records after it have moved up by one, and the next read
    returns the former records without the one of row [p].  When the
    position is a [numpy.int64] (pandas before 3) the call raises
    [TypeError] before any request is sent: the run ends there, the
    warning is not shown, and no record is removed. *)
Theorem delete_row_then_load
    to_datetime inp s df s1 es first rest name i :
  table_ok (sheet s) = true ->
  load to_datetime s = (Return df, s1, es) ->
  add_clicked inp = false ->
  selected_row inp = first :: rest ->
  dict_get "Task Name" (fields first) = Some name ->
  first_row_named name (sheet_column (sheet s) "Task Name") i ->
  update_clicked inp = false -> delete_clicked inp = true ->
  let p := i + 2 in
  let shown := shown_on_selection df inp in
  let run := task_table to_datetime inp s in
  data_row (sheet s) p /\
  (int_position inp = false ->
   run = (Raise TypeError, served s, shown ++ [Remote (DeleteRow p)]) /\
   sheet run.1.2 = sheet s) /\
  (int_position inp = true -> fails s 1 = false ->
   let before := body (sheet s) in
   let after := body (sheet run.1.2) in
   run.1.1 = Rerun /\
   run.2 = shown ++ [Remote (DeleteRow p); Warning "🗑️ Task deleted."] /\
   header (sheet run.1.2) = header (sheet s) /\
   after = delete i before /\
   length after + 1 = length before /\
   (forall k, k < i -> after !! k = before !! k) /\
   (forall k, i <= k -> after !! k = before !! S k) /\
   (fails s 2 = false ->
    get_all_records run.1.2 =
      (Return (delete i (records_of (sheet s))), served run.1.2,
       [Remote GetAllRecords]))).
Proof.
  intros Hok Hload Hadd Hsel Hname Hfirst Hu Hd p shown run.
  pose proof (resolved_in_range _ _ _ Hfirst) as Hi.
  pose proof (task_table_delete _ _ _ _ _ _ _ _ _ _
                Hok Hload Hadd Hsel Hname Hfirst Hu Hd) as Hrun.
  fold run in Hrun.
  split; [unfold data_row; lia|]. split.
  - intros Hint. rewrite Hint in Hrun. by rewrite Hrun.
  - intros Hint Hs1. rewrite Hint, Hs1 in Hrun. cbv zeta. rewrite Hrun.
    cbn [fst snd sheet answered negb].
    rewrite delete_row_on_body. replace (i + 2 - 2) with i by lia.
    split; [done|]. split; [done|]. split; [done|]. split; [done|].
    split; [|split; [|split]].
    + destruct (lookup_lt_is_Some_2 (body (sheet s)) i Hi) as [r Hr].
      pose proof (length_delete (body (sheet s)) i (ex_intro _ r Hr)). lia.
    + intros k Hk. by apply list_lookup_delete_lt.
    + intros k Hk. by apply list_lookup_delete_ge.
    + intros Hs2. rewrite get_all_records_run.
      pose proof (fails_answered (delete_row_on (i + 2) (sheet s)) (served s) 0)
        as Hf.
      rewrite fails_served, Hs2 in Hf. unfold fails in Hf.
      cbn [sheet answered]. rewrite records_of_delete.
      replace (i + 2 - 2) with i by lia.
      by destruct (faults (answered _ (served s))) as [|[] ?].
Qed.

(** ** Replacing a row *)

Lemma insert_into_deleted {A} (l : list A) i x :
  i < length l -> take i (delete i l) ++ x :: drop i (delete i l) = <[i := x]> l.
Proof.
  revert i; induction l as [|y l IH]; intros [|i] Hi; simpl in *; try lia.
  - done.
  - f_equal. apply IH. lia.
Qed.

Lemma insert_deleted_row values i ws :
  i < length (body ws) ->
  body (insert_row_on values (i + 2) (delete_row_on (i + 2) ws))
  = <[i := values]> (body ws).
Proof.
  intros Hi. simpl. replace (i + 2 - 2) with i by lia.
  by apply insert_into_deleted.
Qed.

Lemma blank_in_deleted_row i ws :
  i < length (body ws) ->
  body (insert_blank_on (i + 2) (delete_row_on (i + 2) ws))
  = <[i := []]> (body ws).
Proof. apply insert_deleted_row. Qed.

(** C3.  "Update Selected Task" replaces the resolved row [p] by two
    calls, [delete_row(p)] and then [insert_row(new_row, p)] with the
    whole stamped row and the same position, and nothing ties them
    together.  Whenever the delete goes through, the insert is called
    next; and whenever the insert then ends by an exception -- the
    service fails its first request, [json] cannot encode the row
    ([TypeError]), or the service fails its second request -- the run
    ends with that exception and sends nothing more: the record that was
    at [p] is gone from the sheet, which holds one record less or a
    blank row in its place, and every other record is where it was.
    When [delete_row] itself does not go through, because the position
    cannot be encoded or the service fails the request, [insert_row] is
    not called and the sheet is as it was. *)
Theorem update_is_delete_then_insert
    to_datetime inp s df s1 es first rest name i edited new_row :
  table_ok (sheet s) = true ->
  load to_datetime s = (Return df, s1, es) ->
  add_clicked inp = false ->
  selected_row inp = first :: rest ->
  dict_get "Task Name" (fields first) = Some name ->
  first_row_named name (sheet_column (sheet s) "Task Name") i ->
  update_clicked inp = true ->
  rows (updated_df inp) !! nodeRowIndex first = Some edited ->
  set_last edited (VStr (Fmt.ymd (today inp))) = Some new_row ->
  let p := i + 2 in
  let shown := shown_on_selection df inp in
  let called := shown ++ [Remote (DeleteRow p); Remote (InsertRow new_row p)] in
  let deleted := delete_row_on p (sheet s) in
  let blank := insert_blank_on p deleted in
  let run := task_table to_datetime inp s in
  (exists original, body (sheet s) !! i = Some original) /\
  body deleted = delete i (body (sheet s)) /\
  length (body deleted) + 1 = length (body (sheet s)) /\
  body blank = <[i := []]> (body (sheet s)) /\
  (int_position inp = true -> fails s 1 = false ->
   requests run.2 = [GetAllRecords; DeleteRow p; InsertRow new_row p] /\
   (fails s 2 = true ->
    run = (Raise APIError, served (answered deleted (served s)), called) /\
    sheet run.1.2 = deleted) /\
   (fails s 2 = false -> json_ok inp new_row = false ->
    run = (Raise TypeError, answered blank (answered deleted (served s)), called) /\
    sheet run.1.2 = blank) /\
   (fails s 2 = false -> json_ok inp new_row = true -> fails s 3 = true ->
    run = (Raise APIError,
           served (answered blank (answered deleted (served s))), called) /\
    sheet run.1.2 = blank)) /\
  (int_position inp = false ->
   run = (Raise TypeError, served s, shown ++ [Remote (DeleteRow p)]) /\
   sheet run.1.2 = sheet s) /\
  (int_position inp = true -> fails s 1 = true ->
   run = (Raise APIError, served (served s), shown ++ [Remote (DeleteRow p)]) /\
   sheet run.1.2 = sheet s).
Proof.
  intros Hok Hload Hadd Hsel Hname Hfirst Hu Hrow Hlast
    p shown called deleted blank run.
  pose proof (resolved_in_range _ _ _ Hfirst) as Hi.
  pose proof (task_table_update _ _ _ _ _ _ _ _ _ _
                Hok Hload Hadd Hsel Hname Hfirst _ _ Hu Hrow Hlast) as Hrun.
  cbv zeta in Hrun. fold run in Hrun.
  split; [by apply lookup_lt_is_Some|].
  assert (body deleted = delete i (body (sheet s))) as Hdel.
  { subst deleted p. rewrite delete_row_on_body. f_equal. lia. }
  split; [done|]. split.
  { rewrite Hdel.
    destruct (lookup_lt_is_Some_2 (body (sheet s)) i Hi) as [r Hr].
    pose proof (length_delete (body (sheet s)) i (ex_intro _ r Hr)). lia. }
  split; [by apply blank_in_deleted_row|].
  split; [|split].
  - intros Hint H1. rewrite Hint, H1 in Hrun. cbn [negb] in Hrun.
    split; [|split; [|split]].
    + rewrite Hrun. subst called shown.
      destruct (fails s 2); [done|]. destruct (json_ok inp new_row); [|done].
      by destruct (fails s 3).
    + intros H2. rewrite H2 in Hrun. by rewrite Hrun.
    + intros H2 Hjson. rewrite H2, Hjson in Hrun. by rewrite Hrun.
    + intros H2 Hjson H3. rewrite H2, Hjson, H3 in Hrun. by rewrite Hrun.
  - intros Hint. rewrite Hint in Hrun. by rewrite Hrun.
  - intros Hint H1. rewrite Hint, H1 in Hrun. by rewrite Hrun.
Qed.

(** ** The date stamp *)

Lemma code_of_digit n : nat_of_ascii (Fmt.digit n) = 48 + n mod 10.
Proof.
  unfold Fmt.digit. apply nat_ascii_embedding.
  pose proof (Nat.mod_upper_bound n 10). lia.
Qed.

Lemma digit_isdigit n : Fmt.isdigit (Fmt.digit n) = true.
Proof.
  unfold Fmt.isdigit. rewrite code_of_digit.
  pose proof (Nat.mod_upper_bound n 10).
  apply andb_true_intro. split; apply Nat.leb_le; lia.
Qed.

Lemma digit_value_of_digit n : Fmt.digit_value (Fmt.digit n) = n mod 10.
Proof. unfold Fmt.digit_value. rewrite code_of_digit. lia. Qed.

Lemma ymd_chars d :
  list_ascii_of_string (Fmt.ymd d) =
    [Fmt.digit (year d / 1000); Fmt.digit (year d / 100);
     Fmt.digit (year d / 10); Fmt.digit (year d); "-"%char;
     Fmt.digit (month d / 10); Fmt.digit (month d); "-"%char;
     Fmt.digit (day d / 10); Fmt.digit (day d)].
Proof. reflexivity. Qed.

Lemma ymd_shape d : Fmt.is_ymd (Fmt.ymd d) = true.
Proof.
  unfold Fmt.is_ymd. rewrite ymd_chars. unfold forallb.
  rewrite !digit_isdigit. reflexivity.
Qed.

Lemma two_digits n : n < 100 -> 10 * ((n / 10) mod 10) + n mod 10 = n.
Proof.
  intros Hn. pose proof (Nat.div_mod_eq n 10).
  pose proof (Nat.div_mod_eq (n / 10) 10).
  pose proof (Nat.mod_upper_bound n 10).
  pose proof (Nat.mod_upper_bound (n / 10) 10). lia.
Qed.

Lemma four_digits n :
  n < 100 * 100 ->
  1000 * ((n / 1000) mod 10) + 100 * ((n / 100) mod 10)
  + 10 * ((n / 10) mod 10) + n mod 10 = n.
Proof.
  intros Hn.
  replace (n / 100) with (n / 10 / 10) by (by rewrite Nat.Div0.div_div).
  replace (n / 1000) with (n / 10 / 10 / 10) by (by rewrite !Nat.Div0.div_div).
  pose proof (Nat.div_mod_eq n 10).
  pose proof (Nat.div_mod_eq (n / 10) 10).
  pose proof (Nat.div_mod_eq (n / 10 / 10) 10).
  pose proof (Nat.div_mod_eq (n / 10 / 10 / 10) 10).
  pose proof (Nat.mod_upper_bound n 10).
  pose proof (Nat.mod_upper_bound (n / 10) 10).
  pose proof (Nat.mod_upper_bound (n / 10 / 10) 10).
  pose proof (Nat.mod_upper_bound (n / 10 / 10 / 10) 10). lia.
Qed.

(** The stamp spells the date it was made from. *)
Lemma ymd_reads_back d :
  year d < 100 * 100 -> month d < 100 -> day d < 100 ->
  Fmt.read_ymd (Fmt.ymd d) = Some d.
Proof.
  intros Hy Hm Hd. unfold Fmt.read_ymd. rewrite ymd_shape, ymd_chars.
  rewrite !digit_value_of_digit.
  rewrite (four_digits _ Hy), (two_digits _ Hm), (two_digits _ Hd).
  by destruct d.
Qed.

(** ** Appending a row *)

Lemma dict_get_as_fields col cols row :
  dict_get col (as_fields cols row) = (j ← get_loc col cols; row !! j).
Proof.
  unfold as_fields. revert row; induction cols as [|c cols IH]; intros row.
  - done.
  - destruct row as [|v row]; simpl.
    + destruct (String.eqb c col); [done|]. by destruct (get_loc col cols).
    + destruct (String.eqb c col); [done|]. rewrite IH.
      by destruct (get_loc col cols).
Qed.

(** A sheet with the same labels as one that loads, and with a record,
    loads too when its read is served. *)
Lemma load_same_labels to_datetime s df s1 es s' :
  table_ok (sheet s) = true -> load to_datetime s = (Return df, s1, es) ->
  table_ok (sheet s') = true -> header (sheet s') = header (sheet s) ->
  body (sheet s') <> [] -> fails s' 0 = false ->
  exists df', load to_datetime s' = (Return df', served s', load_events).
Proof.
  intros Hok (_ & _ & _ & Hmiss & j & Hj & _)%load_Return Hok' Hhdr Hne Hserved.
  assert (body (sheet s) <> []) as Hne0.
  { intros Hnil. by rewrite (raw_frame_no_record _ Hnil) in Hmiss. }
  assert (columns (raw_frame (sheet s')) = columns (raw_frame (sheet s))) as Hcols.
  { rewrite !raw_frame_columns by done. by rewrite Hhdr. }
  rewrite load_run, Hcols, Hmiss, Hj.
  unfold fails in Hserved.
  destruct (faults s') as [|[] ?]; try done.
  all: destruct (body (sheet s')); [done|]; eauto.
Qed.

Lemma sheet_column_append ws col values :
  sheet_column (append_row_on values ws) col =
  sheet_column ws col
  ++ [default VNaN (j ← get_loc col (map normalize (header ws)); values !! j)].
Proof. unfold sheet_column. simpl. by rewrite map_app. Qed.

Lemma table_ok_append ws values :
  table_ok ws = true -> length values = length (header ws) ->
  table_ok (append_row_on values ws) = true.
Proof.
  unfold table_ok. intros [Hnd Hrect]%andb_prop Hlen. simpl.
  rewrite Hnd, forallb_app, Hrect. simpl. rewrite Hlen.
  by rewrite Nat.eqb_refl.
Qed.

(** C4.  A submitted add form whose request is served ends the run with
    one more record in the sheet, after all the others, whatever names
    the sheet already holds: the form is compared with no cell of the
    sheet.  The row that is written is the form's ten values and, as its
    last cell, today's date written [YYYY-MM-DD]; when the labels are
    the eleven of the schema, in order, that cell is the one under
    "Last Updated".  The statement is about the row as [append_row]
    writes it; what [get_all_records] makes of its texts when it reads
    them back is not modelled (see [records_of]). *)
Theorem add_task_appends_stamped_row to_datetime inp s df s1 es :
  load to_datetime s = (Return df, s1, es) ->
  add_clicked inp = true ->
  fails s 1 = false ->
  let f := add_form inp in
  let stamp := VStr (Fmt.ymd (today inp)) in
  let row := new_task_row f (today inp) in
  let after := append_row_on row (sheet s) in
  let s' := answered after (served s) in
  task_table to_datetime inp s =
    (Rerun, s',
     load_events ++ [Form "add_task_form"; Remote (AppendRow row);
                     Success "✅ Task added."]) /\
  sheet s' = after /\
  header after = header (sheet s) /\
  body after = body (sheet s) ++ [row] /\
  row = [VStr (task f); VStr (category_text (task_category f)); VInt (qty f);
         VStr (seamstress f); VStr (status_text (task_status f));
         VStr (priority_text (task_priority f)); VFloat (cost f);
         VStr (exp_file f); VStr (del_file f); VStr (Fmt.ymd (due f)); stamp] /\
  Fmt.is_ymd (Fmt.ymd (today inp)) = true /\
  (year (today inp) < 100 * 100 -> month (today inp) < 100 ->
   day (today inp) < 100 ->
   Fmt.read_ymd (Fmt.ymd (today inp)) = Some (today inp)) /\
  (map normalize (header (sheet s)) = required_columns ->
   dict_get "Last Updated" (as_fields (map normalize (header (sheet s))) row)
   = Some stamp).
Proof.
  intros Hload Hadd Hserved f stamp row after s'.
  pose proof (load_Return _ _ _ _ _ Hload) as (_ & Hs1 & Hes & _).
  split; [|split; [done|split; [done|split; [done|split; [done|]]]]].
  { rewrite (task_table_add _ _ _ _ _ _ Hload Hadd). subst s1 es.
    by rewrite next_served_fails, fails_served, Hserved. }
  split; [apply ymd_shape|]. split; [apply ymd_reads_back|].
  intros Hschema. rewrite Hschema. reflexivity.
Qed.

(** C6.  The sheet holds Alice/Working, Bob/Done and Carol/Stuck.  With
    the status filter ["Done"] the grid shows one row, Bob, the row of
    index 1 of the loaded frame.  Selecting it and clicking "Delete"
    resolves position 3 (index 1 plus the offset 2) and calls
    [delete_row(3)], and nothing else after the read.  Under pandas 2,
    where that position is a [numpy.int64], the call raises [TypeError]
    before a request is sent: the run ends there and the sheet still
    holds Alice, Bob and Carol.  Under pandas 3, where it is an [int],
    the run ends with a rerun and leaves Alice and Carol, which is what
    a read and a load then return. *)
Theorem three_tasks_filter_and_delete to_datetime :
  let s := Store Sample.three [] in
  let left := {| header := required_columns;
                 body := [Sample.alice; Sample.carol] |} in
  exists df f,
    load to_datetime s = (Return df, s, load_events) /\
    series df "Task Name" = [VStr "Alice"; VStr "Bob"; VStr "Carol"] /\
    series df "Status" = [VStr "Working"; VStr "Done"; VStr "Stuck"] /\
    filtered_df df [VStr "Done"] [] s = (Return f, s, []) /\
    series f "Task Name" = [VStr "Bob"] /\
    index f = [1] /\
    take 10 <$> rows f = [take 10 Sample.bob] /\
    row_number df (VStr "Bob") s = (Return 3, s, []) /\
    (exists es,
        task_table to_datetime (Sample.select [VStr "Done"] [] f 0 false true) s
        = (Raise TypeError, s, es) /\
        sheet s = Sample.three /\
        requests es = [GetAllRecords; DeleteRow 3] /\
        In (Grid f) es /\
        ~ In (Warning "🗑️ Task deleted.") es) /\
    (exists es,
        task_table to_datetime
          (Sample.pandas3 (Sample.select [VStr "Done"] [] f 0 false true)) s
        = (Rerun, Store left [], es) /\
        requests es = [GetAllRecords; DeleteRow 3] /\
        In (Grid f) es) /\
    get_all_records (Store left [])
    = (Return [as_fields required_columns Sample.alice;
               as_fields required_columns Sample.carol],
       Store left [], [Remote GetAllRecords]) /\
    (exists df',
        load to_datetime (Store left []) = (Return df', Store left [], load_events) /\
        series df' "Task Name" = [VStr "Alice"; VStr "Carol"]).
Proof.
  cbv zeta. do 2 eexists.
  split; [vm_compute; reflexivity|].
  split; [vm_compute; reflexivity|].
  split; [vm_compute; reflexivity|].
  split; [vm_compute; reflexivity|].
  split; [vm_compute; reflexivity|].
  split; [vm_compute; reflexivity|].
  split; [vm_compute; reflexivity|].
  split; [vm_compute; reflexivity|].
  split.
  { eexists. split; [vm_compute; reflexivity|].
    split; [reflexivity|].
    split; [vm_compute; reflexivity|].
    split; [vm_compute; do 6 right; by left|].
    vm_compute. intros H.
    repeat (destruct H as [H|H]; [discriminate H|]). exact H. }
  split.
  { eexists. split; [vm_compute; reflexivity|].
    split; [vm_compute; reflexivity|].
    vm_compute. do 6 right. by left. }
  split; [vm_compute; reflexivity|].
  eexists. split; vm_compute; reflexivity.
Qed.

(** ** Filters *)

Lemma filtered_view_no_selection df : filtered_view df [] [] = df.
Proof.
  destruct df as [cols dat]. unfold filtered_view. simpl. f_equal.
  apply forallb_filter_id. by apply forallb_forall.
Qed.

Lemma requests_app es1 es2 : requests (es1 ++ es2) = requests es1 ++ requests es2.
Proof. apply omap_app. Qed.

Lemma requests_view_events df f1 f2 : requests (view_events df f1 f2) = [].
Proof. done. Qed.

(** The filter selections have no part in what a run asks of the
    worksheet, nor in how it ends. *)
Lemma filters_do_not_reach_the_sheet to_datetime inp f1 f2 s :
  let run := task_table to_datetime inp s in
  let run' := task_table to_datetime (with_filters inp f1 f2) s in
  run'.1.1 = run.1.1 /\ run'.1.2 = run.1.2 /\ requests run'.2 = requests run.2.
Proof.
  cbv zeta.
  destruct (load to_datetime s) as [[[df| | |e] s1] es] eqn:Hload.
  - destruct (add_clicked inp) eqn:Hadd.
    + rewrite (task_table_add _ inp _ _ _ _ Hload Hadd).
      by rewrite (task_table_add _ (with_filters inp f1 f2) _ _ _ _ Hload Hadd).
    + rewrite (task_table_view _ inp _ _ _ _ Hload Hadd).
      rewrite (task_table_view _ (with_filters inp f1 f2) _ _ _ _ Hload Hadd).
      change (selected_row_actions df (with_filters inp f1 f2))
        with (selected_row_actions df inp).
      destruct (selected_row_actions df inp s1) as [[o s2] es2].
      cbn [fst snd]. by rewrite !requests_app, !requests_view_events.
  - unfold task_table, bind. by rewrite Hload.
  - unfold task_table, bind. by rewrite Hload.
  - unfold task_table, bind. by rewrite Hload.
Qed.

(** C8.  On a loaded frame, whatever the status and category selections,
    filtering returns a frame with the same columns whose rows are a
    subsequence of the rows of the raw frame (same rows, same labels,
    same order), and it does so without a request and without touching
    the store.  The selections do not reach the position either: two
    runs that differ in the filters only end the same way, send the same
    requests and leave the same sheet, the position sent being the one
    resolved on the raw frame. *)
Theorem filtered_view_is_subsequence to_datetime s df s1 es f1 f2 :
  table_ok (sheet s) = true ->
  load to_datetime s = (Return df, s1, es) ->
  (forall s2, exists f,
      filtered_df df f1 f2 s2 = (Return f, s2, []) /\
      columns f = columns df /\
      sublist (data f) (data df)) /\
  (forall inp s0,
      let run := task_table to_datetime inp s0 in
      let run' := task_table to_datetime (with_filters inp f1 f2) s0 in
      run'.1.1 = run.1.1 /\ run'.1.2 = run.1.2 /\
      requests run'.2 = requests run.2) /\
  (forall name i s2,
      first_row_named name (series df "Task Name") i ->
      row_number df name s2 = (Return (i + 2), s2, [])).
Proof.
  intros Hok Hload.
  destruct (loaded_frame _ _ _ _ _ Hok Hload) as (_ & Hidx & Hlen & Hreq & Hser).
  destruct (Hreq "Status") as [jS HS]; [repeat ((by left) || right)|].
  destruct (Hreq "Category") as [jC HC]; [repeat ((by left) || right)|].
  split; [|split].
  - intros s2. exists (filtered_view df f1 f2).
    split; [by apply (filtered_df_run _ _ _ jS jC)|]. split; [done|].
    apply filter_sublist.
  - intros inp s0. apply filters_do_not_reach_the_sheet.
  - intros name i s2 Hfirst. rewrite Hser in Hfirst by done.
    apply first_row_named_match in Hfirst.
    by rewrite (row_number_loaded _ _ _ _ _ _ _ Hok Hload), Hfirst.
Qed.

(** C10.  An empty selection filters nothing.  On a loaded frame the
    code of lines 72-76 returns the frame itself when both selections
    are empty; in general it keeps exactly the rows that each non-empty
    selection admits on its own column, so a status selection alone
    tests "Status" only and a category selection alone tests "Category"
    only. *)
Theorem empty_selection_keeps_every_row to_datetime s df s1 es :
  table_ok (sheet s) = true ->
  load to_datetime s = (Return df, s1, es) ->
  (forall s2, filtered_df df [] [] s2 = (Return df, s2, [])) /\
  (forall f1 f2 s2,
      filtered_df df f1 f2 s2 = (Return (filtered_view df f1 f2), s2, [])) /\
  (forall f1 f2 r,
      In r (data (filtered_view df f1 f2)) <->
      In r (data df) /\
      (f1 = [] \/ isin f1 (at_col df "Status" r.2) = true) /\
      (f2 = [] \/ isin f2 (at_col df "Category" r.2) = true)) /\
  (forall v f1,
      data (filtered_view df (v :: f1) []) =
      List.filter (fun r => isin (v :: f1) (at_col df "Status" r.2)) (data df)) /\
  (forall v f2,
      data (filtered_view df [] (v :: f2)) =
      List.filter (fun r => isin (v :: f2) (at_col df "Category" r.2)) (data df)).
Proof.
  intros Hok Hload.
  destruct (loaded_frame _ _ _ _ _ Hok Hload) as (_ & _ & _ & Hreq & _).
  destruct (Hreq "Status") as [jS HS]; [repeat ((by left) || right)|].
  destruct (Hreq "Category") as [jC HC]; [repeat ((by left) || right)|].
  split; [|split; [|split; [|split]]].
  - done.
  - intros f1 f2 s2. by apply (filtered_df_run _ _ _ jS jC).
  - intros f1 f2 r. unfold filtered_view. simpl.
    rewrite filter_In, andb_true_iff.
    destruct f1 as [|v1 f1], f2 as [|v2 f2]; simpl; split.
    all: try (intros (? & ? & ?); repeat split; auto; fail).
    all: intros (? & [?|?] & [?|?]); repeat split; auto; done.
  - intros v f1. unfold filtered_view. simpl. apply filter_ext.
    intros r. apply andb_true_r.
  - done.
Qed.

(** ** Runs that write nothing *)




(** ** The stamp on a replaced row *)




(** In a row of eleven cells the last one is the one under
    "Last Updated". *)
Lemma last_is_last_updated row :
  length row = length required_columns ->
  dict_get "Last Updated" (as_fields required_columns row) = last row.
Proof.
  intros Hlen. rewrite dict_get_as_fields, last_lookup, Hlen. reflexivity.
Qed.


(** * The claims at sample inputs *)


Lemma row_number_is_first_name_match_witness :
  row_number (Sample.frame Sample.three) (VStr "Bob") (Store Sample.three [])
  = (Return 3, Store Sample.three [], []).
Proof.
  apply (proj1 (row_number_is_first_name_match Sample.nothing_parses)
           (Store Sample.three []) (Sample.frame Sample.three)
           (Store Sample.three []) load_events (VStr "Bob") 1).
  - vm_compute. reflexivity.
  - vm_compute. reflexivity.
  - apply first_row_named_match. vm_compute. reflexivity.
Defined.

Lemma unmatched_selection_raises_IndexError_witness :
  (task_table Sample.nothing_parses
     (Sample.select [] [] (Sample.frame Sample.three_retyped) 1 false true)
     (Store Sample.three [])).1
  = (Raise IndexError, Store Sample.three []).
Proof.
  edestruct (unmatched_selection_raises_IndexError Sample.nothing_parses
               (Sample.select [] [] (Sample.frame Sample.three_retyped) 1
                  false true)
               (Store Sample.three [])) as (Hrun & _).
  - vm_compute. reflexivity.
  - vm_compute. reflexivity.
  - reflexivity.
  - vm_compute. reflexivity.
  - vm_compute. reflexivity.
  - vm_compute. intros v H.
    repeat (destruct H as [<-|H]; [reflexivity|]). destruct H.
  - rewrite Hrun. reflexivity.
Defined.

Lemma update_is_delete_then_insert_witness :
  (task_table Sample.nothing_parses
     (Sample.pandas3 (Sample.select [] [] (Sample.frame Sample.three) 1 true false))
     (Store Sample.three [])).1
  = (Raise TypeError,
     Store {| header := required_columns;
              body := [Sample.alice; []; Sample.carol] |} []) /\
  (task_table Sample.nothing_parses
     (Sample.pandas3 (Sample.select [] [] (Sample.frame Sample.three) 1 true false))
     (Store Sample.three [false; false; true])).1
  = (Raise APIError,
     Store {| header := required_columns;
              body := [Sample.alice; Sample.carol] |} []).
Proof.
  split.
  - edestruct (update_is_delete_then_insert Sample.nothing_parses
                 (Sample.pandas3
                    (Sample.select [] [] (Sample.frame Sample.three) 1 true false))
                 (Store Sample.three []))
      with (i := 1) as (_ & _ & _ & _ & Hserved & _).
    + vm_compute. reflexivity.
    + vm_compute. reflexivity.
    + reflexivity.
    + vm_compute. reflexivity.
    + vm_compute. reflexivity.
    + apply first_row_named_match. vm_compute. reflexivity.
    + reflexivity.
    + vm_compute. reflexivity.
    + vm_compute. reflexivity.
    + destruct Hserved as (_ & _ & Hjson & _); [reflexivity | reflexivity |].
      destruct Hjson as [Hrun _]; [reflexivity | reflexivity |].
      rewrite Hrun. reflexivity.
  - edestruct (update_is_delete_then_insert Sample.nothing_parses
                 (Sample.pandas3
                    (Sample.select [] [] (Sample.frame Sample.three) 1 true false))
                 (Store Sample.three [false; false; true]))
      with (i := 1) as (_ & _ & _ & _ & Hserved & _).
    + vm_compute. reflexivity.
    + vm_compute. reflexivity.
    + reflexivity.
    + vm_compute. reflexivity.
    + vm_compute. reflexivity.
    + apply first_row_named_match. vm_compute. reflexivity.
    + reflexivity.
    + vm_compute. reflexivity.
    + vm_compute. reflexivity.
    + destruct Hserved as (_ & Hfail & _); [reflexivity | reflexivity |].
      destruct Hfail as [Hrun _]; [reflexivity|].
      rewrite Hrun. reflexivity.
Defined.

Lemma add_task_appends_stamped_row_witness :
  (task_table Sample.nothing_parses Sample.add (Store Sample.three [])).1
  = (Rerun,
     Store {| header := required_columns;
              body := [Sample.alice; Sample.bob; Sample.carol;
                       [VStr "Bob"; VStr "Labelling"; VInt 40; VStr "Bea";
                        VStr "Working"; VStr "High"; VFloat (18 # 1); VStr "";
                        VStr ""; VStr "2024-04-15"; VStr "2024-03-07"]] |} []).
Proof.
  edestruct (add_task_appends_stamped_row Sample.nothing_parses Sample.add
               (Store Sample.three [])) as (Hrun & _).
  - vm_compute. reflexivity.
  - reflexivity.
  - reflexivity.
  - rewrite Hrun. reflexivity.
Defined.

Lemma delete_row_then_load_witness :
  task_table Sample.nothing_parses
    (Sample.select [] [] (Sample.frame Sample.three) 1 false true)
    (Store Sample.three [])
  = (Raise TypeError, Store Sample.three [],
     shown_on_selection (Sample.frame Sample.three)
       (Sample.select [] [] (Sample.frame Sample.three) 1 false true)
     ++ [Remote (DeleteRow 3)]) /\
  body (sheet (task_table Sample.nothing_parses
                 (Sample.pandas3
                    (Sample.select [] [] (Sample.frame Sample.three) 1 false true))
                 (Store Sample.three [])).1.2)
  = [Sample.alice; Sample.carol].
Proof.
  split.
  - edestruct (delete_row_then_load Sample.nothing_parses
                 (Sample.select [] [] (Sample.frame Sample.three) 1 false true)
                 (Store Sample.three [])) with (i := 1) as (_ & Hnumpy & _).
    + vm_compute. reflexivity.
    + vm_compute. reflexivity.
    + reflexivity.
    + vm_compute. reflexivity.
    + vm_compute. reflexivity.
    + apply first_row_named_match. vm_compute. reflexivity.
    + reflexivity.
    + reflexivity.
    + destruct Hnumpy as [Hrun _]; [reflexivity|]. exact Hrun.
  - edestruct (delete_row_then_load Sample.nothing_parses
                 (Sample.pandas3
                    (Sample.select [] [] (Sample.frame Sample.three) 1 false true))
                 (Store Sample.three [])) with (i := 1) as (_ & _ & Hint).
    + vm_compute. reflexivity.
    + vm_compute. reflexivity.
    + reflexivity.
    + vm_compute. reflexivity.
    + vm_compute. reflexivity.
    + apply first_row_named_match. vm_compute. reflexivity.
    + reflexivity.
    + reflexivity.
    + destruct Hint as (_ & _ & _ & Hbody & _); [reflexivity | reflexivity |].
      rewrite Hbody. reflexivity.
Defined.


Lemma filtered_view_is_subsequence_witness :
  exists f,
    filtered_df (Sample.frame Sample.three) [VStr "Done"; VStr "Stuck"] []
      (Store Sample.three [])
    = (Return f, Store Sample.three [], []) /\
    sublist (data f) (data (Sample.frame Sample.three)).
Proof.
  edestruct (filtered_view_is_subsequence Sample.nothing_parses
               (Store Sample.three []) (Sample.frame Sample.three)
               (Store Sample.three []) load_events
               [VStr "Done"; VStr "Stuck"] []) as (Hsub & _).
  - vm_compute. reflexivity.
  - vm_compute. reflexivity.
  - destruct (Hsub (Store Sample.three [])) as (f & Hrun & _ & Hf).
    exists f. by split.
Defined.

Lemma empty_selection_keeps_every_row_witness :
  filtered_df (Sample.frame Sample.three) [] [] (Store Sample.three [])
  = (Return (Sample.frame Sample.three), Store Sample.three [], []).
Proof.
  edestruct (empty_selection_keeps_every_row Sample.nothing_parses
               (Store Sample.three []) (Sample.frame Sample.three)
               (Store Sample.three []) load_events) as (Hid & _).
  - vm_compute. reflexivity.
  - vm_compute. reflexivity.
  - apply Hid.
Defined.

(** * Further properties of the task table page *)

(** ** Every run, whatever the inputs and the faults *)

Lemma compress_elem_of {A} (mask : list bool) (l : list A) x :
  In x (compress mask l) -> In x l.
Proof.
  intros Hx. apply list_elem_of_In. apply list_elem_of_In in Hx.
  eapply elem_of_sublist; [exact Hx|]. apply compress_sublist.
Qed.

Lemma index_converted to_datetime ws j :
  index (converted to_datetime (raw_frame ws) j) = seq 0 (length (body ws)).
Proof.
  unfold index, converted, raw_frame, DataFrame_of, records_of. simpl.
  apply list_eq. intros i.
  rewrite list_lookup_fmap, !list_lookup_imap.
  change (map (zip (header ws)) (body ws)) with (zip (header ws) <$> body ws).
  rewrite list_lookup_fmap.
  destruct (body ws !! i) as [r|] eqn:Hr; simpl.
  - symmetry. apply lookup_seq. split; [done|]. by apply lookup_lt_Some in Hr.
  - symmetry. apply lookup_seq_ge. by apply lookup_ge_None.
Qed.

(** The lookup of line 101 either raises or returns a label of the frame
    plus 2. *)
Lemma row_number_cases df name s :
  row_number df name s = (Raise KeyError, s, []) \/
  row_number df name s = (Raise IndexError, s, []) \/
  exists i, In i (index df) /\ row_number df name s = (Return (i + 2), s, []).
Proof.
  unfold row_number, getitem, bind, or_raise, ret, raise.
  destruct (get_loc "Task Name" (columns df)) as [j|]; [|by left].
  right.
  destruct (head (compress _ (index df))) as [i|] eqn:Hi; [|by left].
  right. exists i. split; [|done].
  apply (compress_elem_of (map (fun v => py_eq v name)
                               (map (fun r => default VNaN (r !! j)) (rows df)))).
  destruct (compress _ (index df)) as [|i' l]; [done|].
  injection Hi as ->. by left.
Qed.

Lemma selected_row_actions_effect df inp s :
  (forall i, In i (index df) -> i < length (body (sheet s))) ->
  exists o s' es,
    selected_row_actions df inp s = (o, s', es) /\
    run_effect o (sheet s) (requests es) (sheet s').
Proof.
  intros Hrange. unfold selected_row_actions.
  destruct (selected_row inp) as [|first rest].
  { do 3 eexists. split; [reflexivity|]. by apply effect_none. }
  destruct (dict_get "Task Name" (fields first)) as [name|].
  2:{ do 3 eexists. split; [reflexivity|]. by apply effect_none. }
  unfold bind at 1. unfold or_raise at 1, ret at 1. unfold bind at 1.
  destruct (row_number_cases df name s) as [->|[->|(i & Hi & ->)]].
  { do 3 eexists. split; [reflexivity|]. by apply effect_none. }
  { do 3 eexists. split; [reflexivity|]. by apply effect_none. }
  assert (data_row (sheet s) (i + 2)) as Hp.
  { specialize (Hrange i Hi). unfold data_row. lia. }
  unfold bind at 1. unfold emit at 1.
  destruct (update_clicked inp).
  - unfold when at 1. unfold bind at 1. unfold bind at 1.
    destruct (rows (updated_df inp) !! nodeRowIndex first) as [edited|].
    2:{ do 3 eexists. split; [reflexivity|]. by apply effect_none. }
    unfold or_raise at 1, ret at 1.
    destruct (set_last edited _) as [new_row|].
    2:{ do 3 eexists. split; [reflexivity|]. by apply effect_none. }
    unfold bind at 1. unfold or_raise at 1, ret at 1.
    unfold bind at 1. rewrite delete_row_run by lia.
    destruct (int_position inp).
    2:{ do 3 eexists. split; [reflexivity|]. apply effect_delete_failed; auto. }
    destruct (next_served s).
    2:{ do 3 eexists. split; [reflexivity|]. apply effect_delete_failed; auto. }
    unfold bind at 1. rewrite insert_row_run by lia.
    destruct (next_served _).
    2:{ do 3 eexists. split; [reflexivity|]. by apply effect_insert_failed. }
    cbv zeta. destruct (json_ok inp new_row).
    2:{ do 3 eexists. split; [reflexivity|]. apply effect_insert_blank; auto. }
    destruct (next_served _).
    2:{ do 3 eexists. split; [reflexivity|]. apply effect_insert_blank; auto. }
    do 3 eexists. split; [reflexivity|]. cbn [sheet answered].
    rewrite write_into_blank.
    + by apply effect_replaced.
    + destruct Hp as [_ Hp]. cbn [body delete_row_on].
      replace (i + 2 - 2) with i by lia.
      assert (i < length (body (sheet s))) as Hlt by lia.
      destruct (lookup_lt_is_Some_2 (body (sheet s)) i Hlt) as [r Hr].
      pose proof (length_delete (body (sheet s)) i (ex_intro _ r Hr)). lia.
  - unfold when at 1. unfold bind at 1. unfold ret at 1.
    destruct (delete_clicked inp).
    + unfold when. unfold bind at 1. rewrite delete_row_run by lia.
      destruct (int_position inp).
      2:{ do 3 eexists. split; [reflexivity|]. apply effect_delete_failed; auto. }
      destruct (next_served s).
      * do 3 eexists. split; [reflexivity|]. by apply effect_deleted.
      * do 3 eexists. split; [reflexivity|]. apply effect_delete_failed; auto.
    + do 3 eexists. split; [reflexivity|]. by apply effect_none.
Qed.

(** The backbone: a run sends the read first and then has one of the
    effects of [run_effect]. *)
Lemma task_table_effect to_datetime inp s :
  exists o s' es writes,
    task_table to_datetime inp s = (o, s', es) /\
    requests es = GetAllRecords :: writes /\
    run_effect o (sheet s) writes (sheet s').
Proof.
  destruct (load to_datetime s) as [[[df| | |e] s1] es] eqn:Hload.
  - destruct (load_Return _ _ _ _ _ Hload) as (_ & Hs1 & Hes & _ & j & _ & Hdf).
    destruct (add_clicked inp) eqn:Hadd.
    + rewrite (task_table_add _ _ _ _ _ _ Hload Hadd). subst s1 es.
      destruct (next_served (served s)).
      * do 4 eexists. split; [reflexivity|]. split; [reflexivity|].
        apply effect_added.
      * do 4 eexists. split; [reflexivity|]. split; [reflexivity|].
        apply effect_add_failed.
    + rewrite (task_table_view _ _ _ _ _ _ Hload Hadd). subst s1 es.
      destruct (selected_row_actions_effect df inp (served s))
        as (o & s' & es & -> & Heff).
      { intros i Hi. subst df. rewrite index_converted in Hi.
        apply in_seq in Hi. simpl. lia. }
      exists o, s', (load_events ++ view_events df (filter1 inp) (filter2 inp) ++ es),
             (requests es).
      split; [reflexivity|]. split; [|done].
      by rewrite !requests_app, requests_view_events.
  - rewrite (task_table_Stop _ _ _ _ _ Hload).
    destruct (load_ends _ _ _ _ _ Hload) as (-> & Hreq & _).
    exists Stop, (served s), es, []. split; [done|]. split; [done|].
    by apply effect_none.
  - by destruct (load_ends _ _ _ _ _ Hload) as (_ & _ & Hno).
  - rewrite (task_table_Raise _ _ _ _ _ _ Hload).
    destruct (load_ends _ _ _ _ _ Hload) as (-> & Hreq & _).
    exists (Raise e), (served s), es, []. split; [done|]. split; [done|].
    by apply effect_none.
Qed.

Lemma run_effect_header o ws writes ws' :
  run_effect o ws writes ws' -> header ws' = header ws.
Proof. by intros []. Qed.

Lemma length_delete_row_on ws p :
  data_row ws p -> length (body (delete_row_on p ws)) + 1 = length (body ws).
Proof.
  intros [Hp Hlast]. rewrite delete_row_on_body, length_delete.
  - lia.
  - apply lookup_lt_is_Some. lia.
Qed.

Lemma length_insert_row_on ws p row :
  length (body (insert_row_on row p ws)) = length (body ws) + 1.
Proof.
  simpl. rewrite length_app. simpl. rewrite length_take, length_drop. lia.
Qed.

(** X1.  Whatever the inputs, the sheet and the faults of the service, a
    run of the task table page sends the read first and after it at most
    one mutation: nothing, one [append_row], one [delete_row] at the
    position of a record, or that [delete_row] followed by one
    [insert_row] at the same position. *)
Theorem run_sends_read_then_one_mutation to_datetime inp s :
  let sent := requests (task_table to_datetime inp s).2 in
  sent = [GetAllRecords] \/
  (exists row, sent = [GetAllRecords; AppendRow row]) \/
  (exists p, data_row (sheet s) p /\ sent = [GetAllRecords; DeleteRow p]) \/
  (exists p row,
      data_row (sheet s) p /\
      sent = [GetAllRecords; DeleteRow p; InsertRow row p]).
Proof.
  cbv zeta.
  destruct (task_table_effect to_datetime inp s)
    as (o & s' & es & writes & -> & Hreq & Heff).
  cbn [snd]. rewrite Hreq.
  destruct Heff; eauto 10.
Qed.

(** X2.  Whatever the inputs and the faults, a run of the task table
    page never changes the header row, and it changes the number of
    records by one at most: one more only when a row was appended, which
    then is the last record; one less only when a row was deleted. *)
Theorem run_keeps_header_and_moves_one_record to_datetime inp s :
  let run := task_table to_datetime inp s in
  let before := sheet s in
  let after := sheet run.1.2 in
  header after = header before /\
  (length (body after) = length (body before) \/
   (exists row,
       body after = body before ++ [row] /\
       requests run.2 = [GetAllRecords; AppendRow row]) \/
   (exists p,
       body after = delete (p - 2) (body before) /\
       length (body after) + 1 = length (body before) /\
       In (DeleteRow p) (requests run.2))).
Proof.
  cbv zeta.
  destruct (task_table_effect to_datetime inp s)
    as (o & s' & es & writes & -> & Hreq & Heff).
  cbn [fst snd]. rewrite Hreq.
  split; [by eapply run_effect_header|].
  destruct Heff as [o ws Ho|ws row|ws row|ws p Hp|ws p e Hp He|ws p row Hp
                   |ws p row Hp|ws p row e Hp He].
  - by left.
  - right. left. by exists row.
  - by left.
  - right. right. exists p. split; [done|].
    split; [by apply length_delete_row_on|]. right. by left.
  - by left.
  - left. rewrite length_insert_row_on.
    pose proof (length_delete_row_on ws p Hp). lia.
  - right. right. exists p. split; [done|].
    split; [by apply length_delete_row_on|]. right. by left.
  - left. unfold insert_blank_on. rewrite length_insert_row_on.
    pose proof (length_delete_row_on ws p Hp). lia.
Qed.

(** X3.  A run that does not end by a rerun leaves the sheet as it was,
    with one exception: the update whose delete was served and whose
    [insert_row] ended by an exception.  So when such a run has changed
    the sheet, it ended with [APIError] or [TypeError], it called
    [delete_row(p)] and [insert_row(row, p)], and the sheet is the former
    one without the record of row [p], or with a blank row in its place;
    after a [TypeError] it is the one with the blank row. *)
Theorem only_failed_insert_leaves_partial_write to_datetime inp s :
  let run := task_table to_datetime inp s in
  run.1.1 <> Rerun ->
  sheet run.1.2 <> sheet s ->
  (run.1.1 = Raise APIError \/ run.1.1 = Raise TypeError) /\
  exists p row,
    data_row (sheet s) p /\
    requests run.2 = [GetAllRecords; DeleteRow p; InsertRow row p] /\
    (sheet run.1.2 = delete_row_on p (sheet s) \/
     sheet run.1.2 = insert_blank_on p (delete_row_on p (sheet s))) /\
    (run.1.1 = Raise TypeError ->
     sheet run.1.2 = insert_blank_on p (delete_row_on p (sheet s))).
Proof.
  cbv zeta.
  destruct (task_table_effect to_datetime inp s)
    as (o & s' & es & writes & -> & Hreq & Heff).
  cbn [fst snd]. rewrite Hreq. intros Ho Hchanged.
  destruct Heff as [o ws Ho'|ws row|ws row|ws p Hp|ws p e Hp He|ws p row Hp
                   |ws p row Hp|ws p row e Hp He]; try done.
  - split; [by left|]. exists p, row.
    split; [done|]. split; [done|]. split; [by left|]. done.
  - split; [destruct He as [-> | ->]; auto|]. exists p, row.
    split; [done|]. split; [done|]. split; [by right|]. done.
Qed.

Lemma only_failed_insert_leaves_partial_write_witness :
  exists p row,
    data_row Sample.three p /\
    requests (task_table Sample.nothing_parses
                (Sample.pandas3
                   (Sample.select [] [] (Sample.frame Sample.three) 1 true false))
                (Store Sample.three [])).2
    = [GetAllRecords; DeleteRow p; InsertRow row p].
Proof.
  destruct (only_failed_insert_leaves_partial_write Sample.nothing_parses
              (Sample.pandas3
                 (Sample.select [] [] (Sample.frame Sample.three) 1 true false))
              (Store Sample.three []))
    as (_ & p & row & Hp & Hreq & _).
  - vm_compute. discriminate.
  - vm_compute. discriminate.
  - exists p, row. by split.
Defined.

(** ** When the page loads *)

Lemma missing_cols_nil_iff cols :
  missing_cols cols = [] <-> (forall col, In col required_columns -> In col cols).
Proof.
  split.
  - intros Hnil col Hin. destruct (missing_cols_nil cols col Hnil Hin) as [j Hj].
    apply get_loc_Some in Hj. apply list_elem_of_In, list_elem_of_lookup. eauto.
  - intros Hall. destruct (missing_cols cols) as [|c l] eqn:Hm; [done|].
    assert (In c (missing_cols cols)) as Hc by (rewrite Hm; by left).
    apply In_missing_cols in Hc as [Hreq Hno]. destruct Hno. by apply Hall.
Qed.

Lemma In_get_loc col cols : In col cols -> exists j, get_loc col cols = Some j.
Proof. intros Hin. by apply has_column_get_loc, has_column_In. Qed.

(** X4.  On a sheet that holds at least one record, the load of lines
    28-40 returns a frame exactly when the read is served and each of
    the eleven required labels is among the normalized labels of the
    header; the frame then has the normalized labels of the header and
    one row per record. *)
Theorem load_returns_iff_required_labels to_datetime s :
  table_ok (sheet s) = true ->
  body (sheet s) <> [] ->
  ((exists df s1 es, load to_datetime s = (Return df, s1, es)) <->
   fails s 0 = false /\
   forall col, In col required_columns ->
               In col (map normalize (header (sheet s)))) /\
  (forall df s1 es,
      load to_datetime s = (Return df, s1, es) ->
      columns df = map normalize (header (sheet s)) /\
      length (rows df) = length (body (sheet s))).
Proof.
  intros Hok Hne. pose proof (raw_frame_columns _ Hok Hne) as Hcols. split.
  - split.
    + intros (df & s1 & es & Hload).
      destruct (load_Return _ _ _ _ _ Hload) as (Hserved & _ & _ & Hmiss & _).
      split.
      * unfold fails. destruct (faults s) as [|[] ?]; done.
      * rewrite <- Hcols. by apply missing_cols_nil_iff.
    + intros [Hserved Hall]. rewrite load_run.
      assert (missing_cols (columns (raw_frame (sheet s))) = []) as Hmiss.
      { apply missing_cols_nil_iff. by rewrite Hcols. }
      destruct (missing_cols_nil _ "Last Updated" Hmiss) as [j Hj];
        [repeat ((by left) || right)|].
      rewrite Hmiss, Hj. unfold fails in Hserved.
      destruct (faults s) as [|[] ?]; try done.
      all: destruct (body (sheet s)); [done|]; eauto.
  - intros df s1 es Hload.
    by destruct (loaded_frame _ _ _ _ _ Hok Hload) as (? & _ & ? & _).
Qed.

Lemma load_returns_iff_required_labels_witness :
  exists df s1 es,
    load Sample.nothing_parses (Store Sample.three []) = (Return df, s1, es).
Proof.
  apply (proj1 (load_returns_iff_required_labels Sample.nothing_parses
                  (Store Sample.three []) eq_refl ltac:(discriminate))).
  split; [reflexivity|]. intros col Hcol. exact Hcol.
Defined.

(** X5.  On a sheet without any record, whatever its labels and the
    inputs, a run whose read is served ends at line 30 with an uncaught
    [AttributeError]: the labels of a frame built from no record are a
    [RangeIndex], which has no [.str].  No message about missing columns
    is shown, the add form is not reached, no request but the read is
    sent, and the sheet is as it was. *)
Theorem no_record_raises_AttributeError to_datetime inp s :
  table_ok (sheet s) = true ->
  body (sheet s) = [] ->
  fails s 0 = false ->
  task_table to_datetime inp s = (Raise AttributeError, served s, load_events) /\
  load_events = [Subheader "📌 Manage Production Tasks"; Remote GetAllRecords] /\
  sheet (served s) = sheet s.
Proof.
  intros _ Hnil Hserved. split; [|done].
  apply task_table_Raise. rewrite load_run, Hnil.
  unfold fails in Hserved. by destruct (faults s) as [|[] ?].
Qed.

Lemma no_record_raises_AttributeError_witness :
  (task_table Sample.nothing_parses Sample.add
     (Store {| header := required_columns; body := [] |} [])).1.1
  = Raise AttributeError.
Proof.
  destruct (no_record_raises_AttributeError Sample.nothing_parses Sample.add
              (Store {| header := required_columns; body := [] |} []))
    as [Hrun _]; [reflexivity | reflexivity | reflexivity |].
  by rewrite Hrun.
Defined.

(** X6.  A submitted add form whose request the service fails ends the
    run with [APIError]: the sheet is as it was, the success message is
    not shown, and nothing after the form is. *)
Theorem failed_add_writes_nothing to_datetime inp s df s1 es :
  load to_datetime s = (Return df, s1, es) ->
  add_clicked inp = true ->
  fails s 1 = true ->
  let row := new_task_row (add_form inp) (today inp) in
  task_table to_datetime inp s =
    (Raise APIError, served (served s),
     load_events ++ [Form "add_task_form"; Remote (AppendRow row)]) /\
  sheet (served (served s)) = sheet s.
Proof.
  intros Hload Hadd Hfail row. split; [|done].
  rewrite (task_table_add _ _ _ _ _ _ Hload Hadd).
  destruct (load_Return _ _ _ _ _ Hload) as (_ & -> & -> & _).
  by rewrite next_served_fails, fails_served, Hfail.
Qed.

Lemma failed_add_writes_nothing_witness :
  (task_table Sample.nothing_parses Sample.add
     (Store Sample.three [false; true])).1
  = (Raise APIError, Store Sample.three []).
Proof.
  edestruct (failed_add_writes_nothing Sample.nothing_parses Sample.add
               (Store Sample.three [false; true])) as [Hrun _].
  - vm_compute. reflexivity.
  - reflexivity.
  - reflexivity.
  - rewrite Hrun. reflexivity.
Defined.

(** ** Positions that cannot be encoded *)

Lemma selected_row_actions_numpy df inp s :
  int_position inp = false ->
  exists o es,
    selected_row_actions df inp s = (o, s, es) /\
    o <> Rerun /\
    (requests es = [] \/
     exists p, requests es = [DeleteRow p] /\ o = Raise TypeError).
Proof.
  intros Hint. unfold selected_row_actions.
  destruct (selected_row inp) as [|first rest].
  { do 2 eexists. split; [reflexivity|]. split; [done|]. by left. }
  destruct (dict_get "Task Name" (fields first)) as [name|].
  2:{ do 2 eexists. split; [reflexivity|]. split; [done|]. by left. }
  unfold bind at 1. unfold or_raise at 1, ret at 1. unfold bind at 1.
  destruct (row_number_cases df name s) as [->|[->|(i & Hi & ->)]].
  { do 2 eexists. split; [reflexivity|]. split; [done|]. by left. }
  { do 2 eexists. split; [reflexivity|]. split; [done|]. by left. }
  unfold bind at 1. unfold emit at 1.
  destruct (update_clicked inp).
  - unfold when at 1. unfold bind at 1. unfold bind at 1.
    destruct (rows (updated_df inp) !! nodeRowIndex first) as [edited|].
    2:{ do 2 eexists. split; [reflexivity|]. split; [done|]. by left. }
    unfold or_raise at 1, ret at 1.
    destruct (set_last edited _) as [new_row|].
    2:{ do 2 eexists. split; [reflexivity|]. split; [done|]. by left. }
    unfold bind at 1. unfold or_raise at 1, ret at 1.
    unfold bind at 1. rewrite delete_row_run by lia. rewrite Hint.
    do 2 eexists. split; [reflexivity|]. split; [done|]. right. by eexists.
  - unfold when at 1. unfold bind at 1. unfold ret at 1.
    destruct (delete_clicked inp).
    + unfold when. unfold bind at 1. rewrite delete_row_run by lia.
      rewrite Hint.
      do 2 eexists. split; [reflexivity|]. split; [done|]. right. by eexists.
    + do 2 eexists. split; [reflexivity|]. split; [done|]. by left.
Qed.

(** X7.  Where the position of line 101 is a [numpy.int64] (pandas
    before 3), neither button of the selected row ever changes the sheet:
    whatever the sheet, the selection and the faults, a run without a
    submitted add form leaves the worksheet as it was and does not end
    by a rerun.  It calls nothing after the read, or it calls
    [delete_row] once and ends with the [TypeError] of that call;
    [insert_row] is never called. *)
Theorem numpy_position_never_writes to_datetime inp s :
  int_position inp = false ->
  add_clicked inp = false ->
  let run := task_table to_datetime inp s in
  sheet run.1.2 = sheet s /\
  run.1.1 <> Rerun /\
  (requests run.2 = [GetAllRecords] \/
   exists p,
     requests run.2 = [GetAllRecords; DeleteRow p] /\
     run.1.1 = Raise TypeError).
Proof.
  intros Hint Hadd. cbv zeta.
  destruct (load to_datetime s) as [[[df| | |e] s1] es] eqn:Hload.
  - rewrite (task_table_view _ _ _ _ _ _ Hload Hadd).
    destruct (load_Return _ _ _ _ _ Hload) as (_ & -> & -> & _).
    destruct (selected_row_actions_numpy df inp (served s) Hint)
      as (o & es2 & -> & Ho & Hreq).
    cbn [fst snd]. split; [done|]. split; [done|].
    rewrite !requests_app, requests_view_events.
    destruct Hreq as [-> | (p & -> & ->)]; [by left|]. right. by exists p.
  - rewrite (task_table_Stop _ _ _ _ _ Hload).
    destruct (load_ends _ _ _ _ _ Hload) as (-> & Hreq & _).
    split; [done|]. split; [done|]. by left.
  - by destruct (load_ends _ _ _ _ _ Hload) as (_ & _ & Hno).
  - rewrite (task_table_Raise _ _ _ _ _ _ Hload).
    destruct (load_ends _ _ _ _ _ Hload) as (-> & Hreq & _).
    split; [done|]. split; [done|]. by left.
Qed.

Lemma numpy_position_never_writes_witness :
  sheet (task_table Sample.nothing_parses
           (Sample.select [] [] (Sample.frame Sample.three) 1 true true)
           (Store Sample.three [])).1.2
  = Sample.three.
Proof.
  apply (numpy_position_never_writes Sample.nothing_parses
           (Sample.select [] [] (Sample.frame Sample.three) 1 true true)
           (Store Sample.three [])); reflexivity.
Defined.

(** ** Equal texts *)

Lemma py_eq_text t : py_eq (VStr t) (VStr t) = true.
Proof. apply String.eqb_refl. Qed.

(** ** Labels are matched up to blanks and letter case *)

Lemma isspace_lower c : Text.isspace (Text.lower c) = Text.isspace c.
Proof. destruct c as [[] [] [] [] [] [] [] []]; reflexivity. Qed.

Lemma cased_lower c :
  Text.islower (Text.lower c) || Text.isupper (Text.lower c)
  = Text.islower c || Text.isupper c.
Proof. destruct c as [[] [] [] [] [] [] [] []]; reflexivity. Qed.

Lemma upper_lower c : Text.upper (Text.lower c) = Text.upper c.
Proof. destruct c as [[] [] [] [] [] [] [] []]; reflexivity. Qed.

Lemma uncased_lower c :
  Text.islower c || Text.isupper c = false -> Text.lower c = c.
Proof. destruct c as [[] [] [] [] [] [] [] []]; intros H; done. Qed.

Lemma same_letter_space c d :
  Text.lower c = Text.lower d -> Text.isspace c = Text.isspace d.
Proof. intros H. by rewrite <- (isspace_lower c), H, isspace_lower. Qed.

Lemma same_letter_cased c d :
  Text.lower c = Text.lower d ->
  Text.islower c || Text.isupper c = Text.islower d || Text.isupper d.
Proof. intros H. by rewrite <- (cased_lower c), H, cased_lower. Qed.

Lemma same_letter_upper c d :
  Text.lower c = Text.lower d -> Text.upper c = Text.upper d.
Proof. intros H. by rewrite <- (upper_lower c), H, upper_lower. Qed.

Lemma append_cons c s t : String c s +:+ t = String c (s +:+ t).
Proof. reflexivity. Qed.

Lemma append_empty_r s : s +:+ EmptyString = s.
Proof. induction s as [|c s IH]; [done|]. by rewrite append_cons, IH. Qed.

Lemma lstrip_blank pad s :
  blank pad = true -> Text.lstrip (pad +:+ s) = Text.lstrip s.
Proof.
  induction pad as [|c pad IH]; [done|]. rewrite append_cons. simpl.
  intros [Hc Hpad]%andb_prop. rewrite Hc. by apply IH.
Qed.

Lemma rstrip_blank pad : blank pad = true -> Text.rstrip pad = EmptyString.
Proof.
  induction pad as [|c pad IH]; simpl; [done|].
  intros [Hc Hpad]%andb_prop. by rewrite (IH Hpad), Hc.
Qed.

Lemma rstrip_blank_r s pad :
  blank pad = true -> Text.rstrip (s +:+ pad) = Text.rstrip s.
Proof.
  intros Hpad. induction s as [|c s IH].
  - by apply rstrip_blank.
  - rewrite append_cons. simpl. by rewrite IH.
Qed.

Lemma strip_blank_r s pad :
  blank pad = true -> Text.strip (s +:+ pad) = Text.strip s.
Proof.
  intros Hpad. unfold Text.strip. induction s as [|c s IH].
  - change (EmptyString +:+ pad) with pad.
    rewrite <- (append_empty_r pad) at 1.
    by rewrite (lstrip_blank pad EmptyString Hpad).
  - rewrite append_cons. simpl. destruct (Text.isspace c); [done|].
    by apply (rstrip_blank_r (String c s)).
Qed.

Lemma strip_blanks pad s pad' :
  blank pad = true -> blank pad' = true ->
  Text.strip (pad +:+ s +:+ pad') = Text.strip s.
Proof.
  intros Hpad Hpad'. rewrite <- (strip_blank_r s pad' Hpad').
  unfold Text.strip. by rewrite lstrip_blank.
Qed.

Lemma same_letters_lstrip a b :
  same_letters a b = true ->
  same_letters (Text.lstrip a) (Text.lstrip b) = true.
Proof.
  revert b; induction a as [|c a IH]; intros [|d b]; simpl; try done.
  intros [Hcd Hab]%andb_prop. apply Ascii.eqb_eq in Hcd.
  rewrite (same_letter_space c d Hcd).
  destruct (Text.isspace d); [by apply IH|].
  simpl. rewrite Hab, andb_true_r. by apply Ascii.eqb_eq.
Qed.

Lemma same_letters_rstrip a b :
  same_letters a b = true ->
  same_letters (Text.rstrip a) (Text.rstrip b) = true.
Proof.
  revert b; induction a as [|c a IH]; intros [|d b]; simpl; try done.
  intros [Hcd Hab]%andb_prop. specialize (IH b Hab).
  apply Ascii.eqb_eq in Hcd. rewrite (same_letter_space c d Hcd).
  destruct (Text.rstrip a) as [|c' a'], (Text.rstrip b) as [|d' b'];
    try done.
  - destruct (Text.isspace d); [done|]. simpl.
    rewrite andb_true_r. by apply Ascii.eqb_eq.
  - simpl. simpl in IH. rewrite IH, andb_true_r. by apply Ascii.eqb_eq.
Qed.

Lemma same_letters_title previous_is_cased a b :
  same_letters a b = true ->
  Text.title_from previous_is_cased a = Text.title_from previous_is_cased b.
Proof.
  revert previous_is_cased b; induction a as [|c a IH];
    intros f [|d b]; simpl; try done.
  intros [Hcd Hab]%andb_prop. apply Ascii.eqb_eq in Hcd.
  pose proof (same_letter_cased c d Hcd) as Hcase.
  rewrite Hcase, Hcd, (same_letter_upper c d Hcd).
  destruct (Text.islower d || Text.isupper d) eqn:Hd.
  - f_equal. by apply IH.
  - rewrite <- (uncased_lower c Hcase), <- (uncased_lower d Hd), Hcd.
    f_equal. by apply IH.
Qed.

Lemma lower_title_char (previous_is_cased : bool) (c : ascii) :
  Text.lower (if Text.islower c || Text.isupper c
              then (if previous_is_cased then Text.lower c else Text.upper c)
              else c)
  = Text.lower c.
Proof.
  destruct previous_is_cased; destruct c as [[] [] [] [] [] [] [] []];
    reflexivity.
Qed.

Lemma title_from_cons (previous_is_cased : bool) (c : ascii) (s : string) :
  Text.title_from previous_is_cased (String c s) =
    String (if Text.islower c || Text.isupper c
            then (if previous_is_cased then Text.lower c else Text.upper c)
            else c)
           (Text.title_from (Text.islower c || Text.isupper c) s).
Proof. simpl. by destruct (Text.islower c || Text.isupper c). Qed.

Lemma title_same_letters f g a b :
  Text.title_from f a = Text.title_from g b -> same_letters a b = true.
Proof.
  revert f g b; induction a as [|c a IH]; intros f g [|d b]; try done.
  { rewrite title_from_cons. discriminate. }
  { rewrite title_from_cons. discriminate. }
  rewrite !title_from_cons. intros H. injection H as Hhead Htail.
  apply (f_equal Text.lower) in Hhead. rewrite !lower_title_char in Hhead.
  simpl. rewrite Hhead, Ascii.eqb_refl. simpl. by eapply IH.
Qed.

Lemma same_letters_strip a b :
  same_letters a b = true ->
  same_letters (Text.strip a) (Text.strip b) = true.
Proof. intros H. by apply same_letters_rstrip, same_letters_lstrip. Qed.

(** X8.  Line 30 makes the match of the column labels blind to letter
    case and to surrounding blanks, and to nothing else: two labels get
    the same normal form exactly when, once stripped, they have the same
    characters up to letter case.  So a required label typed in any
    letter case between any blanks is accepted, and one with a character
    added, dropped or changed inside is not. *)
Theorem labels_match_up_to_blanks_and_case a b :
  (normalize a = normalize b <->
   same_letters (Text.strip a) (Text.strip b) = true) /\
  (forall pad pad',
      blank pad = true -> blank pad' = true -> same_letters a b = true ->
      normalize (pad +:+ a +:+ pad') = normalize b).
Proof.
  split.
  - unfold normalize, Text.title. split.
    + apply title_same_letters.
    + apply same_letters_title.
  - intros pad pad' Hpad Hpad' Hab. unfold normalize.
    rewrite (strip_blanks pad a pad' Hpad Hpad').
    by apply same_letters_title, same_letters_strip.
Qed.

Lemma labels_match_up_to_blanks_and_case_witness :
  normalize "  tASK name " = "Task Name" /\
  normalize "Task  Name" <> normalize "Task Name".
Proof.
  split.
  - apply (proj2 (labels_match_up_to_blanks_and_case "tASK name" "Task Name")
             "  " " "); reflexivity.
  - intros H.
    apply (proj1 (proj1 (labels_match_up_to_blanks_and_case
                           "Task  Name" "Task Name"))) in H.
    discriminate H.
Defined.

(** * Further properties: the dashboard *)

(** ** Computations that send nothing *)

Lemma silent_ret {A} (a : A) : silent (ret a).
Proof. intros s. by do 2 eexists. Qed.

Lemma silent_raise {A} e : silent (@raise A e).
Proof. intros s. by do 2 eexists. Qed.

Lemma silent_or_raise {A} e (o : option A) : silent (or_raise e o).
Proof. destruct o; [apply silent_ret | apply silent_raise]. Qed.

Lemma silent_bind {A B} (m : M A) (k : A -> M B) :
  silent m -> (forall a, silent (k a)) -> silent (bind m k).
Proof.
  intros Hm Hk s. unfold bind.
  destruct (Hm s) as (o & es & -> & Hes).
  destruct o as [a| | |e]; try (by do 2 eexists).
  destruct (Hk a s) as (o' & es' & -> & Hes').
  do 2 eexists. split; [reflexivity|].
  by rewrite requests_app, Hes, Hes'.
Qed.

Lemma silent_getitem df col : silent (getitem df col).
Proof.
  apply silent_bind; [apply silent_or_raise|]. intros j. apply silent_ret.
Qed.

Lemma silent_setitem df col series : silent (setitem df col series).
Proof.
  apply silent_bind; [apply silent_or_raise|]. intros j. apply silent_ret.
Qed.

Lemma silent_select_columns df cols : silent (select_columns df cols).
Proof.
  apply silent_bind; [apply silent_or_raise|]. intros js. apply silent_ret.
Qed.

Lemma requests_shown_app ws1 ws2 :
  requests_shown (ws1 ++ ws2) = requests_shown ws1 ++ requests_shown ws2.
Proof. apply omap_app. Qed.

Lemma requests_shown_map es : requests_shown (map Shown es) = requests es.
Proof.
  induction es as [|e es IH]; [done|]. simpl.
  destruct e; simpl; by rewrite ?IH.
Qed.

Lemma quiet_dret {A} (a : A) : quiet (dret a).
Proof. intros s. by do 2 eexists. Qed.

Lemma quiet_raise_ValueError {A} : quiet (@raise_ValueError A).
Proof. intros s. by do 2 eexists. Qed.

Lemma quiet_display w :
  (forall c, w <> Shown (Remote c)) -> quiet (display w).
Proof.
  intros Hw s. do 2 eexists. split; [reflexivity|].
  destruct w as [[]| | | | | |]; try done. by destruct (Hw c).
Qed.

Lemma quiet_lift {A} (m : M A) : silent m -> quiet (lift m).
Proof.
  intros Hm s. unfold lift. destruct (Hm s) as (o & es & -> & Hes).
  do 2 eexists. split; [reflexivity|]. by rewrite requests_shown_map.
Qed.

Lemma quiet_dbind {A B} (m : D A) (k : A -> D B) :
  quiet m -> (forall a, quiet (k a)) -> quiet (dbind m k).
Proof.
  intros Hm Hk s. unfold dbind.
  destruct (Hm s) as (o & ws & -> & Hws).
  destruct o as [[a| | |e]|]; try (by do 2 eexists).
  destruct (Hk a s) as (o' & ws' & -> & Hws').
  do 2 eexists. split; [reflexivity|].
  by rewrite requests_shown_app, Hws, Hws'.
Qed.

Lemma quiet_px c : quiet (px c).
Proof.
  unfold px. destruct (forallb _ _);
    [apply quiet_dret | apply quiet_raise_ValueError].
Qed.

Ltac quiet_step :=
  first
    [ apply quiet_dbind; [|intros ?]
    | apply quiet_dret
    | apply quiet_px
    | apply quiet_display; discriminate
    | apply quiet_lift;
      first [ apply silent_getitem | apply silent_setitem
            | apply silent_select_columns ] ].

(** Lines 122-144 send nothing. *)
Lemma quiet_summary to_datetime dt_date df now :
  quiet (summary to_datetime dt_date df now).
Proof.
  unfold summary.
  destruct (empty df); [apply quiet_display; discriminate|].
  destruct (negb _).
  { apply quiet_lift. intros s. by do 2 eexists. }
  unfold metrics, schedule, charts, overdue_tasks.
  do 60 (try quiet_step).
  destruct (negb _); repeat quiet_step.
Qed.

(** ** The dashboard after the read *)

Lemma dashboard_run to_datetime dt_date now s :
  dashboard to_datetime dt_date now s =
    if next_served s
    then
      match body (sheet s) with
      | [] => (Went (Raise AttributeError), served s, dashboard_events)
      | _ :: _ =>
          let '(o, s', ws) :=
            summary to_datetime dt_date (raw_frame (sheet s)) now (served s) in
          (o, s', dashboard_events ++ ws)
      end
    else (Went (Raise APIError), served s, dashboard_events).
Proof.
  unfold dashboard. unfold dbind at 1. unfold lift at 1, emit at 1.
  unfold dbind at 1. unfold lift at 1. rewrite get_all_records_run.
  unfold next_served. destruct (faults s) as [|[] ?]; try reflexivity.
  all: cbv beta iota zeta.
  all: unfold dbind at 1; unfold lift at 1; unfold records_of at 1.
  all: destruct (body (sheet s)) as [|r0 rs]; [reflexivity|].
  all: cbn [map]; unfold ret at 1; cbv beta iota zeta.
  all: change {| columns := map normalize (columns (DataFrame_of (records_of (sheet s))));
                 data := data (DataFrame_of (records_of (sheet s))) |}
         with (raw_frame (sheet s)).
  all: by destruct (summary _ _ _ _ _) as [[o s'] ws].
Qed.

Lemma dashboard_records to_datetime dt_date now s :
  fails s 0 = false -> body (sheet s) <> [] ->
  dashboard to_datetime dt_date now s =
    let '(o, s', ws) :=
      summary to_datetime dt_date (raw_frame (sheet s)) now (served s) in
    (o, s', dashboard_events ++ ws).
Proof.
  intros Hserved Hne. rewrite dashboard_run, next_served_fails, Hserved.
  by destruct (body (sheet s)).
Qed.

Lemma app_Dashboard to_datetime dt_date inp now s :
  app to_datetime dt_date Dashboard inp now s =
    let '(o, s', ws) := dashboard to_datetime dt_date now s in
    (o, s', Title "🧵 Seamstress Production Planner" :: ws).
Proof. reflexivity. Qed.

(** X9.  The dashboard only reads.  Whatever the sheet, the clock and the
    faults, and however the page ends, choosing the dashboard sends one
    request, the read, and leaves the worksheet as it was. *)
Theorem dashboard_only_reads to_datetime dt_date inp now s :
  let run := app to_datetime dt_date Dashboard inp now s in
  sheet run.1.2 = sheet s /\
  requests_shown run.2 = [GetAllRecords].
Proof.
  cbv zeta. rewrite app_Dashboard, dashboard_run.
  destruct (next_served s); [|split; reflexivity].
  destruct (body (sheet s)); [split; reflexivity|].
  destruct (quiet_summary to_datetime dt_date (raw_frame (sheet s)) now (served s))
    as (o & ws & -> & Hws).
  cbn [fst snd]. split; [done|].
  change (requests_shown (dashboard_events ++ ws) = [GetAllRecords]).
  by rewrite requests_shown_app, Hws.
Qed.

(** ** Stepping through the dashboard *)

Lemma dbind_display {B} w (k : unit -> D B) s :
  dbind (display w) k s = let '(o, s', ws) := k tt s in (o, s', w :: ws).
Proof. unfold dbind, display. by destruct (k tt s) as [[o s'] ws]. Qed.

Lemma dbind_getitem {B} df col j (k : list value -> D B) s :
  get_loc col (columns df) = Some j ->
  dbind (lift (getitem df col)) k s = k (series df col) s.
Proof.
  intros Hj. unfold dbind, lift. rewrite (getitem_series _ _ _ _ Hj). simpl.
  by destruct (k _ s) as [[o s'] ws].
Qed.

Lemma dbind_getitem_KeyError {B} df col (k : list value -> D B) s :
  get_loc col (columns df) = None ->
  dbind (lift (getitem df col)) k s = (Went (Raise KeyError), s, []).
Proof.
  intros Hj. unfold dbind, lift. by rewrite (getitem_KeyError _ _ _ Hj).
Qed.

Lemma dbind_setitem {B} to_datetime df col j (k : DataFrame -> D B) s :
  get_loc col (columns df) = Some j ->
  dbind (lift (setitem df col (to_datetime (series df col)))) k s
  = k (converted to_datetime df j) s.
Proof.
  intros Hj. unfold dbind, lift, setitem, bind, or_raise, ret.
  rewrite Hj. simpl.
  replace {| columns := columns df; data := _ |}
    with (converted to_datetime df j).
  - by destruct (k _ s) as [[o s'] ws].
  - unfold converted, series, at_col. by rewrite Hj.
Qed.

Lemma metrics_run df j s :
  get_loc "Status" (columns df) = Some j ->
  metrics df s = (Went (Return tt), s, summary_widgets df).
Proof.
  intros Hj. unfold metrics.
  rewrite !dbind_display, (dbind_getitem _ _ j) by done.
  rewrite !dbind_display, (dbind_getitem _ _ j) by done.
  rewrite !dbind_display, (dbind_getitem _ _ j) by done.
  reflexivity.
Qed.

Lemma summary_run to_datetime dt_date df now j s :
  empty df = false ->
  get_loc "Status" (columns df) = Some j ->
  summary to_datetime dt_date df now s =
    let '(o, s', ws) := schedule to_datetime dt_date df now s in
    (o, s', summary_widgets df ++ ws).
Proof.
  intros Hne Hj. unfold summary. rewrite Hne.
  assert (has_column (columns df) "Status" = true) as ->.
  { apply has_column_In. apply get_loc_Some in Hj.
    apply list_elem_of_In, list_elem_of_lookup. eauto. }
  simpl. unfold dbind at 1. by rewrite (metrics_run _ j).
Qed.

(** ** The frame of line 120 and the sheet *)

Lemma raw_frame_data ws :
  table_ok ws = true ->
  data (raw_frame ws) = imap (fun i r => (i, r)) (body ws).
Proof. apply records_of_rows. Qed.

Lemma raw_frame_rows ws : table_ok ws = true -> rows (raw_frame ws) = body ws.
Proof.
  intros Hok. unfold rows. rewrite (raw_frame_data _ Hok).
  apply list_eq. intros i. rewrite list_lookup_fmap, list_lookup_imap.
  by destruct (body ws !! i).
Qed.

Lemma raw_frame_series ws col :
  table_ok ws = true -> body ws <> [] ->
  series (raw_frame ws) col = sheet_column ws col.
Proof.
  intros Hok Hne. unfold series, at_col, sheet_column.
  rewrite (raw_frame_rows _ Hok), (raw_frame_columns _ Hok Hne).
  apply map_ext. intros r. by destruct (get_loc _ _).
Qed.

Lemma raw_frame_not_empty ws col :
  table_ok ws = true -> body ws <> [] ->
  In col (map normalize (header ws)) -> empty (raw_frame ws) = false.
Proof.
  intros Hok Hne Hcol. unfold empty.
  rewrite (raw_frame_columns _ Hok Hne), (raw_frame_data _ Hok), length_imap.
  destruct (body ws); [done|]. by destruct (map normalize (header ws)).
Qed.

(** X10.  The dashboard on sheets it cannot summarize.  On a sheet
    without any record it ends at line 120 with an uncaught
    [AttributeError], before the test of [df.empty]: the labels of a
    frame built from no record are a [RangeIndex], which has no [.str];
    "No tasks found." is not shown.  On a sheet with records whose
    labels do not include "Status" it shows the error on the missing
    column and nothing else, and the run ends normally: no summary, no
    chart, no exception. *)
Theorem dashboard_guards to_datetime dt_date now s :
  fails s 0 = false ->
  (table_ok (sheet s) = true -> body (sheet s) = [] ->
   dashboard to_datetime dt_date now s =
     (Went (Raise AttributeError), served s, dashboard_events)) /\
  (table_ok (sheet s) = true -> body (sheet s) <> [] ->
   header (sheet s) <> [] ->
   ~ In "Status" (map normalize (header (sheet s))) ->
   dashboard to_datetime dt_date now s =
     (Went (Return tt), served s,
      dashboard_events
      ++ [Shown (Error "❌ 'Status' column missing in the data.")])).
Proof.
  intros Hserved. split.
  - intros _ Hnil. by rewrite dashboard_run, next_served_fails, Hserved, Hnil.
  - intros Hok Hne Hhdr Hno.
    rewrite (dashboard_records _ _ _ _ Hserved Hne). unfold summary.
    assert (empty (raw_frame (sheet s)) = false) as ->.
    { unfold empty.
      rewrite (raw_frame_columns _ Hok Hne), (raw_frame_data _ Hok), length_imap.
      destruct (body (sheet s)); [done|]. by destruct (header (sheet s)). }
    assert (has_column (columns (raw_frame (sheet s))) "Status" = false) as ->.
    { rewrite (raw_frame_columns _ Hok Hne).
      destruct (has_column _ _) eqn:Hc; [|done]. by apply has_column_In in Hc. }
    reflexivity.
Qed.

Lemma dashboard_guards_witness :
  dashboard Schedule.reads_dates Schedule.same_day Schedule.now
    (Store {| header := required_columns; body := [] |} [])
  = (Went (Raise AttributeError),
     Store {| header := required_columns; body := [] |} [],
     dashboard_events) /\
  dashboard Schedule.reads_dates Schedule.same_day Schedule.now
    (Store {| header := ["Task Name"; "Seamstress"];
              body := [[VStr "Alice"; VStr "Ana"]] |} [])
  = (Went (Return tt),
     Store {| header := ["Task Name"; "Seamstress"];
              body := [[VStr "Alice"; VStr "Ana"]] |} [],
     dashboard_events
     ++ [Shown (Error "❌ 'Status' column missing in the data.")]).
Proof.
  split.
  - apply (dashboard_guards Schedule.reads_dates Schedule.same_day Schedule.now
             (Store {| header := required_columns; body := [] |} []));
      reflexivity.
  - apply (proj2 (dashboard_guards Schedule.reads_dates Schedule.same_day
                    Schedule.now
                    (Store {| header := ["Task Name"; "Seamstress"];
                              body := [[VStr "Alice"; VStr "Ana"]] |} [])
                    eq_refl)).
    + reflexivity.
    + discriminate.
    + discriminate.
    + vm_compute. intros [H|[H|H]]; try discriminate H. exact H.
Defined.

(** ** The summary counts *)

Lemma py_eq_text_iff v t : py_eq v (VStr t) = true <-> v = VStr t.
Proof.
  split; [|intros ->; apply py_eq_text].
  destruct v; simpl; try done. intros H. apply String.eqb_eq in H. by subst.
Qed.

Lemma count_eq_cons v l x :
  count_eq (v :: l) x = (if py_eq v x then 1 else 0) + count_eq l x.
Proof. unfold count_eq. simpl. by destruct (py_eq v x). Qed.

Lemma counts_le statuses :
  count_eq statuses (VStr "Done") + count_eq statuses (VStr "Working")
  + count_eq statuses (VStr "Stuck") <= length statuses.
Proof.
  induction statuses as [|v l IH]; [done|].
  rewrite !count_eq_cons. simpl.
  destruct (py_eq v (VStr "Done")) eqn:H1;
    destruct (py_eq v (VStr "Working")) eqn:H2;
    destruct (py_eq v (VStr "Stuck")) eqn:H3;
    try apply py_eq_text_iff in H1; try apply py_eq_text_iff in H2;
    try apply py_eq_text_iff in H3; subst; try discriminate; lia.
Qed.

Lemma counts_all statuses :
  count_eq statuses (VStr "Done") + count_eq statuses (VStr "Working")
  + count_eq statuses (VStr "Stuck") = length statuses <->
  (forall v, In v statuses -> counted v).
Proof.
  induction statuses as [|v l IH]; [by split|].
  rewrite !count_eq_cons. simpl. pose proof (counts_le l) as Hle.
  destruct (py_eq v (VStr "Done")) eqn:H1;
    destruct (py_eq v (VStr "Working")) eqn:H2;
    destruct (py_eq v (VStr "Stuck")) eqn:H3;
    try apply py_eq_text_iff in H1; try apply py_eq_text_iff in H2;
    try apply py_eq_text_iff in H3; subst; try discriminate.
  - split.
    + intros H w [<-|Hw]; [by left|]. apply IH; [lia | done].
    + intros H. assert (forall w, In w l -> counted w) as Hl by auto.
      apply IH in Hl. lia.
  - split.
    + intros H w [<-|Hw]; [right; by left|]. apply IH; [lia | done].
    + intros H. assert (forall w, In w l -> counted w) as Hl by auto.
      apply IH in Hl. lia.
  - split.
    + intros H w [<-|Hw]; [right; by right|]. apply IH; [lia | done].
    + intros H. assert (forall w, In w l -> counted w) as Hl by auto.
      apply IH in Hl. lia.
  - split; [lia|]. intros H. exfalso.
    destruct (H v (or_introl eq_refl)) as [-> | [-> | ->]]; simpl in *; done.
Qed.

(** X11.  On a sheet with records and a "Status" column the dashboard
    shows the summary first: the number of records, then how many have
    the status Done, Working and Stuck.  The three counts never exceed
    the total, and they add up to it exactly when every record has one
    of these three statuses; a record with another status is in the
    total and in no count. *)
Theorem summary_counts to_datetime dt_date now s :
  table_ok (sheet s) = true ->
  fails s 0 = false ->
  body (sheet s) <> [] ->
  In "Status" (map normalize (header (sheet s))) ->
  let statuses := sheet_column (sheet s) "Status" in
  let done := count_eq statuses (VStr "Done") in
  let working := count_eq statuses (VStr "Working") in
  let stuck := count_eq statuses (VStr "Stuck") in
  (exists o rest,
      dashboard to_datetime dt_date now s =
        (o, served s,
         dashboard_events
         ++ [Written "### Summary";
             Metric "Total Tasks" (length (body (sheet s)));
             Metric "✅ Done" done; Metric "🟡 Working" working;
             Metric "🔴 Stuck" stuck]
         ++ rest)) /\
  done + working + stuck <= length (body (sheet s)) /\
  (done + working + stuck = length (body (sheet s)) <->
   forall v, In v statuses -> counted v).
Proof.
  intros Hok Hserved Hne Hstatus statuses done working stuck.
  assert (length statuses = length (body (sheet s))) as Hlen.
  { unfold statuses, sheet_column. apply length_map. }
  split; [|split].
  - rewrite (dashboard_records _ _ _ _ Hserved Hne).
    destruct (In_get_loc "Status" (columns (raw_frame (sheet s)))) as [j Hj].
    { by rewrite (raw_frame_columns _ Hok Hne). }
    rewrite (summary_run _ _ _ _ j); [|by eapply raw_frame_not_empty|done].
    destruct (schedule _ _ _ _ _) as [[o s'] ws] eqn:Hsched.
    destruct (quiet_summary to_datetime dt_date (raw_frame (sheet s)) now
                (served s)) as (o' & ws' & Hsum & _).
    rewrite (summary_run _ _ _ _ j) in Hsum;
      [|by eapply raw_frame_not_empty|done].
    rewrite Hsched in Hsum. injection Hsum as Ho Hs' Hw. subst s'.
    exists o, ws. unfold summary_widgets.
    rewrite (raw_frame_series _ _ Hok Hne), (raw_frame_data _ Hok), length_imap.
    reflexivity.
  - rewrite <- Hlen. apply counts_le.
  - rewrite <- Hlen. apply counts_all.
Qed.

Lemma summary_counts_witness :
  exists o rest,
    dashboard Schedule.reads_dates Schedule.same_day Schedule.now
      (Store Schedule.tasks [])
    = (o, Store Schedule.tasks [],
       dashboard_events
       ++ [Written "### Summary"; Metric "Total Tasks" 3; Metric "✅ Done" 1;
           Metric "🟡 Working" 1; Metric "🔴 Stuck" 0]
       ++ rest).
Proof.
  destruct (summary_counts Schedule.reads_dates Schedule.same_day Schedule.now
              (Store Schedule.tasks [])) as (Hrun & _).
  - vm_compute. reflexivity.
  - reflexivity.
  - discriminate.
  - vm_compute. tauto.
  - exact Hrun.
Defined.

(** ** Columns the dashboard does not check *)

Lemma not_In_get_loc col cols : ~ In col cols -> get_loc col cols = None.
Proof.
  intros Hno. destruct (get_loc col cols) as [j|] eqn:Hj; [|done].
  destruct Hno. apply get_loc_Some in Hj.
  apply list_elem_of_In, list_elem_of_lookup. eauto.
Qed.

Lemma schedule_no_timeline to_datetime dt_date df now s :
  get_loc "Timeline" (columns df) = None ->
  schedule to_datetime dt_date df now s = (Went (Raise KeyError), s, []).
Proof. intros Hj. unfold schedule. by rewrite dbind_getitem_KeyError. Qed.

Lemma schedule_run to_datetime dt_date df now j s :
  get_loc "Timeline" (columns df) = Some j ->
  schedule to_datetime dt_date df now s =
    (charts (dated_frame to_datetime dt_date df j) ;;+
     overdue_tasks (dated_frame to_datetime dt_date df j) now) s.
Proof.
  intros Hj. unfold schedule.
  rewrite (dbind_getitem _ _ j) by done.
  rewrite (dbind_setitem _ _ _ j) by done.
  by rewrite (dbind_getitem (converted to_datetime df j) _ j).
Qed.

(** X12.  The dashboard checks no column but "Status".  On a sheet with
    records and a "Status" column but no "Timeline" column it shows the
    summary and then ends with an uncaught [KeyError] at line 134: no
    chart, no list of overdue tasks, and no message about the missing
    column such as the task table page gives. *)
Theorem dashboard_without_timeline_raises_KeyError to_datetime dt_date now s :
  table_ok (sheet s) = true ->
  fails s 0 = false ->
  body (sheet s) <> [] ->
  In "Status" (map normalize (header (sheet s))) ->
  ~ In "Timeline" (map normalize (header (sheet s))) ->
  dashboard to_datetime dt_date now s =
    (Went (Raise KeyError), served s,
     dashboard_events
     ++ [Written "### Summary";
         Metric "Total Tasks" (length (body (sheet s)));
         Metric "✅ Done" (count_eq (sheet_column (sheet s) "Status") (VStr "Done"));
         Metric "🟡 Working"
                (count_eq (sheet_column (sheet s) "Status") (VStr "Working"));
         Metric "🔴 Stuck"
                (count_eq (sheet_column (sheet s) "Status") (VStr "Stuck"))]).
Proof.
  intros Hok Hserved Hne Hstatus Hno.
  rewrite (dashboard_records _ _ _ _ Hserved Hne).
  destruct (In_get_loc "Status" (columns (raw_frame (sheet s)))) as [j Hj].
  { by rewrite (raw_frame_columns _ Hok Hne). }
  rewrite (summary_run _ _ _ _ j); [|by eapply raw_frame_not_empty|done].
  rewrite schedule_no_timeline.
  2:{ apply not_In_get_loc. by rewrite (raw_frame_columns _ Hok Hne). }
  unfold summary_widgets.
  rewrite (raw_frame_series _ _ Hok Hne), (raw_frame_data _ Hok), length_imap.
  by rewrite app_nil_r.
Qed.

Lemma dashboard_without_timeline_raises_KeyError_witness :
  (dashboard Schedule.reads_dates Schedule.same_day Schedule.now
     (Store Schedule.undated [])).1.1 = Went (Raise KeyError).
Proof.
  rewrite (dashboard_without_timeline_raises_KeyError Schedule.reads_dates
             Schedule.same_day Schedule.now (Store Schedule.undated [])).
  - reflexivity.
  - vm_compute. reflexivity.
  - reflexivity.
  - discriminate.
  - vm_compute. tauto.
  - vm_compute. intros [H|[H|[H|H]]]; try discriminate H. exact H.
Defined.

(** ** Frames with a column replaced or added *)

Lemma get_loc_lt col cols j : get_loc col cols = Some j -> j < length cols.
Proof. intros Hj%get_loc_Some. by apply lookup_lt_Some in Hj. Qed.

Lemma get_loc_snoc_ne col cols c :
  col <> c -> get_loc col (cols ++ [c]) = get_loc col cols.
Proof.
  intros Hne. induction cols as [|d cols IH]; simpl.
  - destruct (String.eqb_spec c col); [by subst|done].
  - destruct (String.eqb d col); [done|]. by rewrite IH.
Qed.

Lemma get_loc_assign_other df c x col :
  col <> c -> get_loc col (columns (assign df c x)) = get_loc col (columns df).
Proof.
  intros Hne. unfold assign.
  destruct (get_loc c (columns df)); simpl; [done|]. by apply get_loc_snoc_ne.
Qed.

Lemma get_loc_assign df c x : exists j, get_loc c (columns (assign df c x)) = Some j.
Proof.
  unfold assign. destruct (get_loc c (columns df)) as [j|] eqn:Hj; simpl.
  - eauto.
  - apply In_get_loc, in_or_app. right. by left.
Qed.

Lemma index_assign df c x : index (assign df c x) = index df.
Proof.
  unfold assign, index. destruct (get_loc c (columns df)); simpl.
  all: apply list_eq; intros i.
  all: rewrite !list_lookup_fmap, list_lookup_imap.
  all: by destruct (data df !! i).
Qed.

Lemma index_converted_frame to_datetime df j :
  index (converted to_datetime df j) = index df.
Proof.
  unfold converted, index. simpl. apply list_eq; intros i.
  rewrite !list_lookup_fmap, list_lookup_imap.
  by destruct (data df !! i).
Qed.

Lemma series_lookup df col i :
  series df col !! i = at_col df col <$> rows df !! i.
Proof. unfold series. apply (list_lookup_fmap (at_col df col)). Qed.

Lemma rows_lookup df i : rows df !! i = snd <$> data df !! i.
Proof. unfold rows. apply list_lookup_fmap. Qed.

Lemma rectangular_lookup df i r :
  rectangular df -> rows df !! i = Some r -> length r = length (columns df).
Proof.
  intros Hrect Hr. apply Hrect, list_elem_of_In, list_elem_of_lookup. eauto.
Qed.

Lemma series_assign_other df c x col :
  rectangular df -> col <> c ->
  series (assign df c x) col = series df col.
Proof.
  intros Hrect Hne. apply list_eq. intros i.
  rewrite !series_lookup, !rows_lookup. unfold at_col.
  rewrite (get_loc_assign_other df c x col Hne).
  unfold assign. destruct (get_loc c (columns df)) as [jc|] eqn:Hc; simpl.
  all: rewrite list_lookup_imap.
  all: destruct (data df !! i) as [[lbl r]|] eqn:Hi; simpl; [|done].
  all: destruct (get_loc col (columns df)) as [j|] eqn:Hj; [|done].
  - rewrite list_lookup_insert_ne; [done|].
    by eapply get_loc_distinct; [| exact Hc | exact Hj].
  - rewrite lookup_app_l; [done|].
    rewrite (rectangular_lookup df i r Hrect).
    + by eapply get_loc_lt.
    + by rewrite rows_lookup, Hi.
Qed.

Lemma series_converted_other to_datetime df j col k :
  get_loc col (columns df) = Some k -> k <> j ->
  series (converted to_datetime df j) col = series df col.
Proof.
  intros Hk Hne. apply list_eq. intros i.
  rewrite !series_lookup, !rows_lookup. unfold at_col, converted. simpl.
  rewrite list_lookup_imap, Hk.
  destruct (data df !! i) as [[lbl r]|]; simpl; [|done].
  by rewrite list_lookup_insert_ne.
Qed.

Lemma series_converted to_datetime df col j :
  rectangular df -> get_loc col (columns df) = Some j ->
  series (converted to_datetime df j) col =
    imap (fun i _ => default VNaT (to_datetime (series df col) !! i)) (rows df).
Proof.
  intros Hrect Hj. apply list_eq. intros i.
  rewrite series_lookup, rows_lookup, list_lookup_imap. unfold at_col, converted.
  simpl. rewrite list_lookup_imap, Hj, rows_lookup.
  destruct (data df !! i) as [[lbl r]|] eqn:Hi; simpl; [|done].
  rewrite list_lookup_insert_eq.
  - simpl. unfold series, at_col. by rewrite Hj.
  - rewrite (rectangular_lookup df i r Hrect).
    + by eapply get_loc_lt.
    + by rewrite rows_lookup, Hi.
Qed.

Lemma rectangular_converted to_datetime df j :
  rectangular df -> rectangular (converted to_datetime df j).
Proof.
  intros Hrect r Hr. apply list_elem_of_In, list_elem_of_lookup in Hr as [i Hi].
  rewrite rows_lookup in Hi. unfold converted in Hi. simpl in Hi.
  rewrite list_lookup_imap in Hi.
  destruct (data df !! i) as [[lbl r0]|] eqn:Hd; simpl in Hi; [|done].
  injection Hi as <-. rewrite length_insert. simpl.
  apply (rectangular_lookup df i r0 Hrect). by rewrite rows_lookup, Hd.
Qed.

Lemma rectangular_raw_frame ws :
  table_ok ws = true -> body ws <> [] -> rectangular (raw_frame ws).
Proof.
  intros Hok Hne r Hr. rewrite (raw_frame_rows _ Hok) in Hr.
  rewrite (raw_frame_columns _ Hok Hne), length_map.
  by apply (proj2 (table_ok_inv _ Hok)).
Qed.

(** ** The charts *)

Lemma get_loc_has_column col cols j :
  get_loc col cols = Some j -> has_column cols col = true.
Proof.
  intros Hj%get_loc_Some. apply has_column_In.
  apply list_elem_of_In, list_elem_of_lookup. eauto.
Qed.

Lemma charts_run df s :
  has_column (columns df) "Status" = true ->
  has_column (columns df) "Due Date" = true ->
  has_column (columns df) "Seamstress" = true ->
  charts df s = (Went (Return tt), s, chart_widgets df).
Proof.
  intros HS HD HA. unfold charts, px, dbind, display, dret. simpl.
  by rewrite HS, HD, HA.
Qed.

Lemma charts_no_seamstress df s :
  has_column (columns df) "Status" = true ->
  has_column (columns df) "Due Date" = true ->
  has_column (columns df) "Seamstress" = false ->
  charts df s =
    (ValueError, s,
     [PlotlyChart (Pie df "Status" "Tasks by Status");
      PlotlyChart (Histogram df "Due Date" "Status" "Tasks by Due Date")]).
Proof.
  intros HS HD HA. unfold charts, px, dbind, display, dret, raise_ValueError.
  simpl. by rewrite HS, HD, HA.
Qed.

Lemma has_column_dated to_datetime dt_date df j col :
  col <> "Due Date" ->
  has_column (columns (dated_frame to_datetime dt_date df j)) col
  = has_column (columns df) col.
Proof.
  intros Hne. unfold dated_frame.
  destruct (has_column (columns df) col) eqn:Hc.
  - apply has_column_get_loc in Hc as [k Hk].
    apply (get_loc_has_column _ _ k). by rewrite get_loc_assign_other.
  - destruct (has_column (columns (assign _ _ _)) col) eqn:Hc'; [|done].
    apply has_column_get_loc in Hc' as [k Hk].
    rewrite get_loc_assign_other in Hk by done.
    apply get_loc_has_column in Hk. simpl in Hk. congruence.
Qed.

Lemma has_due_date to_datetime dt_date df j :
  has_column (columns (dated_frame to_datetime dt_date df j)) "Due Date" = true.
Proof.
  unfold dated_frame. destruct (get_loc_assign (converted to_datetime df j)
    "Due Date" (dt_date (series (converted to_datetime df j) "Timeline")))
    as [k Hk].
  by apply (get_loc_has_column _ _ k).
Qed.

Lemma length_data_dated to_datetime dt_date df j :
  length (data (dated_frame to_datetime dt_date df j)) = length (data df).
Proof.
  unfold dated_frame, assign.
  destruct (get_loc "Due Date" _); unfold converted; simpl;
    by rewrite !length_imap.
Qed.

(** X13.  The third chart names a column that the dashboard has not
    checked either.  On a sheet with records, a "Status" and a
    "Timeline" column but no "Seamstress" column, the dashboard shows
    the summary and the first two charts and then ends with the
    [ValueError] of the chart by seamstress; the overdue tasks are not
    looked at. *)
Theorem dashboard_without_seamstress_raises_ValueError
    to_datetime dt_date now s :
  table_ok (sheet s) = true ->
  fails s 0 = false ->
  body (sheet s) <> [] ->
  In "Status" (map normalize (header (sheet s))) ->
  In "Timeline" (map normalize (header (sheet s))) ->
  ~ In "Seamstress" (map normalize (header (sheet s))) ->
  exists df,
    dashboard to_datetime dt_date now s =
      (ValueError, served s,
       dashboard_events ++ summary_widgets (raw_frame (sheet s))
       ++ [PlotlyChart (Pie df "Status" "Tasks by Status");
           PlotlyChart (Histogram df "Due Date" "Status" "Tasks by Due Date")]) /\
    length (data df) = length (body (sheet s)).
Proof.
  intros Hok Hserved Hne Hstatus Htime Hno.
  pose proof (raw_frame_columns _ Hok Hne) as Hcols.
  destruct (In_get_loc "Status" (columns (raw_frame (sheet s)))) as [jS HS];
    [by rewrite Hcols|].
  destruct (In_get_loc "Timeline" (columns (raw_frame (sheet s)))) as [jT HT];
    [by rewrite Hcols|].
  exists (dated_frame to_datetime dt_date (raw_frame (sheet s)) jT). split.
  - rewrite (dashboard_records _ _ _ _ Hserved Hne).
    rewrite (summary_run _ _ _ _ jS); [|by eapply raw_frame_not_empty|done].
    rewrite (schedule_run _ _ _ _ jT) by done.
    unfold dbind at 1. rewrite charts_no_seamstress; [done|..].
    + rewrite has_column_dated by done. by apply (get_loc_has_column _ _ jS).
    + apply has_due_date.
    + rewrite has_column_dated by done.
      destruct (has_column _ "Seamstress") eqn:Hc; [|done].
      apply has_column_In in Hc. by rewrite Hcols in Hc.
  - by rewrite length_data_dated, (raw_frame_data _ Hok), length_imap.
Qed.

Lemma dashboard_without_seamstress_raises_ValueError_witness :
  (dashboard Schedule.reads_dates Schedule.same_day Schedule.now
     (Store {| header := ["Task Name"; "Status"; "Timeline"];
               body := [[VStr "Alice"; VStr "Working"; VStr "2024-02-10"]] |}
            [])).1.1 = ValueError.
Proof.
  edestruct (dashboard_without_seamstress_raises_ValueError
               Schedule.reads_dates Schedule.same_day Schedule.now
               (Store {| header := ["Task Name"; "Status"; "Timeline"];
                         body := [[VStr "Alice"; VStr "Working";
                                   VStr "2024-02-10"]] |} []))
    as (df & Hrun & _).
  - vm_compute. reflexivity.
  - reflexivity.
  - discriminate.
  - vm_compute. tauto.
  - vm_compute. tauto.
  - vm_compute. intros [H|[H|[H|H]]]; try discriminate H. exact H.
  - rewrite Hrun. reflexivity.
Defined.

(** ** The overdue tasks *)

Lemma compress_fmap {A B} (f : A -> B) mask (l : list A) :
  f <$> compress mask l = compress mask (f <$> l).
Proof.
  revert l; induction mask as [|b mask IH]; intros [|x l]; simpl; try done.
  destruct b; simpl; by rewrite IH.
Qed.

Lemma compress_nil_iff {A} mask (l : list A) :
  length mask = length l ->
  (compress mask l = [] <-> existsb id mask = false).
Proof.
  revert l; induction mask as [|b mask IH]; intros [|x l] Hlen; simpl in *;
    try done.
  destruct b; simpl; [done|]. apply IH. lia.
Qed.

Lemma In_compress_seq mask k i :
  In i (compress mask (seq k (length mask))) <->
  k <= i /\ mask !! (i - k) = Some true.
Proof.
  revert k; induction mask as [|b mask IH]; intros k; simpl.
  - split; [done|]. by intros [_ H].
  - destruct b; simpl; rewrite ?IH.
    + split.
      * intros [<-|[Hk Hi]].
        { split; [lia|]. by rewrite Nat.sub_diag. }
        split; [lia|]. replace (i - k) with (S (i - S k)) by lia. done.
      * intros [Hk Hi]. destruct (decide (i = k)) as [->|Hne]; [by left|].
        right. split; [lia|].
        replace (i - k) with (S (i - S k)) in Hi by lia. done.
    + split.
      * intros [Hk Hi]. split; [lia|].
        replace (i - k) with (S (i - S k)) by lia. done.
      * intros [Hk Hi]. destruct (decide (i = k)) as [->|Hne].
        { by rewrite Nat.sub_diag in Hi. }
        split; [lia|].
        replace (i - k) with (S (i - S k)) in Hi by lia. done.
Qed.

Lemma index_boolean_index df mask :
  index (boolean_index df mask) = compress mask (index df).
Proof. unfold index, boolean_index. simpl. apply compress_fmap. Qed.

Lemma series_boolean_index df mask col :
  series (boolean_index df mask) col = compress mask (series df col).
Proof.
  unfold series, rows, boolean_index, at_col. simpl.
  change map with (@fmap list _). by rewrite <- !compress_fmap.
Qed.

Lemma select_four_columns df s j1 j2 j3 j4 :
  get_loc "Task Name" (columns df) = Some j1 ->
  get_loc "Seamstress" (columns df) = Some j2 ->
  get_loc "Timeline" (columns df) = Some j3 ->
  get_loc "Status" (columns df) = Some j4 ->
  select_columns df ["Task Name"; "Seamstress"; "Timeline"; "Status"] s =
    (Return {| columns := ["Task Name"; "Seamstress"; "Timeline"; "Status"];
               data := map (fun r => (r.1, [at_col df "Task Name" r.2;
                                            at_col df "Seamstress" r.2;
                                            at_col df "Timeline" r.2;
                                            at_col df "Status" r.2]))
                           (data df) |}, s, []).
Proof.
  intros H1 H2 H3 H4. unfold select_columns, bind, or_raise, ret, at_col.
  simpl. by rewrite H1, H2, H3, H4.
Qed.

Lemma overdue_tasks_run df now s j1 j2 j3 j4 :
  get_loc "Task Name" (columns df) = Some j1 ->
  get_loc "Seamstress" (columns df) = Some j2 ->
  get_loc "Timeline" (columns df) = Some j3 ->
  get_loc "Status" (columns df) = Some j4 ->
  let mask := map (before now) (series df "Timeline") in
  overdue_tasks df now s =
    (Went (Return tt), s,
     if existsb id mask
     then [Written "### ⏰ Overdue Tasks"; Dataframe (overdue_listing df mask)]
     else []).
Proof.
  intros H1 H2 H3 H4 mask. unfold overdue_tasks.
  rewrite (dbind_getitem _ _ j3) by done. fold mask.
  assert (empty (boolean_index df mask) = negb (existsb id mask)) as ->.
  { unfold empty, boolean_index. simpl.
    assert ((length (columns df) =? 0) = false) as ->.
    { apply get_loc_lt in H1. apply Nat.eqb_neq. lia. }
    rewrite orb_false_r.
    assert (length mask = length (data df)) as Hlen.
    { unfold mask, series, rows. by rewrite !length_map. }
    pose proof (compress_nil_iff mask (data df) Hlen) as Hnil.
    destruct (existsb id mask); simpl.
    - destruct (compress mask (data df)); [|done].
      by destruct (proj1 Hnil eq_refl).
    - by rewrite (proj2 Hnil eq_refl). }
  rewrite negb_involutive. destruct (existsb id mask); [|done].
  rewrite dbind_display. unfold dbind, lift.
  rewrite (select_four_columns (boolean_index df mask) s j1 j2 j3 j4) by done.
  reflexivity.
Qed.

Lemma series_overdue_listing df mask col :
  In col ["Task Name"; "Seamstress"; "Timeline"; "Status"] ->
  series (overdue_listing df mask) col = compress mask (series df col).
Proof.
  intros Hcol. unfold series at 1, rows, overdue_listing. simpl.
  unfold series, rows. change map with (@fmap list _).
  rewrite <- !compress_fmap, <- !list_fmap_compose.
  apply list_fmap_ext. intros i r _. simpl.
  destruct Hcol as [<-|[<-|[<-|[<-|[]]]]]; reflexivity.
Qed.

Lemma index_overdue_listing df mask :
  index (overdue_listing df mask) = compress mask (index df).
Proof.
  unfold index, overdue_listing. simpl. change map with (@fmap list _).
  rewrite <- compress_fmap, <- list_fmap_compose. done.
Qed.

(** X14.  On a sheet with records and the four columns the dashboard
    uses, the run ends normally after the summary and the three charts,
    and it lists as overdue exactly the records whose converted
    "Timeline" is a timestamp before now, in the order of the sheet and
    with the four columns of line 144.  A record whose due date does not
    convert ([NaT]) is never listed, and when no record is overdue
    neither the heading nor the table is shown. *)
Theorem overdue_tasks_are_those_due_before_now to_datetime dt_date now s :
  table_ok (sheet s) = true ->
  fails s 0 = false ->
  body (sheet s) <> [] ->
  (forall col, In col ["Task Name"; "Seamstress"; "Timeline"; "Status"] ->
               In col (map normalize (header (sheet s)))) ->
  let due := converted_column to_datetime (sheet s) "Timeline" in
  let mask := map (before now) due in
  exists df listed,
    dashboard to_datetime dt_date now s =
      (Went (Return tt), served s,
       dashboard_events ++ summary_widgets (raw_frame (sheet s))
       ++ chart_widgets df
       ++ (if existsb id mask
           then [Written "### ⏰ Overdue Tasks"; Dataframe listed]
           else [])) /\
    columns listed = ["Task Name"; "Seamstress"; "Timeline"; "Status"] /\
    index listed = compress mask (seq 0 (length (body (sheet s)))) /\
    series listed "Task Name" = compress mask (sheet_column (sheet s) "Task Name") /\
    series listed "Seamstress" = compress mask (sheet_column (sheet s) "Seamstress") /\
    series listed "Status" = compress mask (sheet_column (sheet s) "Status") /\
    series listed "Timeline" = compress mask due /\
    (forall i, In i (index listed) <->
               exists t, due !! i = Some (VTimestamp t) /\ (t < now)%Z).
Proof.
  intros Hok Hserved Hne Hcols due mask.
  pose proof (raw_frame_columns _ Hok Hne) as Hraw.
  assert (forall col, In col ["Task Name"; "Seamstress"; "Timeline"; "Status"] ->
            exists j, get_loc col (columns (raw_frame (sheet s))) = Some j) as Hloc.
  { intros col Hcol. apply In_get_loc. rewrite Hraw. by apply Hcols. }
  destruct (Hloc "Task Name") as [j1 H1]; [by left|].
  destruct (Hloc "Seamstress") as [j2 H2]; [right; by left|].
  destruct (Hloc "Timeline") as [j3 H3]; [do 2 right; by left|].
  destruct (Hloc "Status") as [j4 H4]; [do 3 right; by left|].
  set (raw := raw_frame (sheet s)) in *.
  set (df := dated_frame to_datetime dt_date raw j3).
  pose proof (rectangular_raw_frame _ Hok Hne) as Hrect. fold raw in Hrect.
  pose proof (rectangular_converted to_datetime raw j3 Hrect) as Hrect'.
  assert (forall col k, col <> "Due Date" ->
            get_loc col (columns raw) = Some k ->
            get_loc col (columns df) = Some k) as Hdf.
  { intros col k Hcol Hk. unfold df, dated_frame.
    by rewrite get_loc_assign_other. }
  assert (forall col k, col <> "Timeline" -> col <> "Due Date" ->
            get_loc col (columns raw) = Some k ->
            series df col = sheet_column (sheet s) col) as Hother.
  { intros col k Hc1 Hc2 Hk. unfold df, dated_frame.
    rewrite series_assign_other by done.
    rewrite (series_converted_other _ _ _ _ k) by
      (try done; by eapply get_loc_distinct; [| exact Hk | exact H3]).
    by apply raw_frame_series. }
  assert (series df "Timeline" = due) as Hdue.
  { unfold df, dated_frame. rewrite series_assign_other by done.
    rewrite (series_converted _ _ _ j3) by done.
    unfold due, converted_column, raw.
    rewrite (raw_frame_series _ _ Hok Hne), (raw_frame_rows _ Hok). done. }
  assert (index df = seq 0 (length (body (sheet s)))) as Hidx.
  { unfold df, dated_frame. rewrite index_assign, index_converted_frame.
    unfold index, raw. rewrite (raw_frame_data _ Hok).
    apply list_eq. intros i. rewrite list_lookup_fmap, list_lookup_imap.
    destruct (body (sheet s) !! i) as [r|] eqn:Hr; simpl.
    - symmetry. apply lookup_seq. split; [done|]. by apply lookup_lt_Some in Hr.
    - symmetry. apply lookup_seq_ge. by apply lookup_ge_None. }
  exists df, (overdue_listing df mask).
  split; [|split; [done|split; [|split; [|split; [|split; [|split]]]]]].
  - rewrite (dashboard_records _ _ _ _ Hserved Hne). fold raw.
    rewrite (summary_run _ _ _ _ j4);
      [|by eapply raw_frame_not_empty; [| |apply Hcols; left]|done].
    rewrite (schedule_run _ _ _ _ j3) by done. fold df.
    unfold dbind at 1. rewrite charts_run.
    + rewrite (overdue_tasks_run df now (served s) j1 j2 j3 j4);
        [|by apply Hdf..].
      rewrite Hdue. fold mask. reflexivity.
    + unfold df. rewrite has_column_dated by done.
      by apply (get_loc_has_column _ _ j4).
    + apply has_due_date.
    + unfold df. rewrite has_column_dated by done.
      by apply (get_loc_has_column _ _ j2).
  - by rewrite index_overdue_listing, Hidx.
  - rewrite series_overdue_listing by (by left).
    by rewrite (Hother _ j1).
  - rewrite series_overdue_listing by (right; by left).
    by rewrite (Hother _ j2).
  - rewrite series_overdue_listing by (do 3 right; by left).
    by rewrite (Hother _ j4).
  - rewrite series_overdue_listing by (do 2 right; by left).
    by rewrite Hdue.
  - intros i. rewrite index_overdue_listing, Hidx.
    assert (length mask = length (body (sheet s))) as Hlen.
    { unfold mask, due, converted_column. by rewrite length_map, length_imap. }
    rewrite <- Hlen, In_compress_seq, Nat.sub_0_r.
    unfold mask. change map with (@fmap list _). rewrite list_lookup_fmap.
    split.
    + intros [_ Hi]. destruct (due !! i) as [v|]; [|done].
      destruct v; try done. simpl in Hi. injection Hi as Hi.
      eexists. split; [done|]. by apply Z.ltb_lt.
    + intros (t & -> & Ht). split; [lia|]. simpl. f_equal. by apply Z.ltb_lt.
Qed.

Lemma overdue_tasks_are_those_due_before_now_witness :
  exists df listed,
    (dashboard Schedule.reads_dates Schedule.same_day Schedule.now
       (Store Schedule.tasks [])).2
    = dashboard_events ++ summary_widgets (raw_frame Schedule.tasks)
      ++ chart_widgets df
      ++ [Written "### ⏰ Overdue Tasks"; Dataframe listed] /\
    series listed "Task Name" = [VStr "Alice"].
Proof.
  edestruct (overdue_tasks_are_those_due_before_now Schedule.reads_dates
               Schedule.same_day Schedule.now (Store Schedule.tasks []))
    as (df & listed & Hrun & _ & _ & Hnames & _).
  - vm_compute. reflexivity.
  - reflexivity.
  - discriminate.
  - intros col Hcol. vm_compute.
    destruct Hcol as [<-|[<-|[<-|[<-|[]]]]]; tauto.
  - exists df, listed. split.
    + rewrite Hrun. reflexivity.
    + rewrite Hnames. vm_compute. reflexivity.
Defined.

(** * Further properties: a delete and the run after it *)

Lemma first_match_delete name names i :
  first_match name names = Some i ->
  first_match name (delete i names)
  = (fun k => i + k) <$> first_match name (drop (S i) names).
Proof.
  revert i; induction names as [|v names IH]; intros i; simpl; [done|].
  destruct (py_eq v name) eqn:Hv.
  - intros [= <-]. simpl. rewrite ?drop_0.
    by destruct (first_match name names).
  - destruct (first_match name names) as [k|] eqn:Hk; simpl; [|done].
    intros [= <-]. simpl. rewrite Hv, (IH k eq_refl).
    by destruct (first_match name (drop (S k) names)).
Qed.

Lemma forallb_delete {A} (p : A -> bool) (l : list A) i :
  forallb p l = true -> forallb p (delete i l) = true.
Proof.
  revert i; induction l as [|x l IH]; intros i; simpl; [by destruct i|].
  intros [Hx Hl]%andb_prop. destruct i as [|i]; simpl; [done|].
  by rewrite Hx, IH.
Qed.

Lemma table_ok_delete ws p :
  table_ok ws = true -> table_ok (delete_row_on p ws) = true.
Proof.
  unfold table_ok. intros [Hnd Hrect]%andb_prop. simpl.
  by rewrite Hnd, forallb_delete.
Qed.

Lemma sheet_column_delete ws p col :
  sheet_column (delete_row_on p ws) col = delete (p - 2) (sheet_column ws col).
Proof.
  unfold sheet_column. simpl.
  apply (list_fmap_delete
           (fun r => default VNaN (j ← get_loc col (map normalize (header ws));
                                   r !! j))).
Qed.

(** X15.  After a "Delete" that went through (the position is an [int],
    the request was served) on a sheet with more than one record, the
    page loads again, and the name that was selected now resolves to the
    next record that has it, at its new position; when the deleted
    record was the only one of that name, the name resolves to nothing
    and the lookup raises [IndexError].  Repeating a delete by name thus
    removes namesakes from the top down. *)
Theorem deleted_name_resolves_to_next_namesake
    to_datetime inp s df s1 es first rest name i :
  table_ok (sheet s) = true ->
  load to_datetime s = (Return df, s1, es) ->
  add_clicked inp = false ->
  selected_row inp = first :: rest ->
  dict_get "Task Name" (fields first) = Some name ->
  first_row_named name (sheet_column (sheet s) "Task Name") i ->
  update_clicked inp = false -> delete_clicked inp = true ->
  int_position inp = true ->
  fails s 1 = false -> fails s 2 = false ->
  length (body (sheet s)) <> 1 ->
  let s' := answered (delete_row_on (i + 2) (sheet s)) (served s) in
  (task_table to_datetime inp s).1 = (Rerun, s') /\
  exists df',
    load to_datetime s' = (Return df', served s', load_events) /\
    forall s2,
      row_number df' name s2 =
        match first_match name
                (drop (S i) (sheet_column (sheet s) "Task Name")) with
        | Some k => (Return (i + k + 2), s2, [])
        | None => (Raise IndexError, s2, [])
        end.
Proof.
  intros Hok Hload Hadd Hsel Hname Hfirst Hu Hd Hint Hs1 Hs2 Hmore s'.
  pose proof (resolved_in_range _ _ _ Hfirst) as Hi.
  split.
  { rewrite (task_table_delete _ _ _ _ _ _ _ _ _ _
               Hok Hload Hadd Hsel Hname Hfirst Hu Hd), Hint, Hs1. reflexivity. }
  assert (table_ok (sheet s') = true) as Hok' by (by apply table_ok_delete).
  assert (fails s' 0 = false) as Hf.
  { subst s'. by rewrite fails_answered, fails_served. }
  destruct (load_same_labels to_datetime s df s1 es s') as [df' Hload'];
    try done.
  { subst s'. simpl. intros Hnil. apply (f_equal length) in Hnil.
    rewrite length_delete in Hnil by (apply lookup_lt_is_Some; lia).
    simpl in Hnil. lia. }
  exists df'. split; [done|]. intros s2.
  rewrite (row_number_loaded to_datetime s' df' _ _ name s2 Hok' Hload').
  subst s'. simpl. rewrite sheet_column_delete.
  replace (i + 2 - 2) with i by lia.
  apply first_row_named_match in Hfirst.
  rewrite (first_match_delete _ _ _ Hfirst).
  by destruct (first_match name (drop (S i) _)).
Qed.

Lemma deleted_name_resolves_to_next_namesake_witness :
  exists df',
    load Sample.nothing_parses
      (Store {| header := required_columns; body := [Sample.hem_bea] |} [])
    = (Return df',
       Store {| header := required_columns; body := [Sample.hem_bea] |} [],
       load_events) /\
    row_number df' (VStr "Hem") (Store Sample.twins [])
    = (Return 2, Store Sample.twins [], []).
Proof.
  edestruct (deleted_name_resolves_to_next_namesake Sample.nothing_parses
               (Sample.pandas3
                  (Sample.select [] [] (Sample.frame Sample.twins) 1 false true))
               (Store Sample.twins []))
    with (i := 0) as (_ & df' & Hload & Hrow).
  - vm_compute. reflexivity.
  - vm_compute. reflexivity.
  - reflexivity.
  - vm_compute. reflexivity.
  - vm_compute. reflexivity.
  - apply first_row_named_match. vm_compute. reflexivity.
  - reflexivity.
  - reflexivity.
  - reflexivity.
  - reflexivity.
  - reflexivity.
  - vm_compute. discriminate.
  - exists df'. split; [exact Hload|]. apply (Hrow (Store Sample.twins [])).
Defined.

(** X16.  A "Delete" that went through on the only record of the sheet
    leaves a sheet without records, and on it the next run of the task
    table page, whatever its inputs, ends at line 30 with an uncaught
    [AttributeError]: neither the add form nor a message is shown any
    more. *)
Theorem deleting_the_only_record_breaks_the_page
    to_datetime inp s df s1 es first rest name i inp' :
  table_ok (sheet s) = true ->
  load to_datetime s = (Return df, s1, es) ->
  add_clicked inp = false ->
  selected_row inp = first :: rest ->
  dict_get "Task Name" (fields first) = Some name ->
  first_row_named name (sheet_column (sheet s) "Task Name") i ->
  update_clicked inp = false -> delete_clicked inp = true ->
  int_position inp = true ->
  fails s 1 = false -> fails s 2 = false ->
  length (body (sheet s)) = 1 ->
  let s' := (task_table to_datetime inp s).1.2 in
  (task_table to_datetime inp s).1.1 = Rerun /\
  body (sheet s') = [] /\
  header (sheet s') = header (sheet s) /\
  task_table to_datetime inp' s' = (Raise AttributeError, served s', load_events).
Proof.
  intros Hok Hload Hadd Hsel Hname Hfirst Hu Hd Hint Hs1 Hs2 Hone.
  pose proof (resolved_in_range _ _ _ Hfirst) as Hi.
  cbv zeta.
  rewrite (task_table_delete _ _ _ _ _ _ _ _ _ _
             Hok Hload Hadd Hsel Hname Hfirst Hu Hd), Hint, Hs1.
  cbn [fst snd negb].
  set (s' := answered (delete_row_on (i + 2) (sheet s)) (served s)).
  assert (body (sheet s') = []) as Hnil.
  { subst s'. simpl. destruct (body (sheet s)) as [|r [|r' l]]; try done.
    replace (i + 2 - 2) with 0 by (simpl in Hi; lia). done. }
  split; [done|]. split; [done|]. split; [done|].
  apply task_table_Raise. rewrite load_run, Hnil.
  assert (fails s' 0 = false) as Hf.
  { subst s'. by rewrite fails_answered, fails_served. }
  unfold fails in Hf. by destruct (faults s') as [|[] ?].
Qed.

Lemma deleting_the_only_record_breaks_the_page_witness :
  (task_table Sample.nothing_parses Sample.add
     (task_table Sample.nothing_parses
        (Sample.pandas3
           (Sample.select [] []
              (Sample.frame {| header := required_columns;
                               body := [Sample.alice] |}) 0 false true))
        (Store {| header := required_columns; body := [Sample.alice] |} [])).1.2).1.1
  = Raise AttributeError.
Proof.
  edestruct (deleting_the_only_record_breaks_the_page Sample.nothing_parses
               (Sample.pandas3
                  (Sample.select [] []
                     (Sample.frame {| header := required_columns;
                                      body := [Sample.alice] |}) 0 false true))
               (Store {| header := required_columns; body := [Sample.alice] |} []))
    with (i := 0) (inp' := Sample.add) as (_ & _ & _ & Hrun).
  - vm_compute. reflexivity.
  - vm_compute. reflexivity.
  - reflexivity.
  - vm_compute. reflexivity.
  - vm_compute. reflexivity.
  - apply first_row_named_match. vm_compute. reflexivity.
  - reflexivity.
  - reflexivity.
  - reflexivity.
  - reflexivity.
  - reflexivity.
  - reflexivity.
  - rewrite Hrun. reflexivity.
Defined.
